(** * FlowData worker attestation: a shallow embedding of the worker code

    The development follows the Python sources of the worker node:
    - [worker_nodes/common/crypto.py]          (module [Crypto])
    - [worker_nodes/common/training_engine.py] (module [TrainingEngine])
    - [worker_nodes/worker_1/api.py]           (module [Api])
    - [worker_nodes/common/data_analyzer.py]   (module [DataAnalyzer],
      the entry of the analyser and its clustering)

    Python [str] values are represented by their UTF-8 byte sequence
    ([string]), so that [s.encode('utf-8')] is the conversion to a byte
    list; a [str] with a lone surrogate has no UTF-8 encoding and is
    kept as bytes that are not well-formed UTF-8, on which [str_encode]
    raises; [bytes] values are [list byte]; Python [int] is [Z]; Python
    [float] is IEEE binary64 ([PrimFloat.float]).  Library functions the
    sources call ([hashlib.sha256], [base64], [bytes.fromhex], [round],
    [repr] of a float) are modelled in the first modules; Ed25519, the
    JSON serialiser, the process environment, the random generator and
    the clock are fields of the class [World]. *)

From Stdlib Require Import ZArith List String Ascii Strings.Byte Bool Lia.
From Stdlib Require Import DecimalString DecimalZ.
From Stdlib Require Import Floats.PrimFloat Floats.SpecFloat Floats.FloatOps Uint63.
Import ListNotations.

Set Warnings "-inexact-float,-register-all".

Local Open Scope Z_scope.
Local Open Scope string_scope.

Definition bytes := list byte.

(* ================================================================== *)
(** * Part I: the embedding *)
(* ================================================================== *)

(** ** Helpers on Python strings and bytes *)
Module Py.

(** A [str] is kept as its UTF-8 bytes.  A [str] that holds a lone
    surrogate has no UTF-8 encoding: an environment value with bytes
    that are no UTF-8 ([os.getenv] decodes them with [surrogateescape]),
    a JSON text with an unpaired [\ud800] escape.  Such a text is kept
    as bytes that are not well-formed UTF-8 (the undecodable bytes
    themselves, the three-byte form of the surrogate); [valid_utf8]
    below tells the two kinds apart. *)

(** [s.encode('utf-8')], on a [str] that has a UTF-8 encoding. *)
Definition encode_utf8 (s : string) : bytes := list_byte_of_string s.

(** [b.decode('utf-8')] on bytes known to be ASCII (hex, base64 text). *)
Definition decode_utf8 (b : bytes) : string := string_of_list_byte b.

Definition byte_to_Z (b : byte) : Z := Z.of_N (Byte.to_N b).

(** Is [n] between [lo] and [hi]? *)
Definition between (lo hi n : Z) : bool := ((lo <=? n) && (n <=? hi))%Z.

(** Well-formed UTF-8: the byte strings [str.encode('utf-8')] returns.
    One byte below 128; a lead byte 194..223 and one continuation byte;
    a lead byte 224..239 and two, without the over-long forms and the
    surrogates; a lead byte 240..244 and three, up to U+10FFFF. *)
Fixpoint valid_utf8 (b : bytes) : bool :=
  match b with
  | [] => true
  | c0 :: r0 =>
      let n0 := byte_to_Z c0 in
      if (n0 <? 128)%Z then valid_utf8 r0
      else
        match r0 with
        | [] => false
        | c1 :: r1 =>
            let n1 := byte_to_Z c1 in
            if between 194 223 n0 then between 128 191 n1 && valid_utf8 r1
            else
              match r1 with
              | [] => false
              | c2 :: r2 =>
                  let n2 := byte_to_Z c2 in
                  if between 224 239 n0 then
                    between (if (n0 =? 224)%Z then 160 else 128)
                            (if (n0 =? 237)%Z then 159 else 191) n1
                    && between 128 191 n2 && valid_utf8 r2
                  else
                    match r2 with
                    | [] => false
                    | c3 :: r3 =>
                        between 240 244 n0
                        && between (if (n0 =? 240)%Z then 144 else 128)
                                   (if (n0 =? 244)%Z then 143 else 191) n1
                        && between 128 191 n2
                        && between 128 191 (byte_to_Z c3)
                        && valid_utf8 r3
                    end
              end
        end
  end.

Definition byte_of_Z (z : Z) : byte :=
  match Byte.of_N (Z.to_N (z mod 256)) with
  | Some b => b
  | None => x00
  end.

Definition ascii_of_Z (z : Z) : ascii := ascii_of_N (Z.to_N (z mod 256)).
Definition Z_of_ascii (c : ascii) : Z := Z.of_N (N_of_ascii c).

(** [str(n)] for an [int]. *)
Definition str_int (n : Z) : string := NilZero.string_of_int (Z.to_int n).

(** [str(b)] for a [bool]. *)
Definition str_bool (b : bool) : string := if b then "True" else "False".

(** [sep.join(parts)] *)
Fixpoint join (sep : string) (parts : list string) : string :=
  match parts with
  | [] => ""
  | [p] => p
  | p :: rest => p ++ sep ++ join sep rest
  end.

(** The line feed, ["\n"]. *)
Definition nl : string := String "010" "".

(** [s.split("\n")]: the lines of a text. *)
Fixpoint split_nl (s : string) : list string :=
  match s with
  | EmptyString => [""]
  | String c r =>
      if Ascii.eqb c "010" then "" :: split_nl r
      else
        match split_nl r with
        | l :: ls => String c l :: ls
        | [] => [String c ""]
        end
  end.

(** [s[:n]] on bytes. *)
Definition take (n : nat) (b : bytes) : bytes := firstn n b.

(** [s[:n]] on an ASCII string. *)
Fixpoint str_take (n : nat) (s : string) : string :=
  match n, s with
  | O, _ => ""
  | _, EmptyString => ""
  | S k, String c r => String c (str_take k r)
  end.

Definition hex_digit (d : Z) : ascii :=
  let d := d mod 16 in
  if (d <? 10)%Z then ascii_of_Z (48 + d) else ascii_of_Z (87 + d).

(** [b.hex()] *)
Fixpoint hex (b : bytes) : string :=
  match b with
  | [] => ""
  | x :: r =>
      String (hex_digit (byte_to_Z x / 16))
        (String (hex_digit (byte_to_Z x)) (hex r))
  end.

(** Truthiness of [str], of [Optional[str]] and of [dict]. *)
Definition truthy_str (s : string) : bool :=
  match s with EmptyString => false | _ => true end.

Definition truthy_opt (o : option string) : bool :=
  match o with Some s => truthy_str s | None => false end.

(** [a or b] on two [Optional[str]] values. *)
Definition or_else (a b : option string) : option string :=
  if truthy_opt a then a else b.

(** [c.upper()] on the ASCII letters. *)
Definition upper_ascii (c : ascii) : ascii :=
  let n := Z_of_ascii c in
  if ((97 <=? n) && (n <=? 122))%Z then ascii_of_Z (n - 32) else c.

Fixpoint upper (s : string) : string :=
  match s with
  | EmptyString => EmptyString
  | String c r => String (upper_ascii c) (upper r)
  end.

(** [s.replace(a, b)] for single characters [a] and [b]. *)
Fixpoint replace_char (a b : ascii) (s : string) : string :=
  match s with
  | EmptyString => EmptyString
  | String c r =>
      String (if Ascii.eqb c a then b else c) (replace_char a b r)
  end.

(** [s.splitlines()] on the UTF-8 bytes of [s]: the line boundaries
    are LF, CR, CR LF, VT, FF, FS, GS, RS, U+0085, U+2028 and U+2029;
    [cur] is the line being read. *)
Fixpoint splitlines_from (s cur : bytes) : list bytes :=
  match s with
  | [] => match cur with [] => [] | _ => [cur] end
  | x0d :: r =>
      cur :: match r with
             | x0a :: r' => splitlines_from r' []
             | _ => splitlines_from r []
             end
  | xc2 :: r =>
      match r with
      | x85 :: r' => cur :: splitlines_from r' []
      | _ => splitlines_from r (cur ++ [xc2])%list
      end
  | xe2 :: r =>
      match r with
      | x80 :: xa8 :: r' => cur :: splitlines_from r' []
      | x80 :: xa9 :: r' => cur :: splitlines_from r' []
      | _ => splitlines_from r (cur ++ [xe2])%list
      end
  | c :: r =>
      match c with
      | x0a | x0b | x0c | x1c | x1d | x1e => cur :: splitlines_from r []
      | _ => splitlines_from r (cur ++ [c])%list
      end
  end.

Definition splitlines (s : string) : list bytes :=
  splitlines_from (encode_utf8 s) [].

(** [not l.strip()]: every character of the line is white space
    ([str.isspace], on the UTF-8 bytes). *)
Fixpoint is_blank (l : bytes) : bool :=
  match l with
  | [] => true
  | c :: r =>
      match c with
      | x09 | x0a | x0b | x0c | x0d | x1c | x1d | x1e | x1f | x20 =>
          is_blank r
      | xc2 =>
          match r with
          | x85 :: r' | xa0 :: r' => is_blank r'
          | _ => false
          end
      | xe1 =>
          match r with
          | x9a :: x80 :: r' => is_blank r'
          | _ => false
          end
      | xe2 =>
          match r with
          | x80 :: d :: r' =>
              match d with
              | x80 | x81 | x82 | x83 | x84 | x85 | x86 | x87 | x88 | x89
              | x8a | xa8 | xa9 | xaf => is_blank r'
              | _ => false
              end
          | x81 :: x9f :: r' => is_blank r'
          | _ => false
          end
      | xe3 =>
          match r with
          | x80 :: x80 :: r' => is_blank r'
          | _ => false
          end
      | _ => false
      end
  end.

(** The code points of a [str], decoded from its UTF-8 bytes: what a
    [for ch in s] loop sees through [ord(ch)]. *)
Fixpoint code_points (l : list Z) : list Z :=
  match l with
  | [] => []
  | c :: r =>
      if (c <? 192)%Z then c :: code_points r
      else if (c <? 224)%Z then
        match r with
        | c1 :: r1 =>
            (Z.land c 31 * 64 + Z.land c1 63)%Z :: code_points r1
        | _ => c :: code_points r
        end
      else if (c <? 240)%Z then
        match r with
        | c1 :: c2 :: r2 =>
            (Z.land c 15 * 4096 + Z.land c1 63 * 64 + Z.land c2 63)%Z
            :: code_points r2
        | _ => c :: code_points r
        end
      else
        match r with
        | c1 :: c2 :: c3 :: r3 =>
            (Z.land c 7 * 262144 + Z.land c1 63 * 4096
             + Z.land c2 63 * 64 + Z.land c3 63)%Z :: code_points r3
        | _ => c :: code_points r
        end
  end.

Definition ords (s : string) : list Z :=
  code_points (map byte_to_Z (encode_utf8 s)).

(** [chr(n)], as the UTF-8 bytes of the character. *)
Definition chr (n : Z) : string :=
  if (n <? 128)%Z then String (ascii_of_Z n) ""
  else if (n <? 2048)%Z then
    String (ascii_of_Z (192 + n / 64))
      (String (ascii_of_Z (128 + n mod 64)) "")
  else if (n <? 65536)%Z then
    String (ascii_of_Z (224 + n / 4096))
      (String (ascii_of_Z (128 + (n / 64) mod 64))
         (String (ascii_of_Z (128 + n mod 64)) ""))
  else
    String (ascii_of_Z (240 + n / 262144))
      (String (ascii_of_Z (128 + (n / 4096) mod 64))
         (String (ascii_of_Z (128 + (n / 64) mod 64))
            (String (ascii_of_Z (128 + n mod 64)) ""))).

(** The [k] low hexadecimal digits of [n], most significant first. *)
Fixpoint hex_digits (k : nat) (n : Z) : string :=
  match k with
  | O => ""
  | S k' => hex_digits k' (n / 16) ++ String (hex_digit n) ""
  end.

(** The number of hexadecimal digits of [0 <= n]. *)
Definition hex_width (n : Z) : nat := Z.to_nat (Z.log2 n / 4 + 1).

(** [format(n, "08x")]: lower-case hexadecimal, padded with zeros to
    eight characters, the sign included. *)
Definition format_08x (n : Z) : string :=
  if (n <? 0)%Z
  then "-" ++ hex_digits (Nat.max 7 (hex_width (- n))) (- n)
  else hex_digits (Nat.max 8 (hex_width n)) n.

(** [float(n)] for an [int] of less than 63 bits. *)
Definition float_of_int (n : Z) : float :=
  if (n <? 0)%Z then (- of_uint63 (Uint63.of_Z (- n)))%float
  else of_uint63 (Uint63.of_Z n).

End Py.

(** ** [hashlib.sha256] (FIPS 180-4) *)
Module Sha256.
Import Py.

Definition w32 (x : Z) : Z := x mod 4294967296.
Definition add32 (x y : Z) : Z := w32 (x + y).
Definition rotr (n x : Z) : Z :=
  Z.lor (Z.shiftr x n) (w32 (Z.shiftl x (32 - n))).
Definition not32 (x : Z) : Z := Z.lxor x 4294967295.

Definition Ch (x y z : Z) : Z := Z.lxor (Z.land x y) (Z.land (not32 x) z).
Definition Maj (x y z : Z) : Z :=
  Z.lxor (Z.lxor (Z.land x y) (Z.land x z)) (Z.land y z).
Definition Sigma0 (x : Z) : Z :=
  Z.lxor (Z.lxor (rotr 2 x) (rotr 13 x)) (rotr 22 x).
Definition Sigma1 (x : Z) : Z :=
  Z.lxor (Z.lxor (rotr 6 x) (rotr 11 x)) (rotr 25 x).
Definition sigma0 (x : Z) : Z :=
  Z.lxor (Z.lxor (rotr 7 x) (rotr 18 x)) (Z.shiftr x 3).
Definition sigma1 (x : Z) : Z :=
  Z.lxor (Z.lxor (rotr 17 x) (rotr 19 x)) (Z.shiftr x 10).

(** The round constants and the initial hash value are the first 32
    bits of the fractional parts of the cube roots of the first 64
    primes and of the square roots of the first 8 primes. *)
Definition is_prime (n : nat) : bool :=
  forallb (fun d => negb (Nat.eqb (Nat.modulo n d) 0)) (seq 2 (n - 2)).

Definition primes : list Z :=
  map Z.of_nat (filter is_prime (seq 2 310)).

(** The integer cube root, bit by bit from [2 ^ fuel] down. *)
Fixpoint icbrt (fuel : nat) (n r : Z) : Z :=
  match fuel with
  | O => r
  | S f =>
      let c := r + 2 ^ Z.of_nat f in
      icbrt f n (if (c * c * c <=? n)%Z then c else r)
  end.

Definition cbrt_fraction (p : Z) : Z := w32 (icbrt 40 (p * 2 ^ 96) 0).
Definition sqrt_fraction (p : Z) : Z := w32 (Z.sqrt (p * 2 ^ 64)).

Definition K : list Z := Eval vm_compute in map cbrt_fraction primes.

(** The eight working variables / chaining values. *)
Record state := mkState {
  sa : Z; sb : Z; sc : Z; sd : Z; se : Z; sf : Z; sg : Z; sh : Z }.

Definition H0 : state :=
  Eval vm_compute in
    match map sqrt_fraction (firstn 8 primes) with
    | [a; b; c; d; e; f; g; h] => mkState a b c d e f g h
    | _ => mkState 0 0 0 0 0 0 0 0
    end.

(** Message padding: [0x80], zeros up to 56 mod 64, 64-bit bit length. *)
Definition be_bytes (n : nat) (x : Z) : bytes :=
  map (fun i => byte_of_Z (Z.shiftr x (8 * Z.of_nat i))) (rev (seq 0 n)).

Definition pad (msg : bytes) : bytes :=
  let len := Z.of_nat (List.length msg) in
  let k := (55 - len) mod 64 in
  (msg ++ [x80] ++ repeat x00 (Z.to_nat k) ++ be_bytes 8 (8 * len))%list.

Fixpoint words (fuel : nat) (b : bytes) : list Z :=
  match fuel, b with
  | S f, b0 :: b1 :: b2 :: b3 :: r =>
      (byte_to_Z b0 * 16777216 + byte_to_Z b1 * 65536
       + byte_to_Z b2 * 256 + byte_to_Z b3) :: words f r
  | _, _ => []
  end.

(** Message schedule: [w] holds W[0..t-1]; extend it to 64 words. *)
Fixpoint schedule (n : nat) (w : list Z) : list Z :=
  match n with
  | O => w
  | S n' =>
      let t := List.length w in
      let g := fun i => nth (t - i) w 0 in
      schedule n' (w ++ [w32 (sigma1 (g 2%nat) + g 7%nat
                              + sigma0 (g 15%nat) + g 16%nat)])%list
  end.

Definition round (s : state) (kw : Z * Z) : state :=
  let t1 := w32 (sh s + Sigma1 (se s) + Ch (se s) (sf s) (sg s)
                 + fst kw + snd kw) in
  let t2 := w32 (Sigma0 (sa s) + Maj (sa s) (sb s) (sc s)) in
  mkState (add32 t1 t2) (sa s) (sb s) (sc s)
          (add32 (sd s) t1) (se s) (sf s) (sg s).

Definition compress (h : state) (block : list Z) : state :=
  let w := schedule 48 block in
  let s := fold_left round (combine K w) h in
  mkState (add32 (sa h) (sa s)) (add32 (sb h) (sb s))
          (add32 (sc h) (sc s)) (add32 (sd h) (sd s))
          (add32 (se h) (se s)) (add32 (sf h) (sf s))
          (add32 (sg h) (sg s)) (add32 (sh h) (sh s)).

Fixpoint blocks (fuel : nat) (h : state) (w : list Z) : state :=
  match fuel, w with
  | S f, _ :: _ => blocks f (compress h (firstn 16 w)) (skipn 16 w)
  | _, _ => h
  end.

Definition state_words (s : state) : list Z :=
  [sa s; sb s; sc s; sd s; se s; sf s; sg s; sh s].

(** [hashlib.sha256(msg).digest()] *)
Definition digest (msg : bytes) : bytes :=
  let p := pad msg in
  let w := words (List.length p) p in
  flat_map (be_bytes 4) (state_words (blocks (List.length w) H0 w)).

(** [hashlib.sha256(msg).hexdigest()] *)
Definition hexdigest (msg : bytes) : string := hex (digest msg).

End Sha256.

(** ** [base64.b64encode], [base64.b64decode] and [bytes.fromhex] *)
Module Base64.
Import Py.
Local Open Scope Z_scope.

(** The standard alphabet: index to character. *)
Definition b64_char (i : Z) : byte :=
  byte_of_Z (if i <? 26 then 65 + i
             else if i <? 52 then 71 + i
             else if i <? 62 then i - 4
             else if i =? 62 then 43 else 47).

(** [table_a2b_base64]: character to index, [None] outside the alphabet. *)
Definition b64_index (c : byte) : option Z :=
  let n := byte_to_Z c in
  if (65 <=? n) && (n <=? 90) then Some (n - 65)
  else if (97 <=? n) && (n <=? 122) then Some (n - 71)
  else if (48 <=? n) && (n <=? 57) then Some (n + 4)
  else if n =? 43 then Some 62
  else if n =? 47 then Some 63
  else None.

(** [base64.b64encode(b)] *)
Fixpoint b64encode (b : bytes) : bytes :=
  match b with
  | [] => []
  | [x] =>
      let n := byte_to_Z x in
      [b64_char (n / 4); b64_char ((n mod 4) * 16); x3d; x3d]
  | [x; y] =>
      let n := byte_to_Z x in
      let m := byte_to_Z y in
      [b64_char (n / 4); b64_char ((n mod 4) * 16 + m / 16);
       b64_char ((m mod 16) * 4); x3d]
  | x :: y :: z :: r =>
      let n := byte_to_Z x in
      let m := byte_to_Z y in
      let p := byte_to_Z z in
      b64_char (n / 4) :: b64_char ((n mod 4) * 16 + m / 16)
      :: b64_char ((m mod 16) * 4 + p / 64) :: b64_char (p mod 64)
      :: b64encode r
  end.

Definition opt_cons (x : byte) (o : option bytes) : option bytes :=
  match o with Some l => Some (x :: l) | None => None end.

(** [binascii.a2b_base64] in its default, non-strict mode: characters
    outside the alphabet are skipped, a padding sequence that completes
    a quad ends the input, and an incomplete quad at the end of the
    input raises [binascii.Error] ([None]).  [quad_pos] counts the
    sextets of the current quad, [leftchar] holds the bits not yet
    written, [pads] the pad characters seen since the last sextet. *)
Fixpoint a2b_base64 (data : bytes) (quad_pos leftchar pads : Z)
  : option bytes :=
  match data with
  | [] => if quad_pos =? 0 then Some [] else None
  | c :: rest =>
      if Byte.eqb c x3d then
        if (2 <=? quad_pos) && (4 <=? quad_pos + (pads + 1)) then Some []
        else a2b_base64 rest quad_pos leftchar
               (if 2 <=? quad_pos then pads + 1 else pads)
      else
        match b64_index c with
        | None => a2b_base64 rest quad_pos leftchar pads
        | Some v =>
            if quad_pos =? 0 then a2b_base64 rest 1 v 0
            else if quad_pos =? 1 then
              opt_cons (byte_of_Z (Z.lor (Z.shiftl leftchar 2) (Z.shiftr v 4)))
                       (a2b_base64 rest 2 (Z.land v 15) 0)
            else if quad_pos =? 2 then
              opt_cons (byte_of_Z (Z.lor (Z.shiftl leftchar 4) (Z.shiftr v 2)))
                       (a2b_base64 rest 3 (Z.land v 3) 0)
            else
              opt_cons (byte_of_Z (Z.lor (Z.shiftl leftchar 6) v))
                       (a2b_base64 rest 0 0 0)
        end
  end.

Definition is_ascii (b : bytes) : bool :=
  forallb (fun c => byte_to_Z c <? 128) b.

(** [base64.b64decode(s)] on bytes. *)
Definition b64decode_bytes (b : bytes) : option bytes := a2b_base64 b 0 0 0.

(** [base64.b64decode(s)] on a [str]: the text is first encoded as
    ASCII, which raises [ValueError] on any other character. *)
Definition b64decode (s : string) : option bytes :=
  let b := encode_utf8 s in
  if is_ascii b then b64decode_bytes b else None.

(** [Py_ISSPACE] *)
Definition is_space (c : byte) : bool :=
  let n := byte_to_Z c in
  (n =? 32) || ((9 <=? n) && (n <=? 13)).

(** [_PyLong_DigitValue] restricted to base 16. *)
Definition hex_value (c : byte) : option Z :=
  let n := byte_to_Z c in
  if (48 <=? n) && (n <=? 57) then Some (n - 48)
  else if (97 <=? n) && (n <=? 102) then Some (n - 87)
  else if (65 <=? n) && (n <=? 70) then Some (n - 55)
  else None.

(** [_PyBytes_FromHex]: ASCII whitespace is skipped between bytes; each
    byte is two adjacent hexadecimal digits; anything else raises
    [ValueError] ([None]). *)
Fixpoint fromhex_bytes (data : bytes) : option bytes :=
  match data with
  | [] => Some []
  | c :: rest =>
      if is_space c then fromhex_bytes rest
      else
        match hex_value c, rest with
        | Some top, d :: rest' =>
            match hex_value d with
            | Some bot => opt_cons (byte_of_Z (top * 16 + bot))
                                   (fromhex_bytes rest')
            | None => None
            end
        | _, _ => None
        end
  end.

(** [bytes.fromhex(s)] *)
Definition fromhex (s : string) : option bytes :=
  fromhex_bytes (encode_utf8 s).

End Base64.

(** ** Python [float]: [round(x, ndigits)] and [repr(x)] on binary64 *)
Module PyFloat.
Import Py.
Local Open Scope Z_scope.

(** [p / q] rounded to the nearest integer, ties to even ([0 <= p], [0 < q]). *)
Definition div_rne (p q : Z) : Z :=
  let d := p / q in
  let r := p mod q in
  if 2 * r <? q then d
  else if q <? 2 * r then d + 1
  else if Z.even d then d else d + 1.

(** The binary64 value nearest to [p / q] (ties to even), for [0 < p]
    and [0 < q]: what [strtod] returns for the decimal [p / q]. *)
Definition float_of_ratio (p q : Z) : float :=
  let e0 := Z.log2 p - Z.log2 q - 53 in
  let floor_at := fun e =>
    if 0 <=? e then p / (q * 2 ^ e) else (p * 2 ^ (- e)) / q in
  let e1 := if floor_at e0 <? 2 ^ 53 then e0 else e0 + 1 in
  let e := Z.max e1 (-1074) in
  let m := if 0 <=? e then div_rne p (q * 2 ^ e)
           else div_rne (p * 2 ^ (- e)) q in
  Z.ldexp (of_uint63 (Uint63.of_Z m)) e.

(** [round(x, ndigits)] for [0 <= ndigits]: the decimal with [ndigits]
    fractional digits nearest to the exact value of [x] (ties to even),
    converted back to binary64. *)
Definition round_ndigits (x : float) (ndigits : Z) : float :=
  match Prim2SF x with
  | S754_finite s m e =>
      let t := 10 ^ ndigits in
      let n := if 0 <=? e then Zpos m * 2 ^ e * t
               else div_rne (Zpos m * t) (2 ^ (- e)) in
      if n =? 0 then (if s then (- 0)%float else 0%float)
      else if s then (- float_of_ratio n t)%float else float_of_ratio n t
  | _ => x
  end.

(** [p / q < 10 ^ d] *)
Definition below_pow10 (p q d : Z) : bool :=
  if 0 <=? d then p <? q * 10 ^ d else p * 10 ^ (- d) <? q.

(** The decimal point position: the [d] with [10^(d-1) <= p/q < 10^d],
    searched upwards from an under-estimate. *)
Fixpoint find_decpt (fuel : nat) (p q d : Z) : Z :=
  match fuel with
  | O => d
  | S f => if below_pow10 p q d then d else find_decpt f p q (d + 1)
  end.

Definition decpt_of (p q : Z) : Z :=
  find_decpt 8 p q (((Z.log2 p - Z.log2 q - 1) * 1233) / 4096 - 2).

(** The value [c * 10 ^ k] as a fraction. *)
Definition scale10 (c k : Z) : Z * Z :=
  if 0 <=? k then (c * 10 ^ k, 1) else (c, 10 ^ (- k)).

(** Does the decimal [c * 10 ^ k] read back as [x]? *)
Definition reads_back (x : float) (c k : Z) : bool :=
  let '(n, d) := scale10 c k in
  if 0 <? n then PrimFloat.eqb (float_of_ratio n d) x else false.

(** The shortest decimal [c * 10 ^ k] that reads back as [x = p / q],
    trying 1, 2, ... significant digits; among the two neighbours of
    [x] with that many digits the nearer one is preferred. *)
Fixpoint shortest (fuel : nat) (x : float) (p q decpt n : Z) : Z * Z :=
  let k := decpt - n in
  let '(num, den) := if 0 <=? k then (p, q * 10 ^ k)
                     else (p * 10 ^ (- k), q) in
  let lo := num / den in
  let r := num mod den in
  let lo_ok := reads_back x lo k in
  let hi_ok := reads_back x (lo + 1) k in
  let prefer_lo := (2 * r <? den) || ((2 * r =? den) && Z.even lo) in
  match fuel with
  | O => (div_rne num den, k)
  | S f =>
      if lo_ok && (prefer_lo || negb hi_ok) then (lo, k)
      else if hi_ok then (lo + 1, k)
      else shortest f x p q decpt (n + 1)
  end.

(** Drop the trailing zeros of a digit count. *)
Fixpoint strip_zeros (fuel : nat) (c k : Z) : Z * Z :=
  match fuel with
  | O => (c, k)
  | S f => if (c mod 10 =? 0) && (0 <? c) then strip_zeros f (c / 10) (k + 1)
           else (c, k)
  end.

Definition zeros (n : Z) : string :=
  string_of_list_ascii (repeat "0"%char (Z.to_nat n)).

Definition str_drop (n : nat) (s : string) : string :=
  substring n (String.length s - n) s.

(** [format_float_short] for the ['r'] format code: [digits] are the
    significant digits and [decpt] the position of the decimal point. *)
Definition format_short (digits : string) (decpt : Z) : string :=
  let n := Z.of_nat (String.length digits) in
  if (decpt <=? -4) || (16 <? decpt) then
    let ex := decpt - 1 in
    let mant := if 1 <? n
                then (str_take 1 digits ++ "." ++ str_drop 1 digits)%string
                else digits in
    let exd := str_int (Z.abs ex) in
    (mant ++ "e" ++ (if (ex <? 0)%Z then "-" else "+")
          ++ (if (Z.abs ex <? 10)%Z then "0" else "") ++ exd)%string
  else if decpt <=? 0 then
    ("0." ++ zeros (- decpt) ++ digits)%string
  else if decpt <? n then
    (str_take (Z.to_nat decpt) digits ++ "."
       ++ str_drop (Z.to_nat decpt) digits)%string
  else
    (digits ++ zeros (decpt - n) ++ ".0")%string.

(** [repr(x)], which is also [str(x)] and the f-string rendering of a
    float: the shortest decimal that reads back as [x]. *)
Definition repr (x : float) : string :=
  match Prim2SF x with
  | S754_nan => "nan"
  | S754_infinity s => if s then "-inf" else "inf"
  | S754_zero s => if s then "-0.0" else "0.0"
  | S754_finite s m e =>
      let '(p, q) := if 0 <=? e then (Zpos m * 2 ^ e, 1)
                     else (Zpos m, 2 ^ (- e)) in
      let d := decpt_of p q in
      let '(c0, k0) := shortest 16 (abs x) p q d 1 in
      let '(c, k) := strip_zeros 20 c0 k0 in
      let digits := str_int c in
      ((if s then "-" else "")
         ++ format_short digits (k + Z.of_nat (String.length digits)))%string
  end.

(** [int / int] true division of two positive integers. *)
Definition int_truediv (a b : Z) : float :=
  if a =? 0 then 0%float else float_of_ratio a b.

End PyFloat.

(** ** Python values, exceptions and the worker's environment *)

(** Values that are serialised to JSON or received from it.  A [dict]
    with string keys is an association list in insertion order. *)
Inductive pyval : Type :=
| PNone
| PBool (b : bool)
| PInt (n : Z)
| PFloat (x : float)
| PStr (s : string)
| PList (l : list pyval)
| PDict (d : list (string * pyval)).

Definition pydict := list (string * pyval).

(** [d.get(k)] *)
Fixpoint dict_lookup (k : string) (d : pydict) : option pyval :=
  match d with
  | [] => None
  | (k', v) :: r => if String.eqb k k' then Some v else dict_lookup k r
  end.

(** [d.get(k, default)] *)
Definition dict_get (k : string) (default : pyval) (d : pydict) : pyval :=
  match dict_lookup k d with Some v => v | None => default end.

(** Truthiness of an [Optional[Dict]]: [None] and [{}] are false. *)
Definition truthy_dict (d : option pydict) : bool :=
  match d with
  | Some (_ :: _) => true
  | _ => false
  end.

(** A raised exception: its class name and [str(e)]. *)
Inductive exn := Exn (kind : string) (msg : string).

Definition exn_str (e : exn) : string := let 'Exn _ m := e in m.

Inductive result (A : Type) : Type :=
| Ok (a : A)
| Raise (e : exn).
Arguments Ok {A} a.
Arguments Raise {A} e.

Definition bind {A B} (r : result A) (k : A -> result B) : result B :=
  match r with
  | Ok a => k a
  | Raise e => Raise e
  end.

(** [s.encode('utf-8')] on any [str]: a lone surrogate cannot be
    encoded. *)
Definition str_encode (s : string) : result bytes :=
  if Py.valid_utf8 (Py.encode_utf8 s) then Ok (Py.encode_utf8 s)
  else Raise (Exn "UnicodeEncodeError" "surrogates not allowed").

(** What [client.post(...)] can produce: an exception of the transport
    (time-out, refused connection, ...), or a response with a status
    code and a body; [response.json()] is [None] when the body is not
    JSON. *)
Inductive http_outcome :=
| TransportError (e : exn)
| Response (status : Z) (json : option pyval).

(** Everything outside the three source files: the process environment,
    optional imports, Ed25519 of the [cryptography] package (a private
    key object is represented by its 32 raw bytes), [secrets], [psutil]
    and [platform], the [json] serialiser, [repr] of containers, the
    [random] module, the UTC clock, the coordinator's decrypt end point
    and the body of the CSV analyser. *)
Class World : Type := {
  (* os.getenv *)
  getenv : string -> option string;
  (* the import guards of crypto.py *)
  ED25519_AVAILABLE : bool;
  PSUTIL_AVAILABLE : bool;
  (* Ed25519PrivateKey.generate(), as raw private bytes *)
  ed25519_generate : bytes;
  (* private_key.public_key().public_bytes(Raw, Raw) *)
  ed25519_public_bytes : bytes -> bytes;
  (* private_key.sign(message) *)
  ed25519_sign : bytes -> bytes -> bytes;
  (* secrets.token_bytes(32) *)
  token_bytes32 : bytes;
  (* cpu_count(logical=True), cpu_count(logical=False) and
     virtual_memory().total, or None when one of them raises *)
  psutil_probe : option (pyval * pyval * Z);
  (* platform.platform() and platform.processor() *)
  platform_platform : string;
  platform_processor : string;
  (* json.dumps(v, sort_keys=True) *)
  json_dumps : pyval -> string;
  (* repr(v) of a list or a dict *)
  py_repr : pyval -> string;
  (* the generator of the random module: seed, random(), randint(a, b) *)
  rng : Type;
  rng_seed : Z -> rng;
  rng_random : rng -> float * rng;
  rng_randint : Z -> Z -> rng -> Z * rng;
  (* the n-th reading of datetime.utcnow().isoformat() in a round *)
  utcnow_isoformat : nat -> string;
  (* the coordinator: its address, and its answer to the POST of a JSON
     body under a time-out *)
  COORDINATOR_URL : string;
  http_post : string -> pyval -> float -> http_outcome;
  (* analyze_csv_shard on a str, after its call of splitlines *)
  analyze_csv_text : string -> result pyval
}.

(** [str(v)], as an f-string renders a value. *)
Definition py_str `{World} (v : pyval) : string :=
  match v with
  | PNone => "None"
  | PBool b => Py.str_bool b
  | PInt n => Py.str_int n
  | PFloat x => PyFloat.repr x
  | PStr s => s
  | PList _ | PDict _ => py_repr v
  end.

(** [str(l)] for a list of floats. *)
Definition str_float_list (l : list float) : string :=
  "[" ++ Py.join ", " (map PyFloat.repr l) ++ "]".

Definition opt_str (o : option string) : pyval :=
  match o with Some s => PStr s | None => PNone end.

(** ** [worker_nodes/common/crypto.py] *)
Module Crypto.
Import Py.

Section WithWorld.
Context `{W : World}.

Record WorkerKeypair := mkKeypair {
  node_id : string;
  _keypair : option bytes;
  _public_key_bytes : bytes;
  _private_key_bytes : bytes
}.

(** The chain of decoders applied to a configured secret: the key
    material it gives when it returns. *)
Definition load_private_key (private_key_env : string) : bytes :=
  match Base64.b64decode private_key_env with
  | Some b => b
  | None =>
      match Base64.fromhex private_key_env with
      | Some b => b
      | None => take 32 (encode_utf8 private_key_env)
      end
  end.

Definition env_key_name (node_id : string) : string :=
  "WORKER_" ++ replace_char "-" "_" (upper node_id) ++ "_PRIVATE_KEY".

Definition env_key_name_alt (node_id : string) : string :=
  replace_char "-" "_" (upper node_id) ++ "_PRIVATE_KEY".

(** [Ed25519PrivateKey.from_private_bytes] *)
Definition from_private_bytes (b : bytes) : result bytes :=
  if Nat.eqb (List.length b) 32 then Ok b
  else Raise (Exn "ValueError" "An Ed25519 private key is 32 bytes long").

(** The exception the chain of decoders lets out, if any: the two
    decoders are under [try ... except], the raw fallback
    [private_key_env.encode('utf-8')] is not, and it is reached when
    both decoders fail. *)
Definition load_private_key_error (private_key_env : string) : option exn :=
  match Base64.b64decode private_key_env, Base64.fromhex private_key_env with
  | None, None =>
      match str_encode private_key_env with
      | Ok _ => None
      | Raise e => Some e
      end
  | _, _ => None
  end.

(** [WorkerKeypair.__init__] *)
Definition WorkerKeypair_init (node_id : string) : result WorkerKeypair :=
  let private_key_env :=
    or_else (getenv (env_key_name node_id))
            (getenv (env_key_name_alt node_id)) in
  bind
    (match private_key_env with
     | Some (String c r) =>
         match load_private_key_error (String c r) with
         | Some e => Raise e
         | None => Ok (None, load_private_key (String c r))
         end
     | _ =>
         Ok (if ED25519_AVAILABLE
             then (Some ed25519_generate, ed25519_generate)
             else (None, token_bytes32))
     end)
    (fun '(keypair0, private_key_bytes) =>
       bind (match ED25519_AVAILABLE, keypair0 with
             | true, None =>
                 bind (from_private_bytes private_key_bytes)
                      (fun k => Ok (Some k))
             | _, _ => Ok keypair0
             end)
         (fun keypair =>
            let public_key_bytes :=
              match ED25519_AVAILABLE, keypair with
              | true, Some k => ed25519_public_bytes k
              | _, _ => take 32 (Sha256.digest private_key_bytes)
              end in
            Ok (mkKeypair node_id keypair public_key_bytes
                  private_key_bytes))).

(** [WorkerKeypair.sign] *)
Definition sign (self : WorkerKeypair) (message : bytes) : bytes :=
  match ED25519_AVAILABLE, _keypair self with
  | true, Some k => ed25519_sign k message
  | _, _ => Sha256.digest (_private_key_bytes self ++ message)%list
  end.

Definition get_public_key_base64 (self : WorkerKeypair) : string :=
  decode_utf8 (Base64.b64encode (_public_key_bytes self)).

Definition get_public_key_hex (self : WorkerKeypair) : string :=
  hex (_public_key_bytes self).

Definition get_sui_address (self : WorkerKeypair) : string :=
  "0x" ++ str_take 64 (hex (_public_key_bytes self)).

(** [sha256_hash] on a [str] argument. *)
Definition sha256_hash (data : string) : string :=
  Sha256.hexdigest (encode_utf8 data).

Definition get_hardware_info : pydict :=
  let fallback :=
    [ ("cpu_cores", PInt 1); ("cpu_physical_cores", PInt 1);
      ("memory_gb", PInt 0); ("platform", PStr platform_platform);
      ("processor", PStr "unknown") ] in
  if PSUTIL_AVAILABLE then
    match psutil_probe with
    | Some (logical, physical, total) =>
        [ ("cpu_cores", logical); ("cpu_physical_cores", physical);
          ("memory_gb",
            PFloat (PyFloat.round_ndigits
                      (PyFloat.int_truediv total 1073741824) 2));
          ("platform", PStr platform_platform);
          ("processor",
            PStr (if truthy_str platform_processor
                  then platform_processor else "unknown")) ]
    | None => fallback
    end
  else fallback.

Definition create_commit_hash (plaintext_data : string) : string :=
  sha256_hash plaintext_data.

Record CommitVerification := mkCommitVerification {
  cv_match : bool;
  cv_computedHash : string;
  cv_commitHash : string;
  cv_verified : bool
}.

Definition verify_commit (plaintext_data commit_hash : string)
  : CommitVerification :=
  let computed_hash := sha256_hash plaintext_data in
  let match_ := String.eqb computed_hash commit_hash in
  mkCommitVerification match_ computed_hash commit_hash match_.

(** The dictionary [verify_commit] returns. *)
Definition commit_dict (cv : CommitVerification) : pydict :=
  [ ("match", PBool (cv_match cv));
    ("computedHash", PStr (cv_computedHash cv));
    ("commitHash", PStr (cv_commitHash cv));
    ("verified", PBool (cv_verified cv)) ].



Record Attestation := mkAttestation {
  message : string;
  signature : string;
  publicKey : string;
  signerPubKey : string;
  weightsHash : string;
  lossHistoryHash : string;
  suiAddress : string;
  hardwareInfo : pydict;
  commitVerified : option pydict
}.

(** The nine lines every message starts with. *)
Definition required_parts
    (node_id weights_hash loss_history_hash started_at finished_at
     global_model_hash : string)
    (num_samples epoch_count random_seed : Z) : list string :=
  [ "nodeId:" ++ node_id;
    "weightsHash:" ++ weights_hash;
    "lossHistoryHash:" ++ loss_history_hash;
    "startedAt:" ++ started_at;
    "finishedAt:" ++ finished_at;
    "globalModelHash:" ++ global_model_hash;
    "numSamples:" ++ str_int num_samples;
    "epochCount:" ++ str_int epoch_count;
    "randomSeed:" ++ str_int random_seed ].

(** [if hardware_info: message_parts.append(...)]; the truth test of an
    [Optional[Dict]] is the pattern [Some (e :: d)]. *)
Definition hardware_parts (hardware_info : option pydict) : list string :=
  match hardware_info with
  | Some (e :: d) => [ "hardware:" ++ json_dumps (PDict (e :: d)) ]
  | _ => []
  end.

(** [if commit_verified: message_parts.append(...); ...append(...)] *)
Definition commit_parts (commit_verified : option pydict) : list string :=
  match commit_verified with
  | Some (e :: d) =>
      [ "commitVerified:"
          ++ py_str (dict_get "match" (PBool false) (e :: d));
        "commitHash:"
          ++ py_str (dict_get "commitHash" (PStr "") (e :: d)) ]
  | _ => []
  end.

(** The lines of the signed message. *)
Definition message_parts
    (node_id weights_hash loss_history_hash started_at finished_at
     global_model_hash : string)
    (num_samples epoch_count random_seed : Z)
    (hardware_info commit_verified : option pydict) : list string :=
  List.app
    (required_parts node_id weights_hash loss_history_hash started_at
       finished_at global_model_hash num_samples epoch_count random_seed)
    (List.app (hardware_parts hardware_info)
              (commit_parts commit_verified)).

Definition loss_history_text (loss_history : list float) : string :=
  join "," (map PyFloat.repr loss_history).

Definition create_attestation
    (node_id weights_hash : string) (loss_history : list float)
    (started_at finished_at global_model_hash : string)
    (num_samples epoch_count random_seed : Z)
    (keypair : WorkerKeypair)
    (hardware_info commit_verified : option pydict) : Attestation :=
  let loss_history_hash := sha256_hash (loss_history_text loss_history) in
  let message :=
    join nl
      (message_parts node_id weights_hash loss_history_hash started_at
         finished_at global_model_hash num_samples epoch_count random_seed
         hardware_info commit_verified) in
  let message_bytes := encode_utf8 message in
  let signature_bytes := sign keypair message_bytes in
  let signature_base64 := decode_utf8 (Base64.b64encode signature_bytes) in
  let public_key_base64 := get_public_key_base64 keypair in
  let sui_address := get_sui_address keypair in
  mkAttestation message signature_base64 public_key_base64
    public_key_base64 weights_hash loss_history_hash sui_address
    (match hardware_info with
     | Some (e :: d) => e :: d
     | _ => get_hardware_info
     end)
    commit_verified.

Record Encoded := mkEncoded {
  encrypted : bool;
  data : string;
  encryption : option string
}.

Definition encrypt_for_coordinator (data : pyval)
    (session_key : option string) : Encoded :=
  let data_json := json_dumps data in
  if truthy_opt session_key then
    let encrypted_data :=
      decode_utf8 (Base64.b64encode (encode_utf8 data_json)) in
    mkEncoded true encrypted_data (Some "base64")
  else mkEncoded false data_json None.

End WithWorld.
End Crypto.

(** ** [worker_nodes/common/training_engine.py] *)
Module TrainingEngine.
Import Py.

Section WithWorld.
Context `{W : World}.

Record TrainStats := mkTrainStats {
  num_samples : Z;
  loss_history : list float;
  epoch_loss_hashes : list string;
  epoch_gradient_norm_hashes : list string;
  random_challenge_seed : Z
}.

(** [range(n)] *)
Definition range (n : Z) : list Z := map Z.of_nat (seq 0 (Z.to_nat n)).

(** The variables the epoch loop updates. *)
Record loop_state := mkLoop {
  ls_rng : rng;
  ls_loss : float;
  ls_history : list float;
  ls_loss_hashes : list string;
  ls_grad_hashes : list string
}.

Definition loss_hash_text (epoch : Z) (loss_rounded : float)
    (seed challenge : Z) : string :=
  "epoch:" ++ str_int epoch ++ ":loss:" ++ PyFloat.repr loss_rounded
    ++ ":seed:" ++ str_int seed ++ ":challenge:" ++ str_int challenge.

Definition grad_hash_text (epoch : Z) (gradient_norm : float)
    (seed challenge : Z) : string :=
  "epoch:" ++ str_int epoch ++ ":grad_norm:" ++ PyFloat.repr gradient_norm
    ++ ":seed:" ++ str_int seed ++ ":challenge:" ++ str_int challenge.

(** [hashlib.sha256(text.encode()).hexdigest()] *)
Definition sha256_hex (text : string) : string :=
  Sha256.hexdigest (encode_utf8 text).

(** One iteration of the epoch loop.  The first draw is the one spent
    on [time.sleep]. *)
Definition epoch_body (seed random_challenge_seed : Z)
    (st : loop_state) (epoch : Z) : loop_state :=
  let '(_, g1) := rng_random (ls_rng st) in
  let '(u, g2) := rng_random g1 in
  let loss := (ls_loss st * (0.82 + u * 0.04))%float in
  let loss_rounded := PyFloat.round_ndigits loss 4 in
  let loss_hash :=
    sha256_hex (loss_hash_text epoch loss_rounded seed
                  random_challenge_seed) in
  let gradient_norm := (1.0 / (loss + 0.01))%float in
  let gradient_norm_hash :=
    sha256_hex (grad_hash_text epoch gradient_norm seed
                  random_challenge_seed) in
  mkLoop g2 loss
    (ls_history st ++ [loss_rounded])%list
    (ls_loss_hashes st ++ [loss_hash])%list
    (ls_grad_hashes st ++ [gradient_norm_hash])%list.

(** The number of iterations of the epoch loop. *)
Definition epochs_run (epochs : Z) : Z := Z.max 1 (Z.min epochs 10).

Definition count_samples (csv_text : string) : Z :=
  let lines := filter (fun l => negb (is_blank l)) (splitlines csv_text) in
  Z.max 10 (Z.of_nat (List.length lines) - 1).

(** The state of the loop when it is entered. *)
Definition loop_entry (seed : Z) : loop_state * Z :=
  let g0 := rng_seed seed in
  let '(u0, g1) := rng_random g0 in
  let loss := (1.0 + u0 * 0.2)%float in
  let '(random_challenge_seed, g2) := rng_randint 1000000 9999999 g1 in
  (mkLoop g2 loss [] [] [], random_challenge_seed).

Definition train_on_csv (csv_text : string) (epochs seed : Z)
  : TrainStats :=
  let num_samples := count_samples csv_text in
  let '(st0, random_challenge_seed) := loop_entry seed in
  let st :=
    fold_left (epoch_body seed random_challenge_seed)
              (range (epochs_run epochs)) st0 in
  mkTrainStats num_samples (ls_history st) (ls_loss_hashes st)
    (ls_grad_hashes st) random_challenge_seed.

(** The value of [loss] at the end of each iteration of the loop run
    over [epochs] from the state [st]. *)
Fixpoint raw_losses (seed random_challenge_seed : Z) (st : loop_state)
    (epochs : list Z) : list float :=
  match epochs with
  | [] => []
  | e :: r =>
      let st' := epoch_body seed random_challenge_seed st e in
      ls_loss st' :: raw_losses seed random_challenge_seed st' r
  end.

(** The unrounded losses of a run of [train_on_csv], one per epoch. *)
Definition running_losses (epochs seed : Z) : list float :=
  let '(st0, random_challenge_seed) := loop_entry seed in
  raw_losses seed random_challenge_seed st0 (range (epochs_run epochs)).

End WithWorld.

(** The body of the loop of [hash_lite]. *)
Definition hash_lite_step (h ch : Z) : Z :=
  let h := Z.lxor h ch in
  Z.land (h + (Z.shiftl h 1 + Z.shiftl h 4 + Z.shiftl h 7 + Z.shiftl h 8
               + Z.shiftl h 24))
         4294967295.

Definition hash_lite (s : string) : string :=
  "h" ++ format_08x (fold_left hash_lite_step (ords s) 2166136261).

End TrainingEngine.

(** ** [worker_nodes/worker_1/api.py] *)
Module Api.
Import Py Crypto TrainingEngine.

Record TrainShardRequest := mkRequest {
  dataShard : string;
  globalModelHash : string;
  epochCount : Z;
  nodeId : string;
  randomSeed : Z;
  encryptedData : option string;
  sessionKey : option string;
  txBytes : option string;
  userAddress : option string;
  commitHash : option string
}.

Section WithWorld.
Context `{W : World}.

(** The calls the handler makes to its collaborators, in order. *)
Inductive call :=
| CallDecrypt (url : string) (body : pyval) (timeout : float)
| CallVerifyCommit (plaintext : pyval) (commit_hash : string)
| CallAnalyze (csv_text : pyval)
| CallTrain (csv_text : pyval) (epochs seed : Z)
| CallAttest (a : Attestation)
| CallEncrypt (payload : pyval) (session_key : option string).

(** The handler's mutable state: the number of clock readings so far,
    the [audit_events] list and the calls made. *)
Record hstate := mkH {
  clock : nat;
  audit_events : list pyval;
  calls : list call
}.

Definition M (A : Type) : Type := hstate -> result A * hstate.

Definition ret {A} (a : A) : M A := fun st => (Ok a, st).

Definition raise {A} (e : exn) : M A := fun st => (Raise e, st).

Definition mbind {A B} (m : M A) (k : A -> M B) : M B :=
  fun st =>
    match m st with
    | (Ok a, st') => k a st'
    | (Raise e, st') => (Raise e, st')
    end.

(** [try: body except Exception as e: handler e] *)
Definition try_except {A} (body : M A) (handler : exn -> M A) : M A :=
  fun st =>
    match body st with
    | (Ok a, st') => (Ok a, st')
    | (Raise e, st') => handler e st'
    end.

Definition lift {A} (r : result A) : M A := fun st => (r, st).

(** [datetime.utcnow().isoformat()] *)
Definition now : M string :=
  fun st =>
    (Ok (utcnow_isoformat (clock st)),
     mkH (S (clock st)) (audit_events st) (calls st)).

(** [audit_events.append(ev)] *)
Definition audit_append (ev : pyval) : M unit :=
  fun st =>
    (Ok tt, mkH (clock st) (audit_events st ++ [ev])%list (calls st)).

Definition get_audit : M (list pyval) :=
  fun st => (Ok (audit_events st), st).

Definition log (c : call) : M unit :=
  fun st =>
    (Ok tt, mkH (clock st) (audit_events st) (calls st ++ [c])%list).

Notation "x <- m ;; k" := (mbind m (fun x => k))
  (at level 61, m at next level, right associativity).
Notation "m ;;; k" := (mbind m (fun _ => k))
  (at level 61, right associativity).

(** [v[k]] for a string key on a value received from JSON. *)
Definition getitem (v : pyval) (k : string) : result pyval :=
  match v with
  | PDict d =>
      match dict_lookup k d with
      | Some x => Ok x
      | None => Raise (Exn "KeyError" ("'" ++ k ++ "'"))
      end
  | PList _ =>
      Raise (Exn "TypeError" "list indices must be integers or slices, not str")
  | PStr _ => Raise (Exn "TypeError" "string indices must be integers")
  | _ => Raise (Exn "TypeError" "object is not subscriptable")
  end.

(** [verify_commit] on a value received from JSON: [sha256_hash] encodes
    a [str] only, and [hashlib.sha256] raises [TypeError] on any other
    JSON value. *)
Definition verify_commit_value (plaintext : pyval) (commit_hash : string)
  : result CommitVerification :=
  match plaintext with
  | PStr s => Ok (verify_commit s commit_hash)
  | _ => Raise (Exn "TypeError"
                  "object supporting the buffer API required")
  end.

(** [analyze_csv_shard]: its first statement calls [csv_text.splitlines()],
    which only a [str] has. *)
Definition analyze_csv_shard (csv_text : pyval) : result pyval :=
  match csv_text with
  | PStr s => analyze_csv_text s
  | _ => Raise (Exn "AttributeError"
                  "object has no attribute 'splitlines'")
  end.

(** [train_on_csv] on a value received from JSON. *)
Definition train_on_csv_value (csv_text : pyval) (epochs seed : Z)
  : result TrainStats :=
  match csv_text with
  | PStr s => Ok (train_on_csv s epochs seed)
  | _ => Raise (Exn "AttributeError"
                  "object has no attribute 'splitlines'")
  end.

(** [response.is_success] *)
Definition is_success (status : Z) : bool :=
  ((200 <=? status) && (status <=? 299))%Z.

(** The time-out given to [httpx.AsyncClient]. *)
Definition DECRYPT_TIMEOUT : float := 30.0%float.

Definition decrypt_request_body (req : TrainShardRequest) : pyval :=
  PDict [ ("encryptedData", opt_str (encryptedData req));
          ("sessionKey", opt_str (sessionKey req));
          ("txBytes", opt_str (txBytes req));
          ("userAddress", opt_str (userAddress req)) ].

(** [raise_for_status()] and [json()] on what [client.post] produced. *)
Definition response_json (o : http_outcome) : result pyval :=
  match o with
  | TransportError e => Raise e
  | Response status json =>
      if is_success status then
        match json with
        | Some v => Ok v
        | None => Raise (Exn "JSONDecodeError" "Expecting value")
        end
      else Raise (Exn "HTTPStatusError" ("status " ++ str_int status))
  end.

Definition decrypt_url : string := COORDINATOR_URL ++ "/api/decrypt".

(** [client.post(...)], [raise_for_status()] and [json()]. *)
Definition post_decrypt (req : TrainShardRequest) : M pyval :=
  let body := decrypt_request_body req in
  log (CallDecrypt decrypt_url body DECRYPT_TIMEOUT) ;;;
  lift (response_json (http_post decrypt_url body DECRYPT_TIMEOUT)).

(** What the decrypt collaborator delivers for a request: the value of
    [decrypt_result["decryptedData"]], or the exception raised on the
    way to it. *)
Definition decrypted_data (req : TrainShardRequest) : result pyval :=
  bind (response_json (http_post decrypt_url (decrypt_request_body req)
                         DECRYPT_TIMEOUT))
       (fun decrypt_result => getitem decrypt_result "decryptedData").

Definition event (name ts : string) (more : pydict) : pyval :=
  PDict (("event", PStr name) :: ("timestamp", PStr ts) :: more).

(** The body of the [try] block. *)
Definition decrypt_and_verify (req : TrainShardRequest)
  : M (pyval * option pydict) :=
  t <- now ;;
  audit_append (event "decrypt_permission_request" t
                  [("hasTxBytes", PBool (truthy_opt (txBytes req)))]) ;;;
  decrypt_result <- post_decrypt req ;;
  data_shard <- lift (getitem decrypt_result "decryptedData") ;;
  commit_verified <-
    match commitHash req with
    | Some (String c r) =>
        let h := String c r in
        log (CallVerifyCommit data_shard h) ;;;
        cv <- lift (verify_commit_value data_shard h) ;;
        t <- now ;;
        audit_append (event "commit_verification" t
                        [("match", PBool (cv_match cv));
                         ("commitHash", PStr h)]) ;;;
        ret (Some (commit_dict cv))
    | _ => ret None
    end ;;
  t <- now ;;
  audit_append (event "decrypt_permission_granted" t []) ;;;
  ret (data_shard, commit_verified).

Inductive response :=
| ErrorResponse (body : pyval) (status : Z)
| EncryptedUpdate (encrypted_update : Encoded)
| PlainUpdate (update_payload : pyval).

(** The [except] block. *)
Definition decrypt_failed (req : TrainShardRequest) (e : exn)
  : M response :=
  t <- now ;;
  audit_append (event "decrypt_failed" t [("error", PStr (exn_str e))]) ;;;
  evs <- get_audit ;;
  ret (ErrorResponse
         (PDict [ ("error", PStr ("Decryption failed: " ++ exn_str e));
                  ("nodeId", PStr (nodeId req));
                  ("auditEvents", PList evs) ])
         400).

Definition attestation_dict (a : Attestation) : pyval :=
  PDict [ ("message", PStr (message a));
          ("signature", PStr (signature a));
          ("publicKey", PStr (publicKey a));
          ("signerPubKey", PStr (signerPubKey a));
          ("weightsHash", PStr (weightsHash a));
          ("lossHistoryHash", PStr (lossHistoryHash a));
          ("suiAddress", PStr (suiAddress a));
          ("hardwareInfo", PDict (hardwareInfo a));
          ("commitVerified",
            match commitVerified a with
            | Some d => PDict d
            | None => PNone
            end) ].

(** The process-wide key pair, created when the module is loaded. *)
Variable WORKER_KEYPAIR : WorkerKeypair.

Definition WORKER_HARDWARE_INFO : pydict := get_hardware_info.

(** The text whose hash is the weights hash. *)
Definition weights_data (req : TrainShardRequest) (stats : TrainStats)
  : string :=
  nodeId req ++ ":" ++ globalModelHash req ++ ":"
    ++ str_float_list (loss_history stats) ++ ":"
    ++ str_int (num_samples stats) ++ ":"
    ++ str_int (random_challenge_seed stats).

(** The handler's call of [create_attestation]. *)
Definition round_attestation (req : TrainShardRequest)
    (stats : TrainStats) (started finished : string)
    (commit_verified : option pydict) : Attestation :=
  create_attestation (nodeId req) (sha256_hash (weights_data req stats))
    (loss_history stats) started finished (globalModelHash req)
    (num_samples stats) (epochCount req) (randomSeed req) WORKER_KEYPAIR
    (Some WORKER_HARDWARE_INFO) commit_verified.

(** The part of the handler after the decryption block. *)
Definition train_and_attest (req : TrainShardRequest) (started : string)
    (data_shard : pyval) (commit_verified : option pydict) : M response :=
  log (CallAnalyze data_shard) ;;;
  data_insights <- lift (analyze_csv_shard data_shard) ;;
  log (CallTrain data_shard (epochCount req) (randomSeed req)) ;;;
  stats <- lift (train_on_csv_value data_shard (epochCount req)
                   (randomSeed req)) ;;
  _ <- now ;;
  let weights_hash := sha256_hash (weights_data req stats) in
  let delta := "sha256:" ++ str_take 32 weights_hash in
  finished <- now ;;
  let attestation :=
    round_attestation req stats started finished commit_verified in
  log (CallAttest attestation) ;;;
  t1 <- now ;;
  t2 <- now ;;
  t3 <- now ;;
  audit_append (event "training_complete" finished
                  [("numSamples", PInt (num_samples stats));
                   ("epochs", PInt (epochCount req))]) ;;;
  audit_append (event "worker_identity" t1
                  [("suiAddress", PStr (suiAddress attestation));
                   ("hardwareInfo", PDict WORKER_HARDWARE_INFO)]) ;;;
  audit_append (event "update_hash" t2
                  [("weightsHash", PStr weights_hash);
                   ("lossHistoryHash",
                     PStr (lossHistoryHash attestation))]) ;;;
  audit_append (event "signature_generated" t3
                  [("signature",
                     PStr (str_take 32 (signature attestation) ++ "..."));
                   ("publicKey",
                     PStr (str_take 32 (publicKey attestation) ++ "..."))]) ;;;
  evs <- get_audit ;;
  let update_payload :=
    PDict [ ("nodeId", PStr (nodeId req));
            ("suiAddress", PStr (suiAddress attestation));
            ("numSamples", PInt (num_samples stats));
            ("deltaWeightsHash", PStr delta);
            ("weightsHash", PStr weights_hash);
            ("lossHistory", PList (map PFloat (loss_history stats)));
            ("startedAt", PStr started);
            ("finishedAt", PStr finished);
            ("dataInsights", data_insights);
            ("epochLossHashes",
              PList (map PStr (epoch_loss_hashes stats)));
            ("epochGradientNormHashes",
              PList (map PStr (epoch_gradient_norm_hashes stats)));
            ("randomChallengeSeed", PInt (random_challenge_seed stats));
            ("attestation", attestation_dict attestation);
            ("auditTrace", PList evs) ] in
  if truthy_opt (sessionKey req) then
    log (CallEncrypt update_payload (sessionKey req)) ;;;
    ret (EncryptedUpdate
           (encrypt_for_coordinator update_payload (sessionKey req)))
  else ret (PlainUpdate update_payload).

(** [req.encryptedData and req.sessionKey], the condition of the
    decryption block. *)
Definition decrypt_requested (req : TrainShardRequest) : bool :=
  truthy_opt (encryptedData req) && truthy_opt (sessionKey req).

(** [POST /train] *)
Definition train (req : TrainShardRequest) : M response :=
  started <- now ;;
  audit_append (event "training_start" started
                  [("nodeId", PStr (nodeId req));
                   ("globalModelHash", PStr (globalModelHash req))]) ;;;
  r <- (if decrypt_requested req
        then
          try_except
            (x <- decrypt_and_verify req ;; ret (inl x))
            (fun e => resp <- decrypt_failed req e ;; ret (inr resp))
        else ret (inl (PStr (dataShard req), None))) ;;
  match r with
  | inr resp => ret resp
  | inl (data_shard, commit_verified) =>
      train_and_attest req started data_shard commit_verified
  end.

(** Kinds of values and of calls, to describe the runs of the handler. *)
Definition is_str (v : pyval) : bool :=
  match v with PStr _ => true | _ => false end.

Definition is_encrypt_call (c : call) : Prop :=
  match c with CallEncrypt _ _ => True | _ => False end.

Definition is_decrypt_phase_call (c : call) : Prop :=
  match c with
  | CallDecrypt _ _ _ | CallVerifyCommit _ _ => True
  | _ => False
  end.

Definition is_training_call (c : call) : Prop :=
  match c with CallTrain _ _ _ | CallAttest _ => True | _ => False end.

(** The handler run from a fresh state. *)
Definition handle (req : TrainShardRequest) : result response * hstate :=
  train req (mkH 0 [] []).

(** [GET /health] *)
Definition health : pyval :=
  PDict [ ("ok", PBool true); ("role", PStr "worker");
          ("nodeId", PStr "worker-1");
          ("suiAddress", PStr (get_sui_address WORKER_KEYPAIR));
          ("hardwareInfo", PDict WORKER_HARDWARE_INFO);
          ("signatureAvailable", PBool true) ].

End WithWorld.
End Api.

(** ** [worker_nodes/common/data_analyzer.py]

    The entry of [analyze_csv_shard] and [simple_cluster]. *)
Module DataAnalyzer.
Import Py.

(** The answer for a shard without data. *)
Definition NO_INSIGHTS : pyval :=
  PDict [ ("num_samples", PInt 0); ("columns", PList []);
          ("statistics", PDict []); ("correlations", PList []);
          ("clusters", PList []); ("trends", PList []);
          ("outliers", PList []) ].

(** [len(lines)] for
    [lines = [l.strip() for l in csv_text.splitlines() if l.strip()]]. *)
Definition count_lines (csv_text : string) : nat :=
  List.length (filter (fun l => negb (is_blank l)) (splitlines csv_text)).

Section Analysis.

(** The rest of [analyze_csv_shard], from the [csv.DictReader] parse on. *)
Variable analyze_rows : string -> result pyval.

Definition analyze_csv_shard (csv_text : string) : result pyval :=
  if (count_lines csv_text <? 2)%nat then Ok NO_INSIGHTS
  else analyze_rows csv_text.

End Analysis.

(** A point [{"x": ..., "y": ...}] and a clustered point
    [{"x": ..., "y": ..., "cluster": ..., "label": ...}]. *)
Record point := mkPoint { px : float; py : float }.

Record clustered := mkClustered {
  cx : float; cy : float; cluster : string; label : string }.

(** [min(...)] and [max(...)] of a generator of floats: the first
    item, replaced by each later item that compares below (above) it. *)
Definition py_min (l : list float) : result float :=
  match l with
  | [] => Raise (Exn "ValueError" "min() arg is an empty sequence")
  | x :: r => Ok (fold_left (fun m y => if (y <? m)%float then y else m) r x)
  end.

Definition py_max (l : list float) : result float :=
  match l with
  | [] => Raise (Exn "ValueError" "max() arg is an empty sequence")
  | x :: r => Ok (fold_left (fun m y => if (m <? y)%float then y else m) r x)
  end.

Section Cluster.

(** [x ** y] on floats, the [pow] of the C library; [OverflowError]
    when the result is out of range. *)
Variable float_pow : float -> float -> result float.

Definition distance (p c : point) : result float :=
  bind (float_pow (px p - px c) 2)
    (fun a => bind (float_pow (py p - py c) 2)
       (fun b => float_pow (a + b) 0.5)).

(** The inner loop: [i] is the index of the next centroid. *)
Fixpoint nearest_from (p : point) (centroids : list point) (i : Z)
    (min_dist : float) (nearest : Z) : result Z :=
  match centroids with
  | [] => Ok nearest
  | c :: r =>
      bind (distance p c)
        (fun dist =>
           if (dist <? min_dist)%float
           then nearest_from p r (i + 1) dist i
           else nearest_from p r (i + 1) min_dist nearest)
  end.

Definition label_of (p : point) (cluster_label : string) : clustered :=
  mkClustered (px p) (py p) cluster_label ("Cluster " ++ cluster_label).

(** The outer loop. *)
Fixpoint assign (points centroids : list point) : result (list clustered) :=
  match points with
  | [] => Ok []
  | p :: r =>
      bind (nearest_from p centroids 0 infinity 0)
        (fun nearest =>
           bind (assign r centroids)
             (fun rest => Ok (label_of p (chr (65 + nearest)) :: rest)))
  end.

Definition centroid (min_x max_x min_y max_y : float) (k i : Z) : point :=
  mkPoint
    (min_x + (max_x - min_x) * float_of_int (i + 1) / float_of_int (k + 1))
    (min_y + (max_y - min_y) * float_of_int (i + 1) / float_of_int (k + 1)).

Definition simple_cluster (points : list point) (k : Z)
  : result (list clustered) :=
  if (Z.of_nat (List.length points) <? k)%Z then
    Ok (map (fun p => mkClustered (px p) (py p) "A" "Cluster A") points)
  else
    bind (py_min (map px points)) (fun min_x =>
    bind (py_max (map px points)) (fun max_x =>
    bind (py_min (map py points)) (fun min_y =>
    bind (py_max (map py points)) (fun max_y =>
      let centroids :=
        map (centroid min_x max_x min_y max_y k) (TrainingEngine.range k) in
      assign points centroids)))).

End Cluster.
End DataAnalyzer.

(** ** A development environment to run the code in

    [json.dumps(v, sort_keys=True)] with the default separators and
    [ensure_ascii], and a [World] without the optional packages, whose
    random generator replays recorded draws. *)
Module Dev.
Import Py.

Definition quote : string := String "034" "".

Definition hex4 (n : Z) : string :=
  String (hex_digit (n / 4096)) (String (hex_digit (n / 256))
    (String (hex_digit (n / 16)) (String (hex_digit n) ""))).

(** [\uXXXX], with a surrogate pair above the basic plane. *)
Definition u_escape (cp : Z) : string :=
  if (cp <? 65536)%Z then "\u" ++ hex4 cp
  else
    let v := cp - 65536 in
    "\u" ++ hex4 (55296 + v / 1024) ++ "\u" ++ hex4 (56320 + v mod 1024).

Definition escape_ascii (c : Z) : string :=
  if (c =? 34)%Z then "\" ++ quote
  else if (c =? 92)%Z then "\\"
  else if (c =? 10)%Z then "\n"
  else if (c =? 13)%Z then "\r"
  else if (c =? 9)%Z then "\t"
  else if (c =? 8)%Z then "\b"
  else if (c =? 12)%Z then "\f"
  else if ((32 <=? c) && (c <=? 126))%Z then String (ascii_of_Z c) ""
  else u_escape c.

(** [py_encode_basestring_ascii] on the UTF-8 bytes of the text. *)
Fixpoint escape (l : list Z) : string :=
  match l with
  | [] => ""
  | c :: r =>
      if (c <? 128)%Z then escape_ascii c ++ escape r
      else if (c <? 224)%Z then
        match r with
        | c1 :: r1 =>
            u_escape (Z.land c 31 * 64 + Z.land c1 63) ++ escape r1
        | _ => u_escape c
        end
      else if (c <? 240)%Z then
        match r with
        | c1 :: c2 :: r2 =>
            u_escape (Z.land c 15 * 4096 + Z.land c1 63 * 64
                      + Z.land c2 63) ++ escape r2
        | _ => u_escape c
        end
      else
        match r with
        | c1 :: c2 :: c3 :: r3 =>
            u_escape (Z.land c 7 * 262144 + Z.land c1 63 * 4096
                      + Z.land c2 63 * 64 + Z.land c3 63) ++ escape r3
        | _ => u_escape c
        end
  end.

Definition dumps_str (s : string) : string :=
  quote ++ escape (map byte_to_Z (encode_utf8 s)) ++ quote.

Definition dumps_float (x : float) : string :=
  match Prim2SF x with
  | S754_nan => "NaN"
  | S754_infinity s => if s then "-Infinity" else "Infinity"
  | _ => PyFloat.repr x
  end.

(** Insertion of an item into a list sorted by key. *)
Fixpoint insert_item (kv : string * string) (l : list (string * string))
  : list (string * string) :=
  match l with
  | [] => [kv]
  | kv' :: r =>
      if String.leb (fst kv) (fst kv') then kv :: l
      else kv' :: insert_item kv r
  end.

Definition sort_items (l : list (string * string))
  : list (string * string) :=
  fold_right insert_item [] l.

Fixpoint dumps (v : pyval) : string :=
  match v with
  | PNone => "null"
  | PBool b => if b then "true" else "false"
  | PInt n => str_int n
  | PFloat x => dumps_float x
  | PStr s => dumps_str s
  | PList l => "[" ++ join ", " (map dumps l) ++ "]"
  | PDict d =>
      "{" ++ join ", "
               (map (fun kv => dumps_str (fst kv) ++ ": " ++ snd kv)
                  (sort_items (map (fun kv => (fst kv, dumps (snd kv))) d)))
          ++ "}"
  end.

(** A replayed random generator: the remaining [random()] results and
    the remaining [randint] results. *)
Definition script : Type := list float * list Z.

Definition script_random (g : script) : float * script :=
  match fst g with
  | x :: r => (x, (r, snd g))
  | [] => (0.5%float, g)
  end.

Definition script_randint (a b : Z) (g : script) : Z * script :=
  match snd g with
  | n :: r => (n, (fst g, r))
  | [] => (a, g)
  end.

(** The first draws of CPython's generator after [random.seed(1337)]:
    [random()], [randint(1000000, 9999999)], then six times [random()]. *)
Definition draws_1337 : script :=
  ([ 0.6177528569514706; 0.7098799822170164; 0.5709789811505924;
     0.7318948296136206; 0.7751996280578802; 0.3327893270828187;
     0.6348739250720502 ]%float,
   [ 9946711 ]).

Definition replay_seed (seed : Z) : script :=
  if (seed =? 1337)%Z then draws_1337 else ([], []).

Definition clock_reading (n : nat) : string :=
  "2024-01-01T00:00:0" ++ str_int (Z.of_nat n mod 10).

(** No [cryptography], no [psutil]; [secret] is the value of the
    worker's private-key variable, [outcome] the coordinator's answer. *)
Definition world (secret : option string) (outcome : http_outcome)
  : World :=
  {| getenv := fun name =>
       if String.eqb name "WORKER_WORKER_1_PRIVATE_KEY" then secret
       else None;
     ED25519_AVAILABLE := false;
     PSUTIL_AVAILABLE := false;
     ed25519_generate := repeat x00 32;
     ed25519_public_bytes := fun k => k;
     ed25519_sign := fun k m => k;
     token_bytes32 := repeat x2a 32;
     psutil_probe := None;
     platform_platform := "Linux-6.1.0-x86_64-with-glibc2.36";
     platform_processor := "";
     json_dumps := dumps;
     py_repr := dumps;
     rng := script;
     rng_seed := replay_seed;
     rng_random := script_random;
     rng_randint := script_randint;
     utcnow_isoformat := clock_reading;
     COORDINATOR_URL := "http://localhost:3002";
     http_post := fun _ _ _ => outcome;
     analyze_csv_text := fun _ => Ok (PDict [("num_samples", PInt 0)]) |}.

(** The shard of the specification's commitment scenario. *)
Definition sample_csv : string :=
  "id,amount" ++ nl ++ "1,10" ++ nl ++ "2,20" ++ nl.

(** The key pair [WorkerKeypair("worker-1")] builds in [world None _]. *)
Definition keypair : Crypto.WorkerKeypair :=
  Crypto.mkKeypair "worker-1" None
    (take 32 (Sha256.digest (repeat x2a 32))) (repeat x2a 32).

(** A request with a plain shard and a commit hash, asking for no epoch. *)
Definition plain_request : Api.TrainShardRequest :=
  Api.mkRequest sample_csv "global" 0 "worker-1" 1337 None None None None
    (Some (Crypto.create_commit_hash sample_csv)).

(** A request with an encrypted shard and no commit hash. *)
Definition encrypted_request : Api.TrainShardRequest :=
  Api.mkRequest "" "global" 1 "worker-1" 1337 (Some "ciphertext")
    (Some "session-key") None None None.

(** A coordinator that answers 200 with [{"decryptedData": null}]. *)
Definition null_answer : World :=
  world None (Response 200 (Some (PDict [("decryptedData", PNone)]))).

(** The world of the examples: no configured secret, and a coordinator
    that cannot be reached. *)
Definition offline : World :=
  world None (TransportError (Exn "ConnectTimeout" "timed out")).

(** A coordinator that answers 200 with [{"decryptedData": v}]. *)
Definition answering (v : pyval) : World :=
  world None (Response 200 (Some (PDict [("decryptedData", v)]))).

(** The world [w] with the environment variable [name] set to [value]. *)
Definition setenv (w : World) (name value : string) : World :=
  {| getenv := fun n => if String.eqb n name then Some value
                        else @getenv w n;
     ED25519_AVAILABLE := @ED25519_AVAILABLE w;
     PSUTIL_AVAILABLE := @PSUTIL_AVAILABLE w;
     ed25519_generate := @ed25519_generate w;
     ed25519_public_bytes := @ed25519_public_bytes w;
     ed25519_sign := @ed25519_sign w;
     token_bytes32 := @token_bytes32 w;
     psutil_probe := @psutil_probe w;
     platform_platform := @platform_platform w;
     platform_processor := @platform_processor w;
     json_dumps := @json_dumps w;
     py_repr := @py_repr w;
     rng := @rng w;
     rng_seed := @rng_seed w;
     rng_random := @rng_random w;
     rng_randint := @rng_randint w;
     utcnow_isoformat := @utcnow_isoformat w;
     COORDINATOR_URL := @COORDINATOR_URL w;
     http_post := @http_post w;
     analyze_csv_text := @analyze_csv_text w |}.

(** The world [w] with the [cryptography] package installed; the
    stand-ins for Ed25519 keep its lengths, 32 and 64 bytes. *)
Definition with_cryptography (w : World) : World :=
  {| getenv := @getenv w;
     ED25519_AVAILABLE := true;
     PSUTIL_AVAILABLE := @PSUTIL_AVAILABLE w;
     ed25519_generate := repeat x07 32;
     ed25519_public_bytes := fun k => Sha256.digest k;
     ed25519_sign := fun k m =>
       (Sha256.digest (k ++ m) ++ Sha256.digest (m ++ k))%list;
     token_bytes32 := @token_bytes32 w;
     psutil_probe := @psutil_probe w;
     platform_platform := @platform_platform w;
     platform_processor := @platform_processor w;
     json_dumps := @json_dumps w;
     py_repr := @py_repr w;
     rng := @rng w;
     rng_seed := @rng_seed w;
     rng_random := @rng_random w;
     rng_randint := @rng_randint w;
     utcnow_isoformat := @utcnow_isoformat w;
     COORDINATOR_URL := @COORDINATOR_URL w;
     http_post := @http_post w;
     analyze_csv_text := @analyze_csv_text w |}.


(** A request with an encrypted shard and a commit hash. *)
Definition committed_request (commit_hash : string)
  : Api.TrainShardRequest :=
  Api.mkRequest "" "global" 1 "worker-1" 1337 (Some "ciphertext")
    (Some "session-key") None None (Some commit_hash).

(** A stand-in for the [pow] of the C library on the two exponents the
    clustering uses. *)
Definition pow_stand_in (x y : float) : result float :=
  Ok (if PrimFloat.eqb y 2 then (x * x)%float else PrimFloat.sqrt x).

End Dev.

(** ** What a verifier recomputes

    These definitions follow the specification, not the code: the
    replay-proof hashes as a verifier derives them from a published loss
    entry, the canonical message as a verifier rebuilds it from the
    fields of a returned attestation, and the shape of a hex digest. *)
Module Verifier.
Import Py Crypto TrainingEngine.

(** [lossHash[i]] from the published entry [loss_i]. *)
Definition spec_loss_hash (i : Z) (loss_i : float) (seed challenge : Z)
  : string :=
  sha256_hex (loss_hash_text i (PyFloat.round_ndigits loss_i 4)
                seed challenge).

(** [gradHash[i]] from [g = 1/(loss[i]+0.01)] on the published entry. *)
Definition spec_grad_hash (i : Z) (loss_i : float) (seed challenge : Z)
  : string :=
  sha256_hex (grad_hash_text i (1.0 / (loss_i + 0.01))%float
                seed challenge).

Definition is_lower_hex (c : ascii) : bool :=
  let n := Z_of_ascii c in
  (((48 <=? n) && (n <=? 57)) || ((97 <=? n) && (n <=? 102)))%Z.

Fixpoint all_lower_hex (s : string) : bool :=
  match s with
  | EmptyString => true
  | String c r => is_lower_hex c && all_lower_hex r
  end.

(** Sixty-four lower-case hexadecimal digits and nothing else. *)
Definition is_hex_digest (s : string) : bool :=
  Nat.eqb (String.length s) 64 && all_lower_hex s.

(** Does some line start with [key]? *)
Definition has_line (key : string) (lines : list string) : bool :=
  existsb (String.prefix key) lines.

(** Every byte is a hexadecimal digit. *)
Definition all_hex (b : bytes) : bool :=
  forallb (fun c => match Base64.hex_value c with
                    | Some _ => true
                    | None => false
                    end) b.

(** No character of [s] is a line feed. *)
Fixpoint no_nl (s : string) : bool :=
  match s with
  | EmptyString => true
  | String c r => negb (Ascii.eqb c "010") && no_nl r
  end.

(** What follows a line: nothing, or a line feed and more text. *)
Definition line_end (t : string) : Prop := t = "" \/ exists r, t = nl ++ r.

(** The text that follows the nine required lines of a message. *)
Definition optional_text (opt : list string) : string :=
  match opt with
  | [] => ""
  | _ => nl ++ join nl opt
  end.

(** 32-bit FNV-1a over a sequence of integers: offset basis 2166136261,
    prime 16777619. *)
Definition fnv1a (l : list Z) : Z :=
  fold_left (fun h c => (Z.lxor h c * 16777619) mod 4294967296)%Z
            l 2166136261.

Section WithWorld.
Context `{W : World}.

(** The canonical message rebuilt from the fields of the returned
    attestation [a] and the round's metadata, with the optional lines
    included exactly when the corresponding field is present. *)
Definition verifier_message
    (node_id started_at finished_at global_model_hash : string)
    (num_samples epoch_count random_seed : Z)
    (loss_history : list float) (a : Attestation) : string :=
  join nl
    (message_parts node_id (weightsHash a)
       (sha256_hash (join "," (map PyFloat.repr loss_history)))
       started_at finished_at global_model_hash
       num_samples epoch_count random_seed
       (Some (hardwareInfo a)) (commitVerified a)).

End WithWorld.
End Verifier.

(** ** The runs of the handler

    Names for the states and the answers of [POST /train], to state what
    its runs look like. *)
Module Rounds.
Import Py Crypto TrainingEngine Api.

(** The name of an audit event. *)
Definition event_name (ev : pyval) : string :=
  match ev with
  | PDict d =>
      match dict_lookup "event" d with
      | Some (PStr name) => name
      | _ => ""
      end
  | _ => ""
  end.

(** The events a completed training adds to the audit trail. *)
Definition completion_events : list string :=
  ["training_complete"; "worker_identity"; "update_hash";
   "signature_generated"].

(** Is the outcome of the handler an update, encrypted or plain? *)
Definition is_update (r : result response) : bool :=
  match r with
  | Ok (EncryptedUpdate _) | Ok (PlainUpdate _) => true
  | _ => false
  end.

Section WithWorld.
Context `{W : World}.

(** The first event of every run. *)
Definition start_event (req : TrainShardRequest) : pyval :=
  event "training_start" (utcnow_isoformat 0)
    [("nodeId", PStr (nodeId req));
     ("globalModelHash", PStr (globalModelHash req))].

(** The first event of the decryption block. *)
Definition request_event (req : TrainShardRequest) : pyval :=
  event "decrypt_permission_request" (utcnow_isoformat 1)
    [("hasTxBytes", PBool (truthy_opt (txBytes req)))].

Definition decrypt_call (req : TrainShardRequest) : call :=
  CallDecrypt decrypt_url (decrypt_request_body req) DECRYPT_TIMEOUT.

(** The run that ends in the [except] block on the exception [e], after
    the calls [cs]. *)
Definition failure (req : TrainShardRequest) (e : exn) (cs : list call)
  : result response * hstate :=
  let evs := [ start_event req; request_event req;
               event "decrypt_failed" (utcnow_isoformat 2)
                 [("error", PStr (exn_str e))] ] in
  (Ok (ErrorResponse
         (PDict [ ("error", PStr ("Decryption failed: " ++ exn_str e));
                  ("nodeId", PStr (nodeId req));
                  ("auditEvents", PList evs) ]) 400),
   mkH 3 evs cs).

(** What the tail of the round can end in, from the state [st]: an
    update that carries the audit trail, or an exception of the
    analyser. *)
Definition tail_outcome (req : TrainShardRequest) (st : hstate)
    (r : result response * hstate) : Prop :=
  match r with
  | (Ok (ErrorResponse _ _), _) => False
  | (Ok (EncryptedUpdate u), st') =>
      truthy_opt (sessionKey req) = true
      /\ exists payload,
           u = encrypt_for_coordinator (PDict payload) (sessionKey req)
           /\ dict_lookup "auditTrace" payload
              = Some (PList (audit_events st'))
           /\ dict_lookup "nodeId" payload = Some (PStr (nodeId req))
  | (Ok (PlainUpdate p), st') =>
      truthy_opt (sessionKey req) = false
      /\ exists payload,
           p = PDict payload
           /\ dict_lookup "auditTrace" payload
              = Some (PList (audit_events st'))
           /\ dict_lookup "nodeId" payload = Some (PStr (nodeId req))
  | (Raise _, st') =>
      exists v, calls st' = (calls st ++ [CallAnalyze v])%list
                /\ audit_events st' = audit_events st
  end.

End WithWorld.
End Rounds.

(* ================================================================== *)
(** * Part II: properties *)
(* ================================================================== *)

Example sha_abc : Sha256.hexdigest (Py.encode_utf8 "abc") =
  "ba7816bf8f01cfea414140de5dae2223b00361a396177a9cb410ff61f20015ad".
Proof. vm_compute. reflexivity. Qed.

Example sha_empty : Sha256.hexdigest [] =
  "e3b0c44298fc1c149afbf4c8996fb92427ae41e4649b934ca495991b7852b855".
Proof. vm_compute. reflexivity. Qed.

Example sha_two_blocks : Sha256.hexdigest (Py.encode_utf8
  "abcdbcdecdefdefgefghfghighijhijkijkljklmklmnlmnomnopnopq") =
  "248d6a61d20638b8e5c026930c3e6039a33ce45964ff2167f6ecedd419db06c1".
Proof. vm_compute. reflexivity. Qed.

Example str_int_neg : Py.str_int (-1337) = "-1337" /\ Py.str_int 0 = "0".
Proof. split; reflexivity. Qed.

Example b64_examples :
  Py.decode_utf8 (Base64.b64encode (Py.encode_utf8 "hello")) = "aGVsbG8="
  /\ Base64.b64decode "aGVsbG8=" = Some (Py.encode_utf8 "hello")
  /\ Base64.b64decode "aGVsbG8" = None
  /\ Base64.b64decode "abcde" = None
  /\ Base64.fromhex "abcde" = None
  /\ Base64.b64decode "deadbeef" = Some [x75; xe6; x9d; x6d; xe7; x9f]
  /\ Base64.fromhex "deadbeef" = Some [xde; xad; xbe; xef]
  /\ Base64.fromhex "de ad" = Some [xde; xad]
  /\ Base64.b64decode "ab cd!ef==gh" = Some [x69; xb7; x1d; x79].
Proof. vm_compute. repeat split. Qed.




Example b64_lenient :
  map Base64.b64decode
      ["ab=cd"; "ab==cd"; "abc="; "a=bcd"; "ab=c=d"; "abc==d"; "=abcd";
       "ab=="; "ab="; "ab= ="; "YQ==YQ=="]
  = [ Some [x69; xb7; x1d]; Some [x69]; Some [x69; xb7];
      Some [x69; xb7; x1d]; Some [x69; xb7]; Some [x69; xb7];
      Some [x69; xb7; x1d]; Some [x69]; None; Some [x69]; Some [x61] ].
Proof. vm_compute. reflexivity. Qed.

Example float_text :
  map PyFloat.repr
      [0.1; 0.82; 1.0; 1e16; 1e-5; 0.30000000000000004; 1e23; -2.5;
       1.0 / (0.98765432 + 0.01); 123456789012345680.0]%float
  = [ "0.1"; "0.82"; "1.0"; "1e+16"; "1e-05"; "0.30000000000000004";
      "1e+23"; "-2.5"; "1.0023511951514428"; "1.2345678901234568e+17" ]
  /\ map (fun x => PyFloat.repr (PyFloat.round_ndigits x 4))
         [0.98765432; 1.00005; 0.00004; -0.00004; 0.12345; 0.12355;
          4000000000000.12345]%float
     = [ "0.9877"; "1.0001"; "0.0"; "-0.0"; "0.1235"; "0.1235";
         "4000000000000.1235" ].
Proof. vm_compute. split; reflexivity. Qed.

Example json_text :
  Dev.dumps (PDict [ ("b", PInt 1);
                     ("a", PList [PFloat 1.5; PNone; PBool true; PStr "x\y"]);
                     ("c", PDict [("z", PFloat (-0.0)); ("y", PFloat 1e22)]) ])
  = "{" ++ Dev.quote ++ "a" ++ Dev.quote ++ ": [1.5, null, true, "
        ++ Dev.quote ++ "x\\y" ++ Dev.quote ++ "], "
        ++ Dev.quote ++ "b" ++ Dev.quote ++ ": 1, "
        ++ Dev.quote ++ "c" ++ Dev.quote ++ ": {"
        ++ Dev.quote ++ "y" ++ Dev.quote ++ ": 1e+22, "
        ++ Dev.quote ++ "z" ++ Dev.quote ++ ": -0.0}}".
Proof. vm_compute. reflexivity. Qed.

(** ** Bytes, strings and Base64 *)
Section Base64Facts.
Import Py Base64.
Local Open Scope Z_scope.

Ltac zdm := Z.to_euclidean_division_equations; lia.

Lemma byte_to_Z_range (x : byte) : 0 <= byte_to_Z x < 256.
Proof.
  unfold byte_to_Z. pose proof (Byte.to_N_bounded x). lia.
Qed.

Lemma byte_of_to_Z (x : byte) : byte_of_Z (byte_to_Z x) = x.
Proof. destruct x; reflexivity. Qed.

Lemma utf8_decode_encode (b : bytes) : encode_utf8 (decode_utf8 b) = b.
Proof. apply list_byte_of_string_of_list_byte. Qed.

Lemma utf8_encode_decode (s : string) : decode_utf8 (encode_utf8 s) = s.
Proof. apply string_of_list_byte_of_string. Qed.

Lemma decode_utf8_inj (a b : bytes) : decode_utf8 a = decode_utf8 b -> a = b.
Proof.
  intros E. rewrite <- (utf8_decode_encode a), <- (utf8_decode_encode b).
  now rewrite E.
Qed.

Lemma sextet_cases (P : Z -> Prop) :
  (forall k : nat, (k < 64)%nat -> P (Z.of_nat k)) ->
  forall i, 0 <= i < 64 -> P i.
Proof.
  intros H i Hi. rewrite <- (Z2Nat.id i) by lia. apply H. lia.
Qed.

Lemma b64_index_char (i : Z) :
  0 <= i < 64 -> b64_index (b64_char i) = Some i.
Proof.
  revert i. apply sextet_cases. intros k Hk.
  do 64 (destruct k as [|k]; [reflexivity|]). lia.
Qed.

Lemma b64_char_not_pad (i : Z) :
  0 <= i < 64 -> Byte.eqb (b64_char i) x3d = false.
Proof.
  revert i. apply sextet_cases. intros k Hk.
  do 64 (destruct k as [|k]; [reflexivity|]). lia.
Qed.

Lemma b64_char_ascii (i : Z) :
  0 <= i < 64 -> (byte_to_Z (b64_char i) <? 128) = true.
Proof.
  revert i. apply sextet_cases. intros k Hk.
  do 64 (destruct k as [|k]; [reflexivity|]). lia.
Qed.

(** Reading one alphabet character at each position of a quad. *)
Lemma a2b_step0 (i : Z) (rest : bytes) (l p : Z) :
  0 <= i < 64 ->
  a2b_base64 (b64_char i :: rest) 0 l p = a2b_base64 rest 1 i 0.
Proof.
  intros Hi. cbn [a2b_base64].
  rewrite (b64_char_not_pad i Hi), (b64_index_char i Hi). reflexivity.
Qed.

Lemma a2b_step1 (i : Z) (rest : bytes) (l p : Z) :
  0 <= i < 64 ->
  a2b_base64 (b64_char i :: rest) 1 l p =
    opt_cons (byte_of_Z (Z.lor (Z.shiftl l 2) (Z.shiftr i 4)))
             (a2b_base64 rest 2 (Z.land i 15) 0).
Proof.
  intros Hi. cbn [a2b_base64].
  rewrite (b64_char_not_pad i Hi), (b64_index_char i Hi). reflexivity.
Qed.

Lemma a2b_step2 (i : Z) (rest : bytes) (l p : Z) :
  0 <= i < 64 ->
  a2b_base64 (b64_char i :: rest) 2 l p =
    opt_cons (byte_of_Z (Z.lor (Z.shiftl l 4) (Z.shiftr i 2)))
             (a2b_base64 rest 3 (Z.land i 3) 0).
Proof.
  intros Hi. cbn [a2b_base64].
  rewrite (b64_char_not_pad i Hi), (b64_index_char i Hi). reflexivity.
Qed.

Lemma a2b_step3 (i : Z) (rest : bytes) (l p : Z) :
  0 <= i < 64 ->
  a2b_base64 (b64_char i :: rest) 3 l p =
    opt_cons (byte_of_Z (Z.lor (Z.shiftl l 6) i)) (a2b_base64 rest 0 0 0).
Proof.
  intros Hi. cbn [a2b_base64].
  rewrite (b64_char_not_pad i Hi), (b64_index_char i Hi). reflexivity.
Qed.

Lemma high_sextet (x : byte) :
  Z.lor (Z.shiftl (byte_to_Z x / 4) 2) (byte_to_Z x mod 4) = byte_to_Z x.
Proof. destruct x; reflexivity. Qed.

Lemma mid_sextet (x : byte) :
  Z.lor (Z.shiftl (byte_to_Z x / 16) 4) (byte_to_Z x mod 16) = byte_to_Z x.
Proof. destruct x; reflexivity. Qed.

Lemma low_sextet (x : byte) :
  Z.lor (Z.shiftl (byte_to_Z x / 64) 6) (byte_to_Z x mod 64) = byte_to_Z x.
Proof. destruct x; reflexivity. Qed.

Lemma shiftr_join (a b k : Z) :
  0 <= k -> 0 <= b < 2 ^ k -> Z.shiftr (a * 2 ^ k + b) k = a.
Proof.
  intros Hk Hb. rewrite Z.shiftr_div_pow2 by lia.
  rewrite Z.div_add_l by lia. rewrite Z.div_small by lia. lia.
Qed.

Lemma land_join (a b k : Z) :
  0 <= k -> 0 <= b < 2 ^ k -> Z.land (a * 2 ^ k + b) (Z.ones k) = b.
Proof.
  intros Hk Hb. rewrite Z.land_ones by lia.
  rewrite Z.add_comm, Z.mod_add by lia. apply Z.mod_small; lia.
Qed.

Lemma shiftr4 (a b : Z) : 0 <= b < 16 -> Z.shiftr (a * 16 + b) 4 = a.
Proof. intros H. apply (shiftr_join a b 4); simpl; lia. Qed.

Lemma shiftr4_0 (a : Z) : Z.shiftr (a * 16) 4 = a.
Proof. rewrite <- (Z.add_0_r (a * 16)). apply shiftr4. lia. Qed.

Lemma land15 (a b : Z) : 0 <= b < 16 -> Z.land (a * 16 + b) 15 = b.
Proof. intros H. apply (land_join a b 4); simpl; lia. Qed.

Lemma shiftr2 (a b : Z) : 0 <= b < 4 -> Z.shiftr (a * 4 + b) 2 = a.
Proof. intros H. apply (shiftr_join a b 2); simpl; lia. Qed.

Lemma shiftr2_0 (a : Z) : Z.shiftr (a * 4) 2 = a.
Proof. rewrite <- (Z.add_0_r (a * 4)). apply shiftr2. lia. Qed.

Lemma land3 (a b : Z) : 0 <= b < 4 -> Z.land (a * 4 + b) 3 = b.
Proof. intros H. apply (land_join a b 2); simpl; lia. Qed.

Lemma list_ind3 {A} (P : list A -> Prop) :
  P [] -> (forall x, P [x]) -> (forall x y, P [x; y]) ->
  (forall x y z r, P r -> P (x :: y :: z :: r)) ->
  forall l, P l.
Proof.
  intros H0 H1 H2 H3.
  assert (G : forall l, P l /\ (forall x, P (x :: l))
                        /\ (forall x y, P (x :: y :: l))).
  { induction l as [|a l [IH0 [IH1 IH2]]].
    - auto.
    - repeat split; auto. }
  intros l. apply G.
Qed.

(** Decoding what [b64encode] produced gives the bytes back. *)
Lemma a2b_b64encode (b : bytes) : a2b_base64 (b64encode b) 0 0 0 = Some b.
Proof.
  induction b as [| x | x y | x y z r IH] using list_ind3.
  - reflexivity.
  - pose proof (byte_to_Z_range x) as Hx.
    cbn [b64encode].
    rewrite a2b_step0 by zdm. rewrite a2b_step1 by zdm.
    cbn -[Z.lor Z.shiftl Z.shiftr Z.land Z.div Z.modulo byte_of_Z].
    rewrite shiftr4_0.
    now rewrite high_sextet, byte_of_to_Z.
  - pose proof (byte_to_Z_range x) as Hx.
    pose proof (byte_to_Z_range y) as Hy.
    cbn [b64encode].
    rewrite a2b_step0 by zdm. rewrite a2b_step1 by zdm.
    rewrite a2b_step2 by zdm.
    cbn -[Z.lor Z.shiftl Z.shiftr Z.land Z.div Z.modulo byte_of_Z].
    rewrite shiftr4, land15 by zdm.
    rewrite shiftr2_0.
    now rewrite high_sextet, mid_sextet, !byte_of_to_Z.
  - pose proof (byte_to_Z_range x) as Hx.
    pose proof (byte_to_Z_range y) as Hy.
    pose proof (byte_to_Z_range z) as Hz.
    cbn [b64encode].
    rewrite a2b_step0 by zdm. rewrite a2b_step1 by zdm.
    rewrite a2b_step2 by zdm. rewrite a2b_step3 by zdm.
    cbn -[Z.lor Z.shiftl Z.shiftr Z.land Z.div Z.modulo byte_of_Z
          a2b_base64 b64encode].
    rewrite shiftr4, land15 by zdm.
    rewrite shiftr2, land3 by zdm.
    rewrite high_sextet, mid_sextet, low_sextet, !byte_of_to_Z, IH.
    reflexivity.
Qed.

Lemma b64encode_ascii (b : bytes) : is_ascii (b64encode b) = true.
Proof.
  unfold is_ascii.
  induction b as [| x | x y | x y z r IH] using list_ind3.
  - reflexivity.
  - pose proof (byte_to_Z_range x) as Hx.
    cbn [b64encode forallb]. rewrite !b64_char_ascii by zdm. reflexivity.
  - pose proof (byte_to_Z_range x) as Hx.
    pose proof (byte_to_Z_range y) as Hy.
    cbn [b64encode forallb]. rewrite !b64_char_ascii by zdm. reflexivity.
  - pose proof (byte_to_Z_range x) as Hx.
    pose proof (byte_to_Z_range y) as Hy.
    pose proof (byte_to_Z_range z) as Hz.
    cbn [b64encode forallb]. rewrite !b64_char_ascii by zdm.
    now rewrite IH.
Qed.

(** Decoding the text of an encoding gives the bytes back. *)
Lemma b64decode_b64encode (b : bytes) :
  b64decode (decode_utf8 (b64encode b)) = Some b.
Proof.
  unfold b64decode, b64decode_bytes.
  now rewrite utf8_decode_encode, b64encode_ascii, a2b_b64encode.
Qed.


End Base64Facts.

(** ** Strings *)
Section StringFacts.
Import Py.

Lemma str_app_assoc (a b c : string) : (a ++ b) ++ c = a ++ (b ++ c).
Proof. induction a as [|x a IH]; simpl; [reflexivity | now rewrite IH]. Qed.

Lemma str_length_app (a b : string) :
  String.length (a ++ b) = (String.length a + String.length b)%nat.
Proof. induction a as [|x a IH]; simpl; [reflexivity | now rewrite IH]. Qed.

Lemma str_app_cancel_l (a b c : string) : a ++ b = a ++ c -> b = c.
Proof.
  induction a as [|x a IH]; simpl; intros E; [exact E|].
  injection E as E. now apply IH.
Qed.

Lemma str_app_nil_r (a : string) : a ++ "" = a.
Proof. induction a as [|x a IH]; simpl; [reflexivity | now rewrite IH]. Qed.

Lemma str_app_longer (a b : string) : b <> "" -> a ++ b <> a.
Proof.
  intros Hb E. apply (f_equal String.length) in E.
  rewrite str_length_app in E. destruct b; [now apply Hb | simpl in E; lia].
Qed.

Lemma join_cons (sep p : string) (l : list string) :
  l <> [] -> join sep (p :: l) = p ++ sep ++ join sep l.
Proof. destruct l; [congruence | reflexivity]. Qed.

Lemma join_app (sep : string) (l1 l2 : list string) :
  l1 <> [] -> l2 <> [] ->
  join sep (l1 ++ l2) = join sep l1 ++ sep ++ join sep l2.
Proof.
  induction l1 as [|p l1 IH]; intros H1 H2; [congruence|].
  destruct l1 as [|q l1].
  - simpl app. now rewrite join_cons.
  - change ((p :: q :: l1) ++ l2)%list with (p :: ((q :: l1) ++ l2))%list.
    rewrite join_cons by discriminate.
    rewrite IH by (discriminate || assumption).
    rewrite (join_cons sep p (q :: l1)) by discriminate.
    now rewrite !str_app_assoc.
Qed.

Lemma to_int_nonnil (z : Z) :
  Z.to_int z <> Decimal.Pos Decimal.Nil
  /\ Z.to_int z <> Decimal.Neg Decimal.Nil.
Proof.
  split; intros E; pose proof (DecimalZ.of_to z) as Hz; rewrite E in Hz;
    simpl in Hz; subst z; discriminate E.
Qed.

Lemma str_int_inj (a b : Z) : str_int a = str_int b -> a = b.
Proof.
  unfold str_int. intros E. apply DecimalZ.to_int_inj.
  assert (E' : Some (Z.to_int a) = Some (Z.to_int b)).
  { rewrite <- (NilZero.isi (Z.to_int a)) by apply to_int_nonnil.
    rewrite <- (NilZero.isi (Z.to_int b)) by apply to_int_nonnil.
    now rewrite E. }
  now injection E'.
Qed.

End StringFacts.

(** ** The shape of a SHA-256 hex digest *)
Section DigestFacts.
Import Py Verifier.

Lemma be_bytes_length (n : nat) (x : Z) : List.length (Sha256.be_bytes n x) = n.
Proof.
  unfold Sha256.be_bytes.
  now rewrite length_map, length_rev, length_seq.
Qed.

Lemma digest_length (msg : bytes) : List.length (Sha256.digest msg) = 32%nat.
Proof.
  unfold Sha256.digest, Sha256.state_words. cbn [flat_map].
  repeat rewrite length_app. rewrite !be_bytes_length. reflexivity.
Qed.

Lemma hex_digit_lower (d : Z) : is_lower_hex (hex_digit d) = true.
Proof.
  unfold hex_digit.
  assert (H : (0 <= d mod 16 < 16)%Z) by (apply Z.mod_pos_bound; lia).
  revert H. generalize (d mod 16)%Z. intros k Hk.
  rewrite <- (Z2Nat.id k) by lia.
  assert (Hn : (Z.to_nat k < 16)%nat) by lia.
  revert Hn. generalize (Z.to_nat k). intros n Hn.
  do 16 (destruct n as [|n]; [reflexivity|]). lia.
Qed.

Lemma hex_length (b : bytes) : String.length (hex b) = (2 * List.length b)%nat.
Proof. induction b as [|x b IH]; simpl; [reflexivity | rewrite IH; lia]. Qed.

Lemma hex_lower (b : bytes) : all_lower_hex (hex b) = true.
Proof.
  induction b as [|x b IH]; [reflexivity|].
  cbn [hex all_lower_hex]. now rewrite !hex_digit_lower, IH.
Qed.

(** Every hex digest is sixty-four lower-case hexadecimal digits. *)
Lemma hexdigest_shape (msg : bytes) :
  is_hex_digest (Sha256.hexdigest msg) = true.
Proof.
  unfold is_hex_digest, Sha256.hexdigest.
  now rewrite hex_length, digest_length, hex_lower.
Qed.

End DigestFacts.

(** ** Lines of text *)
Section LineFacts.
Import Py Crypto Verifier.

Lemma prefix_of_app (k s : string) : String.prefix k (k ++ s) = true.
Proof.
  induction k as [|a k IH]; [now destruct s|].
  simpl. destruct (ascii_dec a a); [exact IH | congruence].
Qed.

Lemma no_nl_app (a b : string) : no_nl (a ++ b) = no_nl a && no_nl b.
Proof.
  induction a as [|c a IH]; [reflexivity|].
  cbn [String.append no_nl]. now rewrite IH, andb_assoc.
Qed.

Lemma no_nl_uint (d : Decimal.uint) :
  no_nl (NilEmpty.string_of_uint d) = true.
Proof. induction d; cbn; auto. Qed.

Lemma no_nl_str_int (z : Z) : no_nl (str_int z) = true.
Proof.
  unfold str_int, NilZero.string_of_int, NilZero.string_of_uint.
  destruct (Z.to_int z) as [d|d]; destruct d; cbn [no_nl negb Ascii.eqb];
    try reflexivity; apply no_nl_uint.
Qed.

Lemma no_nl_lower_hex (s : string) : all_lower_hex s = true -> no_nl s = true.
Proof.
  induction s as [|c r IH]; [reflexivity|].
  cbn [all_lower_hex no_nl]. intros H. apply andb_true_iff in H.
  destruct H as [Hc Hr]. rewrite (IH Hr), andb_true_r.
  destruct (Ascii.eqb c "010") eqn:E; [|reflexivity].
  apply Ascii.eqb_eq in E. subst c. discriminate Hc.
Qed.

Lemma no_nl_sha256 (s : string) : no_nl (sha256_hash s) = true.
Proof. apply no_nl_lower_hex, hex_lower. Qed.


Lemma split_nl_nonempty (s : string) : split_nl s <> [].
Proof.
  induction s as [|c r IH]; [discriminate|].
  cbn [split_nl]. destruct (Ascii.eqb c "010"); [discriminate|].
  destruct (split_nl r); discriminate.
Qed.

Lemma split_nl_no_nl (a : string) : no_nl a = true -> split_nl a = [a].
Proof.
  induction a as [|c a IH]; [reflexivity|].
  cbn [no_nl split_nl]. intros H. apply andb_true_iff in H.
  destruct H as [Hc Ha]. apply negb_true_iff in Hc. rewrite Hc.
  now rewrite (IH Ha).
Qed.

(** The lines of a text with a line feed in the middle. *)
Lemma split_nl_app (a b : string) :
  split_nl (a ++ nl ++ b) = (split_nl a ++ split_nl b)%list.
Proof.
  induction a as [|c a IH].
  - reflexivity.
  - cbn [String.append split_nl]. destruct (Ascii.eqb c "010").
    + now rewrite IH.
    + rewrite IH. destruct (split_nl a) as [|l ls] eqn:E;
        [now elim (split_nl_nonempty a) | reflexivity].
Qed.

(** The lines of a joined text are the lines of its parts. *)
Lemma split_nl_join (parts : list string) :
  parts <> [] -> split_nl (join nl parts) = flat_map split_nl parts.
Proof.
  induction parts as [|p parts IH]; [congruence|]. intros _.
  destruct parts as [|q parts].
  - cbn [join flat_map]. now rewrite app_nil_r.
  - rewrite join_cons by discriminate. rewrite split_nl_app.
    rewrite IH by discriminate. reflexivity.
Qed.





(** A part without line feed is a line of the joined text. *)
Lemma line_in_text (p : string) (parts : list string) :
  no_nl p = true -> In p parts -> In p (split_nl (join nl parts)).
Proof.
  intros Hp Hin. rewrite split_nl_join by (intros ->; destruct Hin).
  apply in_flat_map. exists p. split; [exact Hin|].
  rewrite (split_nl_no_nl p Hp). now left.
Qed.

End LineFacts.


(** ** The epoch loop of [train_on_csv] *)
Section TrainingFacts.
Import Py TrainingEngine Verifier.
Context `{W : World}.

Variables seed challenge : Z.

Local Abbreviation body := (epoch_body seed challenge).
Local Abbreviation raws := (raw_losses seed challenge).

(** What one iteration appends. *)
Lemma epoch_body_history (st : loop_state) (e : Z) :
  ls_history (body st e) =
    (ls_history st ++ [PyFloat.round_ndigits (ls_loss (body st e)) 4])%list.
Proof.
  unfold epoch_body.
  destruct (rng_random (ls_rng st)) as [u1 g1].
  destruct (rng_random g1) as [u2 g2]. reflexivity.
Qed.

Lemma epoch_body_loss_hash (st : loop_state) (e : Z) :
  ls_loss_hashes (body st e) =
    (ls_loss_hashes st
       ++ [sha256_hex (loss_hash_text e
             (PyFloat.round_ndigits (ls_loss (body st e)) 4)
             seed challenge)])%list.
Proof.
  unfold epoch_body.
  destruct (rng_random (ls_rng st)) as [u1 g1].
  destruct (rng_random g1) as [u2 g2]. reflexivity.
Qed.

Lemma epoch_body_grad_hash (st : loop_state) (e : Z) :
  ls_grad_hashes (body st e) =
    (ls_grad_hashes st
       ++ [sha256_hex (grad_hash_text e
             (1.0 / (ls_loss (body st e) + 0.01))%float
             seed challenge)])%list.
Proof.
  unfold epoch_body.
  destruct (rng_random (ls_rng st)) as [u1 g1].
  destruct (rng_random g1) as [u2 g2]. reflexivity.
Qed.

Lemma raw_losses_length (es : list Z) (st : loop_state) :
  List.length (raws st es) = List.length es.
Proof.
  revert st. induction es as [|e es IH]; intros st; simpl;
    [reflexivity | now rewrite IH].
Qed.

(** The loop invariant: after the loop over [es], each of the three
    lists has grown by one entry per epoch, computed from the epoch
    index and the loss at the end of that iteration. *)
Lemma loop_appends (es : list Z) (st : loop_state) :
  let st' := fold_left body es st in
  ls_history st' =
    (ls_history st
       ++ map (fun l => PyFloat.round_ndigits l 4) (raws st es))%list
  /\ ls_loss_hashes st' =
       (ls_loss_hashes st
          ++ map (fun el => sha256_hex (loss_hash_text (fst el)
                              (PyFloat.round_ndigits (snd el) 4)
                              seed challenge))
                 (combine es (raws st es)))%list
  /\ ls_grad_hashes st' =
       (ls_grad_hashes st
          ++ map (fun el => sha256_hex (grad_hash_text (fst el)
                              (1.0 / (snd el + 0.01))%float
                              seed challenge))
                 (combine es (raws st es)))%list.
Proof.
  revert st. induction es as [|e es IH]; intros st.
  - simpl. now rewrite !app_nil_r.
  - cbn [fold_left]. destruct (IH (body st e)) as [Hh [Hl Hg]].
    cbn zeta. rewrite Hh, Hl, Hg.
    rewrite epoch_body_history, epoch_body_loss_hash, epoch_body_grad_hash.
    cbn [raw_losses combine map fst snd].
    now rewrite <- !app_assoc.
Qed.

Lemma range_length (n : Z) : List.length (range n) = Z.to_nat n.
Proof. unfold range. now rewrite length_map, length_seq. Qed.

Lemma range_nth (n : Z) (i : nat) :
  (i < Z.to_nat n)%nat -> nth i (range n) 0%Z = Z.of_nat i.
Proof.
  intros Hi. unfold range.
  rewrite (nth_indep _ 0%Z (Z.of_nat 0)) by now rewrite length_map, length_seq.
  rewrite map_nth. now rewrite seq_nth.
Qed.

End TrainingFacts.

(** ** The replay proof *)
Section ReplayProof.
Import Py TrainingEngine Verifier.
Context `{W : World}.

Lemma nth_map_in {A B} (f : A -> B) (l : list A) (i : nat) (a : A) (b : B) :
  (i < List.length l)%nat -> nth i (map f l) b = f (nth i l a).
Proof.
  revert i. induction l as [|x l IH]; intros [|i] Hi; simpl in *;
    try lia; [reflexivity | apply IH; lia].
Qed.

Lemma loop_entry_lists (seed : Z) :
  ls_history (fst (loop_entry seed)) = []
  /\ ls_loss_hashes (fst (loop_entry seed)) = []
  /\ ls_grad_hashes (fst (loop_entry seed)) = [].
Proof.
  unfold loop_entry.
  destruct (rng_random (rng_seed seed)) as [u g1].
  destruct (rng_randint 1000000 9999999 g1) as [c g2]. now simpl.
Qed.

Lemma loop_entry_challenge (seed : Z) :
  snd (loop_entry seed) =
    fst (rng_randint 1000000 9999999 (snd (rng_random (rng_seed seed)))).
Proof.
  unfold loop_entry.
  destruct (rng_random (rng_seed seed)) as [u g1]. simpl.
  now destruct (rng_randint 1000000 9999999 g1) as [c g2].
Qed.

(** The three lists of a run, in terms of the epoch indices and the
    running losses. *)
Lemma train_on_csv_lists (csv_text : string) (epochs seed : Z) :
  let r := train_on_csv csv_text epochs seed in
  let ch := random_challenge_seed r in
  let ls := running_losses epochs seed in
  let es := range (epochs_run epochs) in
  List.length ls = Z.to_nat (epochs_run epochs)
  /\ loss_history r = map (fun l => PyFloat.round_ndigits l 4) ls
  /\ epoch_loss_hashes r =
       map (fun el => sha256_hex (loss_hash_text (fst el)
                        (PyFloat.round_ndigits (snd el) 4) seed ch))
           (combine es ls)
  /\ epoch_gradient_norm_hashes r =
       map (fun el => sha256_hex (grad_hash_text (fst el)
                        (1.0 / (snd el + 0.01))%float seed ch))
           (combine es ls).
Proof.
  unfold train_on_csv, running_losses.
  destruct (loop_entry_lists seed) as [Hh [Hl Hg]].
  destruct (loop_entry seed) as [st0 ch]. simpl in Hh, Hl, Hg.
  cbn [random_challenge_seed loss_history epoch_loss_hashes
       epoch_gradient_norm_hashes].
  destruct (loop_appends seed ch (range (epochs_run epochs)) st0)
    as [Eh [El Eg]].
  cbn zeta in Eh, El, Eg. rewrite Hh in Eh. rewrite Hl in El.
  rewrite Hg in Eg. simpl in Eh, El, Eg.
  rewrite raw_losses_length, range_length. auto.
Qed.

Lemma epochs_run_bounds (epochs : Z) : (1 <= epochs_run epochs <= 10)%Z.
Proof. unfold epochs_run. lia. Qed.

Lemma train_on_csv_lengths (csv_text : string) (epochs seed : Z) :
  let r := train_on_csv csv_text epochs seed in
  let n := Z.to_nat (epochs_run epochs) in
  List.length (loss_history r) = n
  /\ List.length (epoch_loss_hashes r) = n
  /\ List.length (epoch_gradient_norm_hashes r) = n
  /\ List.length (running_losses epochs seed) = n.
Proof.
  destruct (train_on_csv_lists csv_text epochs seed) as [Hn [Hh [Hl Hg]]].
  cbn zeta. rewrite Hh, Hl, Hg.
  rewrite !length_map, length_combine, range_length, Hn.
  repeat split; lia.
Qed.

(** The entries at position [i] of the three lists. *)
Lemma train_on_csv_nth (csv_text : string) (epochs seed : Z) (i : nat) :
  (i < Z.to_nat (epochs_run epochs))%nat ->
  let r := train_on_csv csv_text epochs seed in
  let ch := random_challenge_seed r in
  let raw := nth i (running_losses epochs seed) 0%float in
  nth i (loss_history r) 0%float = PyFloat.round_ndigits raw 4
  /\ nth i (epoch_loss_hashes r) "" =
       sha256_hex (loss_hash_text (Z.of_nat i)
                     (PyFloat.round_ndigits raw 4) seed ch)
  /\ nth i (epoch_gradient_norm_hashes r) "" =
       sha256_hex (grad_hash_text (Z.of_nat i)
                     (1.0 / (raw + 0.01))%float seed ch).
Proof.
  intros Hi.
  destruct (train_on_csv_lists csv_text epochs seed) as [Hn [Hh [Hl Hg]]].
  cbn zeta in *. rewrite Hh, Hl, Hg.
  set (ls := running_losses epochs seed) in *.
  set (es := range (epochs_run epochs)).
  assert (Hes : List.length es = List.length ls)
    by (unfold es; now rewrite range_length).
  assert (Hc : nth i (combine es ls) (0%Z, 0%float) = (Z.of_nat i, nth i ls 0%float)).
  { rewrite combine_nth by exact Hes. unfold es. now rewrite range_nth. }
  split; [|split].
  - now rewrite (nth_map_in _ ls i 0%float) by lia.
  - rewrite (nth_map_in _ (combine es ls) i (0%Z, 0%float))
      by (rewrite length_combine; lia).
    now rewrite Hc.
  - rewrite (nth_map_in _ (combine es ls) i (0%Z, 0%float))
      by (rewrite length_combine; lia).
    now rewrite Hc.
Qed.

End ReplayProof.

Section ReplayProofClaims.
Import Py TrainingEngine Verifier.

(** C1 (as amended).  For every epoch index [i] of a run, the published
    loss entry is the running loss rounded to four decimals; the loss
    hash is the SHA-256 hex digest of
    ["epoch:"+i+":loss:"+entry+":seed:"+seed+":challenge:"+challenge]
    on that published entry, so it is recomputable from the published
    history, the seed and the challenge seed alone; the gradient-norm
    hash is the digest of
    ["epoch:"+i+":grad_norm:"+g+":seed:"+seed+":challenge:"+challenge]
    with [g = 1/(loss+0.01)] taken on the unrounded running loss. *)
Theorem replay_hashes_bind_running_loss `{W : World}
    (csv_text : string) (epochs seed : Z) (i : nat) :
  let r := train_on_csv csv_text epochs seed in
  (i < List.length (loss_history r))%nat ->
  let ch := random_challenge_seed r in
  let raw := nth i (running_losses epochs seed) 0%float in
  let published := nth i (loss_history r) 0%float in
  published = PyFloat.round_ndigits raw 4
  /\ nth i (epoch_loss_hashes r) "" =
       Sha256.hexdigest (encode_utf8
         ("epoch:" ++ str_int (Z.of_nat i) ++ ":loss:"
            ++ PyFloat.repr published ++ ":seed:" ++ str_int seed
            ++ ":challenge:" ++ str_int ch))
  /\ nth i (epoch_gradient_norm_hashes r) "" =
       Sha256.hexdigest (encode_utf8
         ("epoch:" ++ str_int (Z.of_nat i) ++ ":grad_norm:"
            ++ PyFloat.repr (1.0 / (raw + 0.01))%float
            ++ ":seed:" ++ str_int seed
            ++ ":challenge:" ++ str_int ch)).
Proof.
  intros r Hi ch raw published.
  destruct (train_on_csv_lengths csv_text epochs seed) as [Hn _].
  fold r in Hn. rewrite Hn in Hi.
  destruct (train_on_csv_nth csv_text epochs seed i Hi) as [Hp [Hl Hg]].
  fold r ch raw in Hp, Hl, Hg. fold published in Hp.
  split; [exact Hp|]. split.
  - rewrite Hl, <- Hp. reflexivity.
  - rewrite Hg. reflexivity.
Qed.

(** The run of three epochs with seed 1337, on the draws CPython makes:
    the hashes are the ones the Python code returns. *)
Example train_seed_1337 :
  let r := train_on_csv (W := Dev.offline) "a,b" 3 1337 in
  map PyFloat.repr (loss_history r) = ["0.947"; "0.8059"; "0.6813"]
  /\ map PyFloat.repr (running_losses (W := Dev.offline) 3 1337)
     = ["0.9469724189609848"; "0.8058810902263925"; "0.6812878096213767"]
  /\ random_challenge_seed r = 9946711
  /\ epoch_loss_hashes r =
     [ "13a6e712ef298a2c1d29102c6f8528ca239f20ec0557e6914140b1dda0701b2a";
       "e7185d416ab7c16d43a494bf70caf8248cb80ad431d6cd4babaafbc1f59efbc6";
       "c002e72057c9b504ca0984617f3bbdd10d589cbab3e559c46f3dfbe1293cdcec" ]
  /\ epoch_gradient_norm_hashes r =
     [ "c960ab583236ad31e36aaa22a64ca80f1aff5c5bfd0667f0e463658c00ed13ba";
       "72fd1740785620750f97f4c9f0bee9915ad6e548a0eb71ab27c18c19b7e6911e";
       "5d824119e38ca8784085d12a5245a42f55ee090a3b21fdef0bba9164cd788017" ].
Proof. vm_compute. repeat split. Qed.

Lemma replay_hashes_bind_running_loss_witness :
  let r := train_on_csv (W := Dev.offline) "a,b" 3 1337 in
  (1 < List.length (loss_history r))%nat
  /\ nth 1 (epoch_gradient_norm_hashes r) "" =
       Sha256.hexdigest (encode_utf8
         ("epoch:" ++ str_int 1 ++ ":grad_norm:"
            ++ PyFloat.repr
                 (1.0 / (nth 1 (running_losses (W := Dev.offline) 3 1337)
                               0%float + 0.01))%float
            ++ ":seed:" ++ str_int 1337
            ++ ":challenge:" ++ str_int (random_challenge_seed r))).
Proof.
  split.
  - vm_compute. lia.
  - apply (replay_hashes_bind_running_loss (W := Dev.offline)
             "a,b" 3 1337 1).
    vm_compute. lia.
Defined.

(** C1, as stated, fails: in the run with seed 1337 the published loss
    of epoch 0 is 0.947; the loss hash is the one a verifier computes
    from it, but the gradient-norm hash the code returns is not the
    digest a verifier computes with [g = 1/(0.947+0.01)]. *)
Lemma grad_hash_not_from_published_loss :
  let r := train_on_csv (W := Dev.offline) "a,b" 1 1337 in
  let published := nth 0 (loss_history r) 0%float in
  PyFloat.repr published = "0.947"
  /\ nth 0 (epoch_loss_hashes r) "" =
     spec_loss_hash 0 published 1337 (random_challenge_seed r)
  /\ nth 0 (epoch_gradient_norm_hashes r) "" =
     "c960ab583236ad31e36aaa22a64ca80f1aff5c5bfd0667f0e463658c00ed13ba"
  /\ spec_grad_hash 0 published 1337 (random_challenge_seed r) =
     "4e6326eb60443f7d165f567881fa78a11aeb20b8c938a2f877cd6eacd6ba0503"
  /\ nth 0 (epoch_gradient_norm_hashes r) "" <>
     spec_grad_hash 0 published 1337 (random_challenge_seed r).
Proof.
  vm_compute. repeat split. intros H. discriminate H.
Qed.

(** C8.  The two hash sequences of a run have one entry per completed
    epoch, as many as the loss history; entry [i] is the digest made
    for epoch index [i]; every entry is sixty-four lower-case
    hexadecimal digits; the challenge seed is the integer drawn by
    [randint(1000000, 9999999)]. *)
Theorem replay_proof_shape `{W : World}
    (csv_text : string) (epochs seed : Z) :
  let r := train_on_csv csv_text epochs seed in
  let n := Z.to_nat (Z.max 1 (Z.min epochs 10)) in
  List.length (epoch_loss_hashes r) = n
  /\ List.length (epoch_gradient_norm_hashes r) = n
  /\ List.length (loss_history r) = n
  /\ (forall i, (i < n)%nat ->
        exists loss,
          nth i (epoch_loss_hashes r) "" =
            sha256_hex (loss_hash_text (Z.of_nat i)
                          (PyFloat.round_ndigits loss 4) seed
                          (random_challenge_seed r))
          /\ nth i (epoch_gradient_norm_hashes r) "" =
               sha256_hex (grad_hash_text (Z.of_nat i)
                             (1.0 / (loss + 0.01))%float seed
                             (random_challenge_seed r)))
  /\ (forall h, In h (epoch_loss_hashes r)
                \/ In h (epoch_gradient_norm_hashes r) ->
                is_hex_digest h = true)
  /\ random_challenge_seed r =
       fst (rng_randint 1000000 9999999
              (snd (rng_random (rng_seed seed)))).
Proof.
  intros r n.
  destruct (train_on_csv_lengths csv_text epochs seed) as [Hh [Hl [Hg _]]].
  fold r in Hh, Hl, Hg. change (Z.to_nat (epochs_run epochs)) with n in *.
  repeat split; try assumption.
  - intros i Hi.
    destruct (train_on_csv_nth csv_text epochs seed i Hi) as [_ [El Eg]].
    eexists. split; [exact El | exact Eg].
  - destruct (train_on_csv_lists csv_text epochs seed) as [_ [_ [El Eg]]].
    fold r in El, Eg. intros h [Hin | Hin].
    + rewrite El in Hin. apply in_map_iff in Hin.
      destruct Hin as [el [<- _]]. apply hexdigest_shape.
    + rewrite Eg in Hin. apply in_map_iff in Hin.
      destruct Hin as [el [<- _]]. apply hexdigest_shape.
  - unfold r, train_on_csv.
    rewrite <- loop_entry_challenge.
    now destruct (loop_entry seed) as [st0 ch].
Qed.

Lemma replay_proof_shape_witness :
  let r := train_on_csv (W := Dev.offline) "a,b" 3 1337 in
  (2 < 3)%nat
  /\ is_hex_digest (nth 2 (epoch_loss_hashes r) "") = true.
Proof.
  split; [lia|].
  destruct (replay_proof_shape (W := Dev.offline) "a,b" 3 1337)
    as [_ [_ [_ [_ [Hhex _]]]]].
  apply Hhex. left. vm_compute. auto.
Defined.

End ReplayProofClaims.

(** ** Hexadecimal text *)
Section HexFacts.
Import Py Base64.

(** The two digits of a byte, read back by [bytes.fromhex]. *)
Lemma hex_pair_value (x : byte) :
  let hi := byte_of_ascii (hex_digit (byte_to_Z x / 16)) in
  let lo := byte_of_ascii (hex_digit (byte_to_Z x)) in
  is_space hi = false
  /\ hex_value hi = Some (byte_to_Z x / 16)%Z
  /\ hex_value lo = Some (byte_to_Z x mod 16)%Z
  /\ byte_of_Z (byte_to_Z x / 16 * 16 + byte_to_Z x mod 16) = x.
Proof. destruct x; vm_compute; repeat split. Qed.

(** [bytes.fromhex(b.hex()) == b] *)
Lemma fromhex_hex (b : bytes) : fromhex (hex b) = Some b.
Proof.
  unfold fromhex, encode_utf8.
  induction b as [|x r IH]; [reflexivity|].
  cbn [hex list_byte_of_string list_ascii_of_string map].
  destruct (hex_pair_value x) as [Hs [Ht [Hb Hx]]].
  cbn zeta in Hs, Ht, Hb.
  cbn [fromhex_bytes]. rewrite Hs, Ht, Hb, Hx.
  unfold list_byte_of_string in IH. now rewrite IH.
Qed.

Lemma hex_inj (a b : bytes) : hex a = hex b -> a = b.
Proof.
  intros E. apply (f_equal fromhex) in E. rewrite !fromhex_hex in E.
  now injection E.
Qed.

End HexFacts.

(** ** Commitments and the transport encoding *)
Section CommitAndTransport.
Import Py Crypto Verifier.






(** C7 (as amended).  Without a session key - absent or empty - the
    result is the pass-through: [encrypted = false] and [data] is the
    JSON text of the payload.  With any non-empty session key the
    result has [encrypted = true], carries the label ["base64"], and
    its [data] is the Base64 text of that same JSON, so decoding it
    recovers the pass-through data exactly. *)
Theorem transport_encoding `{W : World} (payload : pyval) :
  let plain := encrypt_for_coordinator payload None in
  plain = mkEncoded false (json_dumps payload) None
  /\ encrypt_for_coordinator payload (Some "") = plain
  /\ forall (c : ascii) (k : string),
       let enc := encrypt_for_coordinator payload (Some (String c k)) in
       encrypted enc = true
       /\ encryption enc = Some "base64"
       /\ data enc =
            decode_utf8 (Base64.b64encode (encode_utf8 (json_dumps payload)))
       /\ option_map decode_utf8 (Base64.b64decode (data enc))
          = Some (data plain).
Proof.
  cbn zeta. split; [reflexivity|]. split; [reflexivity|].
  intros c k. unfold encrypt_for_coordinator.
  cbn [truthy_opt truthy_str encrypted encryption data].
  repeat split.
  rewrite b64decode_b64encode. cbn [option_map].
  now rewrite utf8_encode_decode.
Qed.

(** C7, as stated, fails on the empty session key: the payload is
    passed through unencoded. *)
Lemma empty_session_key_passes_through :
  let enc := encrypt_for_coordinator (W := Dev.offline)
               (PDict [("nodeId", PStr "worker-1")]) (Some "") in
  encrypted enc = false
  /\ data enc = "{" ++ Dev.quote ++ "nodeId" ++ Dev.quote ++ ": "
                    ++ Dev.quote ++ "worker-1" ++ Dev.quote ++ "}".
Proof. vm_compute. split; reflexivity. Qed.

Example transport_encoding_run :
  let enc := encrypt_for_coordinator (W := Dev.offline)
               (PDict [("nodeId", PStr "worker-1")]) (Some "k") in
  encrypted enc = true
  /\ data enc = "eyJub2RlSWQiOiAid29ya2VyLTEifQ==".
Proof. vm_compute. split; reflexivity. Qed.

End CommitAndTransport.

(** ** The key pair *)
Section KeyLoading.
Import Py Crypto.

Lemma take_length (n : nat) (b : bytes) :
  List.length (take n b) = Nat.min n (List.length b).
Proof. apply length_firstn. Qed.

(** C3 (as amended).  A configured secret is resolved by the first
    decoder that succeeds, in the order Base64, hexadecimal, raw: the
    raw UTF-8 bytes are cut to at most 32 bytes and never padded.  A
    value that both decoders accept resolves to its Base64 decoding.
    The key pair built from a non-empty configured secret holds that
    key material; without one it holds a freshly generated key. *)
Theorem secret_resolution_order `{W : World} :
  (forall s b, Base64.b64decode s = Some b -> load_private_key s = b)
  /\ (forall s b, Base64.b64decode s = None ->
                  Base64.fromhex s = Some b -> load_private_key s = b)
  /\ (forall s, Base64.b64decode s = None -> Base64.fromhex s = None ->
                load_private_key s = firstn 32 (encode_utf8 s)
                /\ List.length (load_private_key s)
                   = Nat.min 32 (List.length (encode_utf8 s)))
  /\ (forall s b1 b2, Base64.b64decode s = Some b1 ->
                      Base64.fromhex s = Some b2 -> b1 <> b2 ->
                      load_private_key s = b1 /\ load_private_key s <> b2)
  /\ (forall node_id kp, WorkerKeypair_init node_id = Ok kp ->
        _private_key_bytes kp =
          match or_else (getenv (env_key_name node_id))
                        (getenv (env_key_name_alt node_id)) with
          | Some (String c r) => load_private_key (String c r)
          | _ => if ED25519_AVAILABLE then ed25519_generate
                 else token_bytes32
          end).
Proof.
  repeat split.
  - intros s b H. unfold load_private_key. now rewrite H.
  - intros s b H1 H2. unfold load_private_key. now rewrite H1, H2.
  - unfold load_private_key. now rewrite H, H0.
  - unfold load_private_key. rewrite H, H0. apply take_length.
  - unfold load_private_key. now rewrite H.
  - unfold load_private_key. rewrite H. congruence.
  - intros node_id kp. unfold WorkerKeypair_init.
    destruct (or_else _ _) as [[|c r]|];
      try (destruct (load_private_key_error (String c r));
           [discriminate|]);
      destruct ED25519_AVAILABLE; cbn [bind from_private_bytes];
      try (intros [= <-]; reflexivity).
    destruct (from_private_bytes _) as [k|e] eqn:E; cbn [bind];
      [intros [= <-]; reflexivity | discriminate].
Qed.

Lemma secret_resolution_order_witness :
  Base64.b64decode "deadbeef" = Some [x75; xe6; x9d; x6d; xe7; x9f]
  /\ Base64.fromhex "deadbeef" = Some [xde; xad; xbe; xef]
  /\ load_private_key "deadbeef" = [x75; xe6; x9d; x6d; xe7; x9f]
  /\ load_private_key "deadbeef" <> [xde; xad; xbe; xef].
Proof.
  split; [reflexivity|]. split; [reflexivity|].
  apply (proj1 (proj2 (proj2 (proj2
           (secret_resolution_order (W := Dev.offline)))))
           "deadbeef" [x75; xe6; x9d; x6d; xe7; x9f] [xde; xad; xbe; xef]).
  - reflexivity.
  - reflexivity.
  - discriminate.
Defined.

(** C3, as stated, fails on a short raw secret: ["abcde"] is neither
    Base64 nor hexadecimal, and the key material is its five bytes,
    not padded to the 32-byte key size. *)
Lemma short_raw_secret_not_padded :
  Base64.b64decode "abcde" = None
  /\ Base64.fromhex "abcde" = None
  /\ load_private_key "abcde" = encode_utf8 "abcde"
  /\ List.length (load_private_key "abcde") = 5%nat
  /\ List.length (load_private_key "abcde") <> 32%nat
  /\ (exists kp,
        WorkerKeypair_init (W := Dev.world (Some "abcde") (Response 200 None))
          "worker-1" = Ok kp
        /\ List.length (_private_key_bytes kp) = 5%nat).
Proof.
  repeat split; try reflexivity; try discriminate.
  eexists. split; reflexivity.
Qed.

Example keypair_of_dev_world :
  WorkerKeypair_init (W := Dev.offline) "worker-1" = Ok Dev.keypair.
Proof. reflexivity. Qed.

End KeyLoading.

(** ** The canonical message and its signature *)
Section CanonicalMessage.
Import Py Crypto Verifier.
Context `{W : World}.

Variables node_id weights_hash started_at finished_at global_model_hash
  : string.
Variable loss_history : list float.
Variables num_samples epoch_count random_seed : Z.
Variable keypair : WorkerKeypair.

Local Abbreviation build :=
  (create_attestation node_id weights_hash loss_history started_at
     finished_at global_model_hash num_samples epoch_count random_seed
     keypair).

Local Abbreviation parts :=
  (message_parts node_id weights_hash
     (sha256_hash (loss_history_text loss_history)) started_at finished_at
     global_model_hash num_samples epoch_count random_seed).

Local Abbreviation required :=
  (required_parts node_id weights_hash
     (sha256_hash (loss_history_text loss_history)) started_at finished_at
     global_model_hash num_samples epoch_count random_seed).

(** What [keypair.sign] returns on the bytes [m]: the signature of the
    Ed25519 primitive under the key object or, without one, the SHA-256
    digest of the private key followed by [m]. *)
Local Abbreviation raw_signature m :=
  (match ED25519_AVAILABLE, _keypair keypair with
   | true, Some k => ed25519_sign k m%list
   | _, _ => Sha256.digest (List.app (_private_key_bytes keypair) m)
   end).

Lemma message_is_joined_parts (hw cv : option pydict) :
  message (build hw cv) = join nl (parts hw cv).
Proof. reflexivity. Qed.

Lemma signature_is_encoded_sign (hw cv : option pydict) :
  signature (build hw cv) =
    decode_utf8 (Base64.b64encode
                   (sign keypair (encode_utf8 (message (build hw cv))))).
Proof. reflexivity. Qed.

Lemma hardware_parts_absent (hw : option pydict) :
  truthy_dict hw = false -> hardware_parts hw = [].
Proof. destruct hw as [[|e d]|]; [reflexivity | discriminate | reflexivity]. Qed.


Lemma commit_parts_cases (cv : option pydict) :
  commit_parts cv = []
  \/ exists m h, commit_parts cv = ["commitVerified:" ++ m; "commitHash:" ++ h].
Proof.
  destruct cv as [[|e d]|]; [now left | | now left].
  right. eexists. eexists. reflexivity.
Qed.

(** A supplied, non-empty hardware dictionary changes the message. *)
Lemma hardware_changes_message (e : string * pyval) (d : pydict)
    (absent cv : option pydict) :
  truthy_dict absent = false ->
  message (build (Some (e :: d)) cv) <> message (build absent cv).
Proof.
  intros Ha. rewrite !message_is_joined_parts. unfold message_parts.
  rewrite (hardware_parts_absent absent Ha).
  cbn [hardware_parts]. cbn [List.app].
  destruct (commit_parts_cases cv) as [-> | [m [h ->]]].
  - rewrite join_app by discriminate. rewrite app_nil_r.
    apply str_app_longer. discriminate.
  - rewrite (join_app _ required) by discriminate.
    rewrite (join_app _ required) by discriminate.
    intros E. apply str_app_cancel_l in E. apply str_app_cancel_l in E.
    discriminate E.
Qed.







Lemma has_hardware_line (hw cv : option pydict) :
  has_line "hardware:" (parts hw cv) = truthy_dict hw.
Proof.
  unfold has_line, message_parts. rewrite !existsb_app.
  replace (existsb (String.prefix "hardware:") required) with false
    by reflexivity.
  replace (existsb (String.prefix "hardware:") (commit_parts cv)) with false
    by (destruct cv as [[|e d]|]; reflexivity).
  destruct hw as [[|e d]|]; try reflexivity.
  cbn [hardware_parts existsb truthy_dict]. now rewrite prefix_of_app.
Qed.



Lemma get_hardware_info_nonempty :
  exists e d, get_hardware_info = e :: d.
Proof.
  unfold get_hardware_info.
  destruct PSUTIL_AVAILABLE; [destruct psutil_probe as [[[l p] t]|]|];
    eexists; eexists; reflexivity.
Qed.

(** The verifier's message is the signed one when a non-empty hardware
    dictionary was supplied. *)
Lemma supplied_hardware_reconstructs (e : string * pyval) (d : pydict)
    (cv : option pydict) :
  verifier_message node_id started_at finished_at global_model_hash
    num_samples epoch_count random_seed loss_history
    (build (Some (e :: d)) cv)
  = message (build (Some (e :: d)) cv).
Proof. reflexivity. Qed.

(** C2 (the defect).  When the hardware dictionary is absent or empty,
    the returned attestation still carries a hardware dictionary - the
    locally detected one - that is no part of the signed message: no
    line of the message starts with ["hardware:"], and the message a
    verifier rebuilds from the returned fields differs from the signed
    one. *)
Theorem returned_hardware_info_is_not_signed (cv : option pydict) :
  let rebuilt := verifier_message node_id started_at finished_at
                   global_model_hash num_samples epoch_count random_seed
                   loss_history in
  (hardwareInfo (build None cv) = get_hardware_info
   /\ has_line "hardware:" (parts None cv) = false
   /\ rebuilt (build None cv) <> message (build None cv))
  /\ (hardwareInfo (build (Some []) cv) = get_hardware_info
      /\ has_line "hardware:" (parts (Some []) cv) = false
      /\ rebuilt (build (Some []) cv) <> message (build (Some []) cv)).
Proof.
  cbn zeta. destruct get_hardware_info_nonempty as [e [d E]].
  split; (split; [reflexivity|]); (split; [apply has_hardware_line|]).
  - change (verifier_message node_id started_at finished_at
              global_model_hash num_samples epoch_count random_seed
              loss_history (build None cv))
      with (join nl (parts (Some get_hardware_info) cv)).
    rewrite E. rewrite <- message_is_joined_parts.
    now apply hardware_changes_message.
  - change (verifier_message node_id started_at finished_at
              global_model_hash num_samples epoch_count random_seed
              loss_history (build (Some []) cv))
      with (join nl (parts (Some get_hardware_info) cv)).
    rewrite E. rewrite <- message_is_joined_parts.
    now apply hardware_changes_message.
Qed.

End CanonicalMessage.

Section CanonicalMessageRuns.
Import Py Crypto Verifier.

(** The scenario of the specification, in the development world. *)
Local Abbreviation scenario :=
  (create_attestation (W := Dev.offline) "worker-1" "weights"
     [0.82; 0.71; 0.65]%float "2024-01-01T00:00:00" "2024-01-01T00:00:09"
     "global" 10 3 1337 Dev.keypair).

Example scenario_loss_history_hash :
  lossHistoryHash (scenario None None)
  = Sha256.hexdigest (encode_utf8 "0.82,0.71,0.65")
  /\ lossHistoryHash (scenario None None)
     = "6847f548533fe1008996fea3359b7155cd814bb7968dafb440a6202a392b8b6e".
Proof. split; vm_compute; reflexivity. Qed.



(** C2 at the failing input: built without a hardware dictionary, the
    attestation returns the detected one, and the rebuilt message has
    a line the signed message lacks. *)
Example scenario_without_hardware :
  let a := scenario None None in
  hardwareInfo a =
    [ ("cpu_cores", PInt 1); ("cpu_physical_cores", PInt 1);
      ("memory_gb", PInt 0);
      ("platform", PStr "Linux-6.1.0-x86_64-with-glibc2.36");
      ("processor", PStr "unknown") ]
  /\ message a =
       "nodeId:worker-1" ++ nl ++ "weightsHash:weights" ++ nl
       ++ "lossHistoryHash:"
       ++ "6847f548533fe1008996fea3359b7155cd814bb7968dafb440a6202a392b8b6e"
       ++ nl ++ "startedAt:2024-01-01T00:00:00" ++ nl
       ++ "finishedAt:2024-01-01T00:00:09" ++ nl
       ++ "globalModelHash:global" ++ nl ++ "numSamples:10" ++ nl
       ++ "epochCount:3" ++ nl ++ "randomSeed:1337"
  /\ verifier_message (W := Dev.offline) "worker-1" "2024-01-01T00:00:00"
       "2024-01-01T00:00:09" "global" 10 3 1337 [0.82; 0.71; 0.65]%float a
     = message a ++ nl ++ "hardware:"
         ++ @json_dumps Dev.offline (PDict (hardwareInfo a)).
Proof. vm_compute. repeat split. Qed.

End CanonicalMessageRuns.


(** ** The [/train] round *)
Section HandlerFacts.
Import Py Crypto TrainingEngine Api Verifier.
Context `{W : World}.
Variable KP : WorkerKeypair.

Ltac run :=
  lazy beta iota zeta delta
    [handle train train_and_attest decrypt_and_verify decrypt_failed
     post_decrypt mbind try_except ret raise lift log now audit_append
     get_audit clock audit_events calls].

Ltac run_head :=
  lazy beta iota zeta delta
    [handle train decrypt_and_verify decrypt_failed
     post_decrypt mbind try_except ret raise lift log now audit_append
     get_audit clock audit_events calls].

(** The tail of the round on a string: analysis, training, attestation. *)
Lemma train_and_attest_ok (req : TrainShardRequest) (started s : string)
    (cv : option pydict) (st : hstate) (insights : pyval) :
  analyze_csv_text s = Ok insights ->
  let stats := train_on_csv s (epochCount req) (randomSeed req) in
  let a := round_attestation KP req stats started
             (utcnow_isoformat (S (clock st))) cv in
  exists resp st' rest,
    train_and_attest KP req started (PStr s) cv st = (Ok resp, st')
    /\ calls st' =
         (calls st ++ CallAnalyze (PStr s)
            :: CallTrain (PStr s) (epochCount req) (randomSeed req)
            :: CallAttest a :: rest)%list
    /\ Forall is_encrypt_call rest.
Proof.
  intros H. destruct st as [ck au cs]. run.
  cbn [analyze_csv_shard train_on_csv_value]. rewrite H.
  destruct (truthy_opt (sessionKey req)); cbn [clock audit_events calls];
    eexists; eexists; eexists; (split; [reflexivity|]);
    rewrite <- !app_assoc; cbn [List.app]; (split; [reflexivity|]).
  - repeat constructor.
  - constructor.
Qed.

Lemma train_and_attest_analysis_raises (req : TrainShardRequest)
    (started s : string) (cv : option pydict) (st : hstate) (e : exn) :
  analyze_csv_text s = Raise e ->
  exists st',
    train_and_attest KP req started (PStr s) cv st = (Raise e, st')
    /\ calls st' = (calls st ++ [CallAnalyze (PStr s)])%list.
Proof.
  intros H. destruct st as [ck au cs]. run.
  cbn [analyze_csv_shard]. rewrite H. eexists. split; reflexivity.
Qed.

(** On anything but a string the analyser raises, before any training. *)
Lemma train_and_attest_not_str (req : TrainShardRequest)
    (started : string) (v : pyval) (cv : option pydict) (st : hstate) :
  is_str v = false ->
  exists st',
    train_and_attest KP req started v cv st
      = (Raise (Exn "AttributeError" "object has no attribute 'splitlines'"),
         st')
    /\ calls st' = (calls st ++ [CallAnalyze v])%list.
Proof.
  intros H. destruct st as [ck au cs]. run.
  destruct v; try discriminate H; cbn [analyze_csv_shard];
    eexists; split; reflexivity.
Qed.

(** Every run of the tail: it stops at the analyser, or it trains on the
    string it was given and attests that training. *)
Lemma train_and_attest_shape (req : TrainShardRequest) (started : string)
    (v : pyval) (cv : option pydict) (st : hstate) :
  exists r st' extra,
    train_and_attest KP req started v cv st = (r, st')
    /\ calls st' = (calls st ++ extra)%list
    /\ (extra = [CallAnalyze v]
        \/ exists s rest,
             v = PStr s
             /\ extra =
                  CallAnalyze v
                  :: CallTrain v (epochCount req) (randomSeed req)
                  :: CallAttest
                       (round_attestation KP req
                          (train_on_csv s (epochCount req) (randomSeed req))
                          started (utcnow_isoformat (S (clock st))) cv)
                  :: rest
             /\ Forall is_encrypt_call rest).
Proof.
  destruct (is_str v) eqn:Hv.
  - destruct v as [| | | |s| |]; try discriminate Hv.
    destruct (analyze_csv_text s) as [insights|e] eqn:Ha.
    + destruct (train_and_attest_ok req started s cv st insights Ha)
        as [resp [st' [rest [E [Hc Hr]]]]].
      exists (Ok resp), st'. eexists. split; [exact E|].
      split; [exact Hc|]. right. exists s, rest. auto.
    + destruct (train_and_attest_analysis_raises req started s cv st e Ha)
        as [st' [E Hc]].
      exists (Raise e), st', [CallAnalyze (PStr s)]. auto.
  - destruct (train_and_attest_not_str req started v cv st Hv)
      as [st' [E Hc]].
    eexists. exists st', [CallAnalyze v]. eauto.
Qed.

Lemma handle_without_decrypt (req : TrainShardRequest) :
  decrypt_requested req = false ->
  exists st,
    handle KP req =
      train_and_attest KP req (utcnow_isoformat 0) (PStr (dataShard req))
        None st
    /\ clock st = 1%nat /\ calls st = [].
Proof.
  intros H. run_head. rewrite H.
  eexists. split; [reflexivity|]. split; reflexivity.
Qed.

(** An exception anywhere on the way to the decrypted data gives the
    labelled error, after the one call to the coordinator. *)
Lemma handle_decrypt_raises (req : TrainShardRequest) (e : exn) :
  decrypt_requested req = true ->
  decrypted_data req = Raise e ->
  exists evs st,
    handle KP req =
      (Ok (ErrorResponse
             (PDict [ ("error", PStr ("Decryption failed: " ++ exn_str e));
                      ("nodeId", PStr (nodeId req));
                      ("auditEvents", PList evs) ]) 400), st)
    /\ calls st =
         [CallDecrypt decrypt_url (decrypt_request_body req) DECRYPT_TIMEOUT].
Proof.
  unfold decrypted_data. intros Hg Hd. run_head. rewrite Hg.
  destruct (response_json _) as [v|e'] eqn:Hr; cbn [bind] in Hd.
  - rewrite Hd. eexists. eexists. split; reflexivity.
  - injection Hd as ->. eexists. eexists. split; reflexivity.
Qed.

Lemma handle_decrypt_ok (req : TrainShardRequest) (v : pyval) :
  decrypt_requested req = true ->
  decrypted_data req = Ok v ->
  match commitHash req with
  | Some (String c r) =>
      match verify_commit_value v (String c r) with
      | Ok cvr =>
          exists st,
            handle KP req =
              train_and_attest KP req (utcnow_isoformat 0) v
                (Some (commit_dict cvr)) st
            /\ calls st =
                 [CallDecrypt decrypt_url (decrypt_request_body req)
                    DECRYPT_TIMEOUT;
                  CallVerifyCommit v (String c r)]
      | Raise e =>
          exists evs st,
            handle KP req =
              (Ok (ErrorResponse
                     (PDict [ ("error",
                                PStr ("Decryption failed: " ++ exn_str e));
                              ("nodeId", PStr (nodeId req));
                              ("auditEvents", PList evs) ]) 400), st)
            /\ calls st =
                 [CallDecrypt decrypt_url (decrypt_request_body req)
                    DECRYPT_TIMEOUT;
                  CallVerifyCommit v (String c r)]
      end
  | _ =>
      exists st,
        handle KP req =
          train_and_attest KP req (utcnow_isoformat 0) v None st
        /\ calls st =
             [CallDecrypt decrypt_url (decrypt_request_body req)
                DECRYPT_TIMEOUT]
  end.
Proof.
  unfold decrypted_data. intros Hg Hd.
  destruct (response_json _) as [dr|e'] eqn:Hr; cbn [bind] in Hd;
    [|discriminate].
  destruct (commitHash req) as [[|c r]|] eqn:Hc.
  - run_head. rewrite Hg, Hr, Hd, Hc. eexists. split; reflexivity.
  - destruct (verify_commit_value v (String c r)) as [cvr|e] eqn:Hv.
    + run_head. rewrite Hg, Hr, Hd, Hc, Hv. eexists. split; reflexivity.
    + run_head. rewrite Hg, Hr, Hd, Hc, Hv.
      eexists. eexists. split; reflexivity.
  - run_head. rewrite Hg, Hr, Hd, Hc. eexists. split; reflexivity.
Qed.

(** Every run of the handler: a decryption phase, whose calls are [pre],
    then either the labelled error or the tail of the round. *)
Lemma handle_shape (req : TrainShardRequest) :
  exists pre st0,
    calls st0 = pre
    /\ Forall is_decrypt_phase_call pre
    /\ (forall d h, In (CallVerifyCommit d h) pre ->
          decrypt_requested req = true /\ decrypted_data req = Ok d
          /\ commitHash req = Some h)
    /\ (decrypt_requested req = false -> pre = [])
    /\ ((exists body, handle KP req = (Ok (ErrorResponse body 400), st0))
        \/ exists v cv,
             handle KP req =
               train_and_attest KP req (utcnow_isoformat 0) v cv st0
             /\ (decrypt_requested req = false ->
                 v = PStr (dataShard req) /\ cv = None)).
Proof.
  destruct (decrypt_requested req) eqn:Hg.
  - destruct (decrypted_data req) as [v|e] eqn:Hd.
    + pose proof (handle_decrypt_ok req v Hg Hd) as H.
      destruct (commitHash req) as [[|c r]|] eqn:Hc.
      * destruct H as [st [E Hcalls]]. eexists. exists st.
        split; [exact Hcalls|]. split; [repeat constructor|].
        split; [intros d h [[=]|[]]|]. split; [discriminate|].
        right. exists v, None. split; [exact E | discriminate].
      * destruct (verify_commit_value v (String c r)) as [cvr|e].
        -- destruct H as [st [E Hcalls]]. eexists. exists st.
           split; [exact Hcalls|]. split; [repeat constructor|].
           split; [intros d h [[=]|[[= <- <-]|[]]]; auto|].
           split; [discriminate|].
           right. eexists. eexists. split; [exact E | discriminate].
        -- destruct H as [evs [st [E Hcalls]]]. eexists. exists st.
           split; [exact Hcalls|]. split; [repeat constructor|].
           split; [intros d h [[=]|[[= <- <-]|[]]]; auto|].
           split; [discriminate|]. left. eexists. exact E.
      * destruct H as [st [E Hcalls]]. eexists. exists st.
        split; [exact Hcalls|]. split; [repeat constructor|].
        split; [intros d h [[=]|[]]|]. split; [discriminate|].
        right. exists v, None. split; [exact E | discriminate].
    + destruct (handle_decrypt_raises req e Hg Hd) as [evs [st [E Hcalls]]].
      eexists. exists st.
      split; [exact Hcalls|]. split; [repeat constructor|].
      split; [intros d h [[=]|[]]|]. split; [discriminate|].
      left. eexists. exact E.
  - destruct (handle_without_decrypt req Hg) as [st [E [_ Hcalls]]].
    exists [], st. split; [exact Hcalls|]. split; [constructor|].
    split; [intros d h []|]. split; [reflexivity|].
    right. exists (PStr (dataShard req)), None. auto.
Qed.

(** The calls of a run: those of the decryption phase, then those of the
    tail of the round. *)
Lemma handle_trace (req : TrainShardRequest) :
  exists pre extra,
    calls (snd (handle KP req)) = (pre ++ extra)%list
    /\ Forall is_decrypt_phase_call pre
    /\ (forall d h, In (CallVerifyCommit d h) pre ->
          decrypt_requested req = true /\ decrypted_data req = Ok d
          /\ commitHash req = Some h)
    /\ (decrypt_requested req = false -> pre = [])
    /\ (extra = []
        \/ exists v cv,
             (decrypt_requested req = false ->
              v = PStr (dataShard req) /\ cv = None)
             /\ (extra = [CallAnalyze v]
                 \/ exists s rest finished,
                      v = PStr s
                      /\ extra =
                           CallAnalyze v
                           :: CallTrain v (epochCount req) (randomSeed req)
                           :: CallAttest
                                (round_attestation KP req
                                   (train_on_csv s (epochCount req)
                                      (randomSeed req))
                                   (utcnow_isoformat 0) finished cv)
                           :: rest
                      /\ Forall is_encrypt_call rest)).
Proof.
  destruct (handle_shape req)
    as [pre [st0 [Hcalls [Hpre [Hver [Hnog [[body E] | [v [cv [E Hv]]]]]]]]]].
  - exists pre, []. rewrite E, app_nil_r. cbn [snd].
    split; [exact Hcalls|]. split; [exact Hpre|]. split; [exact Hver|].
    split; [exact Hnog | now left].
  - destruct (train_and_attest_shape req (utcnow_isoformat 0) v cv st0)
      as [r [st' [extra [E' [Hc Hex]]]]].
    exists pre, extra. rewrite E, E'. cbn [snd]. rewrite Hc, Hcalls.
    split; [reflexivity|]. split; [exact Hpre|]. split; [exact Hver|].
    split; [exact Hnog|]. right. exists v, cv. split; [exact Hv|].
    destruct Hex as [-> | [s [rest [-> [-> Hr]]]]]; [now left|].
    right. exists s, rest. eexists. auto.
Qed.

Lemma encrypt_calls_only (rest : list call) (c : call) :
  Forall is_encrypt_call rest -> In c rest -> is_encrypt_call c.
Proof. intros H Hin. rewrite Forall_forall in H. now apply H. Qed.

(** An attestation call in a run attests the training of that run. *)
Lemma attest_calls_of_run (req : TrainShardRequest) (a : Attestation) :
  In (CallAttest a) (calls (snd (handle KP req))) ->
  exists s finished cv,
    In (CallTrain (PStr s) (epochCount req) (randomSeed req))
       (calls (snd (handle KP req)))
    /\ a = round_attestation KP req
             (train_on_csv s (epochCount req) (randomSeed req))
             (utcnow_isoformat 0) finished cv
    /\ (decrypt_requested req = false ->
        s = dataShard req /\ cv = None).
Proof.
  destruct (handle_trace req)
    as [pre [extra [-> [Hpre [_ [_ Hex]]]]]].
  intros Hin. apply in_app_or in Hin. destruct Hin as [Hin | Hin].
  - rewrite Forall_forall in Hpre. now apply Hpre in Hin.
  - destruct Hex as [-> | [v [cv [Hv [-> | [s [rest [fin [-> [-> Hr]]]]]]]]]].
    + destruct Hin.
    + destruct Hin as [[=] | []].
    + destruct Hin as [[=] | [[=] | [[= <-] | Hin]]].
      * exists s, fin, cv. split; [|split; [reflexivity|]].
        -- apply in_or_app. right. right. now left.
        -- intros Hg. destruct (Hv Hg) as [[= ->] ->]. auto.
      * apply (encrypt_calls_only rest _ Hr) in Hin. destruct Hin.
Qed.

End HandlerFacts.

Section HandlerClaims.
Import Py Crypto TrainingEngine Api Verifier.

(** The line of the signed message that carries the epoch count. *)
Lemma round_message_epoch_line `{W : World} (KP : WorkerKeypair)
    (req : TrainShardRequest) (stats : TrainStats)
    (started finished : string) (cv : option pydict) :
  let a := round_attestation KP req stats started finished cv in
  let lines :=
    message_parts (nodeId req) (weightsHash a) (lossHistoryHash a) started
      finished (globalModelHash req) (num_samples stats) (epochCount req)
      (randomSeed req) (Some WORKER_HARDWARE_INFO) cv in
  message a = join nl lines
  /\ nth 7 lines "" = "epochCount:" ++ str_int (epochCount req)
  /\ lossHistoryHash a = sha256_hash (loss_history_text (loss_history stats)).
Proof. repeat split. Qed.

(** C9.  [train_on_csv] runs exactly [max(1, min(epochs, 10))] epochs,
    so the loss history and both hash sequences have that many entries,
    between 1 and 10, whatever the requested value, and a different
    number than requested when that is below 1 or above 10.  Every
    attestation built by the round is what [create_attestation] returns
    for the requested epoch count and the loss history of the training
    run with that request: ["epochCount:" + the requested epoch count]
    is a line of its message, next to the hash of that loss history,
    and its signature field is the Base64 text of the raw signature -
    of the Ed25519 primitive under the key object or, without one, the
    SHA-256 digest of the private key followed by the bytes - of the
    UTF-8 bytes of that message. *)
Theorem signed_epoch_count_is_the_requested_one `{W : World}
    (KP : WorkerKeypair) :
  (forall csv_text epochs seed,
     let r := train_on_csv csv_text epochs seed in
     let n := List.length (loss_history r) in
     n = Z.to_nat (Z.max 1 (Z.min epochs 10))
     /\ (1 <= n <= 10)%nat
     /\ List.length (epoch_loss_hashes r) = n
     /\ List.length (epoch_gradient_norm_hashes r) = n
     /\ ((epochs < 1 \/ 10 < epochs)%Z -> Z.of_nat n <> epochs))
  /\ (forall req a,
        In (CallAttest a) (calls (snd (handle KP req))) ->
        exists s started finished cv,
          let stats := train_on_csv s (epochCount req) (randomSeed req) in
          let lines :=
            message_parts (nodeId req) (weightsHash a) (lossHistoryHash a)
              started finished (globalModelHash req) (num_samples stats)
              (epochCount req) (randomSeed req) (Some WORKER_HARDWARE_INFO)
              cv in
          let signed := encode_utf8 (message a) in
          let raw_signature :=
            match ED25519_AVAILABLE, _keypair KP with
            | true, Some k => ed25519_sign k signed
            | _, _ =>
                Sha256.digest (List.app (_private_key_bytes KP) signed)
            end in
          In (CallTrain (PStr s) (epochCount req) (randomSeed req))
             (calls (snd (handle KP req)))
          /\ a = create_attestation (nodeId req)
                   (sha256_hash (weights_data req stats))
                   (loss_history stats) started finished
                   (globalModelHash req) (num_samples stats)
                   (epochCount req) (randomSeed req) KP
                   (Some WORKER_HARDWARE_INFO) cv
          /\ message a = join nl lines
          /\ nth 7 lines "" = "epochCount:" ++ str_int (epochCount req)
          /\ In ("epochCount:" ++ str_int (epochCount req))
                (split_nl (message a))
          /\ signature a = decode_utf8 (Base64.b64encode raw_signature)
          /\ Base64.b64decode (signature a) = Some raw_signature
          /\ lossHistoryHash a
             = sha256_hash (loss_history_text (loss_history stats))
          /\ List.length (loss_history stats)
             = Z.to_nat (Z.max 1 (Z.min (epochCount req) 10))
          /\ ((epochCount req < 1 \/ 10 < epochCount req)%Z ->
              Z.of_nat (List.length (loss_history stats))
              <> epochCount req)).
Proof.
  split.
  - intros csv_text epochs seed.
    destruct (train_on_csv_lengths csv_text epochs seed) as [Hh [Hl [Hg _]]].
    cbn zeta. rewrite Hh, Hl, Hg. unfold epochs_run.
    repeat split; lia.
  - intros req a Hin.
    destruct (attest_calls_of_run KP req a Hin) as [s [fin [cv [Ht [-> _]]]]].
    exists s, (utcnow_isoformat 0), fin, cv. cbn zeta.
    split; [exact Ht|].
    destruct (round_message_epoch_line KP req
                (train_on_csv s (epochCount req) (randomSeed req))
                (utcnow_isoformat 0) fin cv) as [Hm [Hl Hh]].
    split; [reflexivity|].
    split; [exact Hm|]. split; [exact Hl|].
    split.
    { rewrite Hm. apply line_in_text.
      - rewrite no_nl_app. now rewrite no_nl_str_int.
      - unfold message_parts, required_parts.
        do 7 right. now left. }
    split; [reflexivity|].
    split.
    { unfold round_attestation, create_attestation.
      cbn [signature message]. apply b64decode_b64encode. }
    split; [exact Hh|].
    destruct (train_on_csv_lengths s (epochCount req) (randomSeed req))
      as [Hn _].
    split; [exact Hn|]. rewrite Hn. unfold epochs_run. lia.
Qed.


(** C6 (the defect).  When the decryption block runs and the
    coordinator's answer carries a [decryptedData] that is not a string,
    and the request has no commit hash, no exception is raised inside
    the [try] block: the handler goes on to the analyser, which raises
    out of the handler, so no labelled error is returned. *)
Theorem non_string_plaintext_is_not_a_labelled_error `{W : World}
    (KP : WorkerKeypair) (req : TrainShardRequest) (v : pyval) :
  decrypt_requested req = true ->
  decrypted_data req = Ok v ->
  is_str v = false ->
  truthy_opt (commitHash req) = false ->
  exists st,
    handle KP req
      = (Raise (Exn "AttributeError" "object has no attribute 'splitlines'"),
         st)
    /\ calls st =
         [CallDecrypt decrypt_url (decrypt_request_body req) DECRYPT_TIMEOUT;
          CallAnalyze v].
Proof.
  intros Hg Hd Hv Hc.
  pose proof (handle_decrypt_ok KP req v Hg Hd) as H.
  destruct (commitHash req) as [[|c r]|]; try discriminate Hc;
    destruct H as [st [E Hcalls]];
    destruct (train_and_attest_not_str KP req (utcnow_isoformat 0) v None st Hv)
      as [st' [E' Hc']];
    exists st'; rewrite E, E', Hc', Hcalls; split; reflexivity.
Qed.

End HandlerClaims.

Section HandlerRuns.
Import Py Crypto TrainingEngine Api Verifier.

Lemma signed_epoch_count_is_the_requested_one_witness :
  let trace := calls (snd (handle (W := Dev.offline) Dev.keypair
                             Dev.plain_request)) in
  epochCount Dev.plain_request = 0
  /\ (exists a, In (CallAttest a) trace)
  /\ (forall a, In (CallAttest a) trace ->
        In "epochCount:0" (split_nl (message a))
        /\ signature a
           = decode_utf8
               (Base64.b64encode
                  (Sha256.digest
                     (List.app (repeat x2a 32) (encode_utf8 (message a)))))
        /\ exists s,
             In (CallTrain (PStr s) 0 1337) trace
             /\ lossHistoryHash a
                = sha256_hash
                    (loss_history_text
                       (loss_history
                          (train_on_csv (W := Dev.offline) s 0 1337)))
             /\ List.length
                  (loss_history (train_on_csv (W := Dev.offline) s 0 1337))
                = 1%nat).
Proof.
  cbn zeta. split; [reflexivity|]. split.
  - destruct (handle_without_decrypt (W := Dev.offline) Dev.keypair
                Dev.plain_request eq_refl) as [st [E [_ Hc]]].
    destruct (train_and_attest_ok (W := Dev.offline) Dev.keypair
                Dev.plain_request (@utcnow_isoformat Dev.offline 0)
                (dataShard Dev.plain_request) None st
                (PDict [("num_samples", PInt 0)]) eq_refl)
      as [resp [st' [rest [E' [Hc' _]]]]].
    rewrite E, E'. cbn [snd]. rewrite Hc', Hc. eexists.
    right. right. left. reflexivity.
  - intros a Hin.
    destruct (proj2 (signed_epoch_count_is_the_requested_one
                       (W := Dev.offline) Dev.keypair)
                Dev.plain_request a Hin)
      as [s [started [finished [cv
           [Ht [_ [_ [_ [Hline [Hs [_ [Hh [Hn _]]]]]]]]]]]]].
    split; [exact Hline|]. split; [exact Hs|].
    exists s. split; [exact Ht|]. split; [exact Hh | exact Hn].
Defined.


Lemma non_string_plaintext_is_not_a_labelled_error_witness :
  decrypt_requested Dev.encrypted_request = true
  /\ decrypted_data (W := Dev.null_answer) Dev.encrypted_request = Ok PNone
  /\ exists st,
       handle (W := Dev.null_answer) Dev.keypair Dev.encrypted_request
         = (Raise (Exn "AttributeError"
                     "object has no attribute 'splitlines'"), st)
       /\ calls st =
            [ CallDecrypt "http://localhost:3002/api/decrypt"
                (PDict [ ("encryptedData", PStr "ciphertext");
                         ("sessionKey", PStr "session-key");
                         ("txBytes", PNone); ("userAddress", PNone) ])
                30.0%float;
              CallAnalyze PNone ].
Proof.
  split; [reflexivity|]. split; [reflexivity|].
  apply (non_string_plaintext_is_not_a_labelled_error
           (W := Dev.null_answer) Dev.keypair Dev.encrypted_request PNone);
    reflexivity.
Defined.

(** The same answer on a request that carries a commit hash is caught
    inside the [try] block, and a time-out is caught as well: both give
    the labelled error after the single call to the coordinator. *)
Example labelled_decrypt_failures :
  (exists evs st,
     handle (W := Dev.offline) Dev.keypair Dev.encrypted_request
       = (Ok (ErrorResponse
                (PDict [ ("error", PStr "Decryption failed: timed out");
                         ("nodeId", PStr "worker-1");
                         ("auditEvents", PList evs) ]) 400), st)
     /\ calls st =
          [ CallDecrypt (decrypt_url (W := Dev.offline))
              (decrypt_request_body Dev.encrypted_request) DECRYPT_TIMEOUT ])
  /\ (exists body st,
        handle (W := Dev.null_answer) Dev.keypair
          (mkRequest "" "global" 1 "worker-1" 1337 (Some "ciphertext")
             (Some "session-key") None None (Some "c0ffee"))
          = (Ok (ErrorResponse body 400), st)
        /\ Forall is_decrypt_phase_call (calls st)).
Proof.
  split.
  - apply (handle_decrypt_raises (W := Dev.offline) Dev.keypair
             Dev.encrypted_request (Exn "ConnectTimeout" "timed out"));
      reflexivity.
  - eexists. eexists. split; [reflexivity|]. repeat constructor.
Qed.

End HandlerRuns.

(* ================================================================== *)
(** * Part III: further properties of the code *)
(* ================================================================== *)

(** ** Decoding a configured secret *)
Section KeyDecoding.
Import Py Base64 Crypto Verifier.
Local Open Scope Z_scope.

Ltac zdm := Z.to_euclidean_division_equations; lia.

Lemma list_ind4 {A} (P : list A -> Prop) :
  P [] -> (forall x, P [x]) -> (forall x y, P [x; y]) ->
  (forall x y z, P [x; y; z]) ->
  (forall x y z t r, P r -> P (x :: y :: z :: t :: r)) ->
  forall l, P l.
Proof.
  intros H0 H1 H2 H3 H4.
  assert (G : forall l, P l /\ (forall x, P (x :: l))
                        /\ (forall x y, P (x :: y :: l))
                        /\ (forall x y z, P (x :: y :: z :: l))).
  { induction l as [|a l [IH0 [IH1 [IH2 IH3]]]].
    - auto.
    - repeat split; auto. }
  intros l. apply G.
Qed.

Lemma list_ind2 {A} (P : list A -> Prop) :
  P [] -> (forall x, P [x]) ->
  (forall x y r, P r -> P (x :: y :: r)) ->
  forall l, P l.
Proof.
  intros H0 H1 H2.
  assert (G : forall l, P l /\ (forall x, P (x :: l))).
  { induction l as [|a l [IH0 IH1]]; split; auto. }
  intros l. apply G.
Qed.

(** A hexadecimal digit is a character of the Base64 alphabet, is not
    the pad character, is not white space and is ASCII. *)
Lemma hex_digit_facts (c : byte) :
  hex_value c <> None ->
  (exists v, b64_index c = Some v) /\ Byte.eqb c x3d = false
  /\ is_space c = false /\ (byte_to_Z c <? 128) = true.
Proof.
  destruct c; vm_compute; intros H;
    solve [ exfalso; now apply H | repeat split; eauto ].
Qed.

Lemma all_hex_cons (c : byte) (r : bytes) :
  all_hex (c :: r) = true -> hex_value c <> None /\ all_hex r = true.
Proof.
  unfold all_hex. cbn [forallb]. intros H. apply andb_true_iff in H.
  destruct H as [Hc Hr]. split; [|exact Hr].
  destruct (hex_value c); [discriminate | discriminate Hc].
Qed.

Lemma all_hex_ascii (b : bytes) : all_hex b = true -> is_ascii b = true.
Proof.
  induction b as [|c r IH]; [reflexivity|]. intros H.
  apply all_hex_cons in H. destruct H as [Hc Hr].
  unfold is_ascii. cbn [forallb].
  destruct (hex_digit_facts c Hc) as [_ [_ [_ ->]]]. now apply IH.
Qed.

(** One sextet read by the decoder, in each position of the quad. *)
Lemma a2b_sextet0 (c : byte) (v : Z) (rest : bytes) (l p : Z) :
  b64_index c = Some v -> Byte.eqb c x3d = false ->
  a2b_base64 (c :: rest) 0 l p = a2b_base64 rest 1 v 0.
Proof. intros Hv Hp. cbn [a2b_base64]. now rewrite Hp, Hv. Qed.

Lemma a2b_sextet1 (c : byte) (v : Z) (rest : bytes) (l p : Z) :
  b64_index c = Some v -> Byte.eqb c x3d = false ->
  a2b_base64 (c :: rest) 1 l p =
    opt_cons (byte_of_Z (Z.lor (Z.shiftl l 2) (Z.shiftr v 4)))
             (a2b_base64 rest 2 (Z.land v 15) 0).
Proof. intros Hv Hp. cbn [a2b_base64]. now rewrite Hp, Hv. Qed.

Lemma a2b_sextet2 (c : byte) (v : Z) (rest : bytes) (l p : Z) :
  b64_index c = Some v -> Byte.eqb c x3d = false ->
  a2b_base64 (c :: rest) 2 l p =
    opt_cons (byte_of_Z (Z.lor (Z.shiftl l 4) (Z.shiftr v 2)))
             (a2b_base64 rest 3 (Z.land v 3) 0).
Proof. intros Hv Hp. cbn [a2b_base64]. now rewrite Hp, Hv. Qed.

Lemma a2b_sextet3 (c : byte) (v : Z) (rest : bytes) (l p : Z) :
  b64_index c = Some v -> Byte.eqb c x3d = false ->
  a2b_base64 (c :: rest) 3 l p =
    opt_cons (byte_of_Z (Z.lor (Z.shiftl l 6) v)) (a2b_base64 rest 0 0 0).
Proof. intros Hv Hp. cbn [a2b_base64]. now rewrite Hp, Hv. Qed.

(** The decoder on hexadecimal digits only: it succeeds exactly when
    their number is a multiple of four, with three bytes per quad. *)
Lemma a2b_hex_digits (data : bytes) :
  all_hex data = true ->
  forall l p,
    match a2b_base64 data 0 l p with
    | Some b =>
        Z.of_nat (List.length data) mod 4 = 0
        /\ 4 * Z.of_nat (List.length b) = 3 * Z.of_nat (List.length data)
    | None => Z.of_nat (List.length data) mod 4 <> 0
    end.
Proof.
  induction data as [| x | x y | x y z | x y z t r IH] using list_ind4;
    intros H l p.
  - cbn. split; reflexivity.
  - apply all_hex_cons in H. destruct H as [Hx _].
    destruct (hex_digit_facts x Hx) as [[vx Ex] [Px _]].
    rewrite (a2b_sextet0 x vx) by assumption. now vm_compute.
  - apply all_hex_cons in H. destruct H as [Hx H].
    apply all_hex_cons in H. destruct H as [Hy _].
    destruct (hex_digit_facts x Hx) as [[vx Ex] [Px _]].
    destruct (hex_digit_facts y Hy) as [[vy Ey] [Py _]].
    rewrite (a2b_sextet0 x vx) by assumption.
    rewrite (a2b_sextet1 y vy) by assumption. now vm_compute.
  - apply all_hex_cons in H. destruct H as [Hx H].
    apply all_hex_cons in H. destruct H as [Hy H].
    apply all_hex_cons in H. destruct H as [Hz _].
    destruct (hex_digit_facts x Hx) as [[vx Ex] [Px _]].
    destruct (hex_digit_facts y Hy) as [[vy Ey] [Py _]].
    destruct (hex_digit_facts z Hz) as [[vz Ez] [Pz _]].
    rewrite (a2b_sextet0 x vx) by assumption.
    rewrite (a2b_sextet1 y vy) by assumption.
    rewrite (a2b_sextet2 z vz) by assumption. now vm_compute.
  - apply all_hex_cons in H. destruct H as [Hx H].
    apply all_hex_cons in H. destruct H as [Hy H].
    apply all_hex_cons in H. destruct H as [Hz H].
    apply all_hex_cons in H. destruct H as [Ht H].
    destruct (hex_digit_facts x Hx) as [[vx Ex] [Px _]].
    destruct (hex_digit_facts y Hy) as [[vy Ey] [Py _]].
    destruct (hex_digit_facts z Hz) as [[vz Ez] [Pz _]].
    destruct (hex_digit_facts t Ht) as [[vt Et] [Pt _]].
    rewrite (a2b_sextet0 x vx) by assumption.
    rewrite (a2b_sextet1 y vy) by assumption.
    rewrite (a2b_sextet2 z vz) by assumption.
    rewrite (a2b_sextet3 t vt) by assumption.
    specialize (IH H 0 0).
    destruct (a2b_base64 r 0 0 0) as [b|]; cbn [opt_cons List.length].
    + destruct IH as [Hm Hl]. split; [zdm | lia].
    + zdm.
Qed.

(** [bytes.fromhex] on hexadecimal digits only: it succeeds exactly
    when their number is even, with one byte per pair. *)
Lemma fromhex_hex_digits (data : bytes) :
  all_hex data = true ->
  match fromhex_bytes data with
  | Some b =>
      Z.of_nat (List.length data) mod 2 = 0
      /\ 2 * Z.of_nat (List.length b) = Z.of_nat (List.length data)
  | None => Z.of_nat (List.length data) mod 2 <> 0
  end.
Proof.
  induction data as [| x | x y r IH] using list_ind2; intros H.
  - cbn. split; reflexivity.
  - apply all_hex_cons in H. destruct H as [Hx _].
    destruct (hex_digit_facts x Hx) as [_ [_ [Sx _]]].
    cbn [fromhex_bytes]. rewrite Sx.
    destruct (hex_value x); now vm_compute.
  - apply all_hex_cons in H. destruct H as [Hx H].
    apply all_hex_cons in H. destruct H as [Hy H].
    destruct (hex_digit_facts x Hx) as [_ [_ [Sx _]]].
    cbn [fromhex_bytes]. rewrite Sx.
    destruct (hex_value x) as [vx|]; [|now elim Hx].
    destruct (hex_value y) as [vy|]; [|now elim Hy].
    specialize (IH H).
    destruct (fromhex_bytes r) as [b|]; cbn [opt_cons List.length].
    + destruct IH as [Hm Hl]. split; [zdm | lia].
    + zdm.
Qed.

Lemma encode_utf8_length (s : string) :
  List.length (encode_utf8 s) = String.length s.
Proof.
  unfold encode_utf8, list_byte_of_string. rewrite length_map.
  induction s as [|c r IH]; [reflexivity|].
  cbn [list_ascii_of_string List.length String.length]. now rewrite IH.
Qed.

(** The two decoders on a text of hexadecimal digits. *)
Lemma decoders_on_hex_digits (s : string) :
  all_hex (encode_utf8 s) = true ->
  let n := Z.of_nat (String.length s) in
  match b64decode s with
  | Some b => n mod 4 = 0 /\ 4 * Z.of_nat (List.length b) = 3 * n
  | None => n mod 4 <> 0
  end
  /\ match fromhex s with
     | Some b => n mod 2 = 0 /\ 2 * Z.of_nat (List.length b) = n
     | None => n mod 2 <> 0
     end.
Proof.
  intros H n.
  pose proof (a2b_hex_digits _ H 0 0) as Hb.
  pose proof (fromhex_hex_digits _ H) as Hh.
  rewrite encode_utf8_length in Hb, Hh.
  unfold b64decode, b64decode_bytes, fromhex.
  rewrite (all_hex_ascii _ H). split; assumption.
Qed.

(** X1.  A configured secret made of hexadecimal digits only is resolved
    by its length [n]: when [n] is a multiple of four the Base64 decoder
    accepts it and the key material is its Base64 decoding, [3n/4]
    bytes, which the hexadecimal decoding ([n/2] bytes) never is; when
    [n] is 2 modulo 4 the key material is the hexadecimal decoding; when
    [n] is odd it is the text itself, cut at 32 bytes. *)
Theorem hex_secret_resolution (s : string) :
  all_hex (encode_utf8 s) = true ->
  let n := Z.of_nat (String.length s) in
  let key := load_private_key s in
  (n mod 4 = 0 ->
     b64decode s = Some key
     /\ 4 * Z.of_nat (List.length key) = 3 * n
     /\ (s <> "" -> fromhex s <> Some key))
  /\ (n mod 4 = 2 ->
        b64decode s = None /\ fromhex s = Some key
        /\ 2 * Z.of_nat (List.length key) = n)
  /\ (n mod 2 = 1 ->
        b64decode s = None /\ fromhex s = None
        /\ key = take 32 (encode_utf8 s)).
Proof.
  intros H n key.
  destruct (decoders_on_hex_digits s H) as [Hb Hh]. fold n in Hb, Hh.
  unfold key, load_private_key.
  destruct (b64decode s) as [b|]; destruct (fromhex s) as [h|].
  - destruct Hb as [Hm Hl]. destruct Hh as [Hm' Hl'].
    split; [|split]; intros Hn; try lia.
    split; [reflexivity|]. split; [exact Hl|].
    intros Hs [= ->]. destruct s; [now apply Hs|].
    unfold n in *. cbn [String.length] in *. lia.
  - destruct Hb as [Hm Hl]. exfalso. zdm.
  - destruct Hh as [Hm' Hl'].
    split; [|split]; intros Hn; try lia; try zdm.
    split; [reflexivity|]. split; [reflexivity|]. exact Hl'.
  - split; [|split]; intros Hn; try zdm.
    repeat split.
Qed.

Lemma hex_secret_resolution_witness :
  all_hex (encode_utf8 "deadbeef") = true
  /\ (Z.of_nat (String.length "deadbeef") mod 4 = 0 ->
      b64decode "deadbeef" = Some (load_private_key "deadbeef")
      /\ 4 * Z.of_nat (List.length (load_private_key "deadbeef"))
         = 3 * Z.of_nat (String.length "deadbeef")
      /\ ("deadbeef" <> "" ->
          fromhex "deadbeef" <> Some (load_private_key "deadbeef"))).
Proof.
  split; [reflexivity|].
  apply (hex_secret_resolution "deadbeef"). reflexivity.
Defined.

End KeyDecoding.

(** ** Building the key pair *)
Section KeyPairConstruction.
Import Py Base64 Crypto Verifier.
Context `{W : World}.

(** X2.  With the [cryptography] package, a configured secret of 64
    hexadecimal digits (a 32-byte key written in hexadecimal) makes the
    constructor raise [ValueError]: the secret is read as Base64, which
    gives 48 bytes, and [from_private_bytes] wants 32.  (The node id is
    ASCII here and below: [upper] is the upper case of ASCII.) *)
Theorem hex_key_is_rejected_with_ed25519 (node_id s : string) :
  is_ascii (encode_utf8 node_id) = true ->
  ED25519_AVAILABLE = true ->
  or_else (getenv (env_key_name node_id))
          (getenv (env_key_name_alt node_id)) = Some s ->
  all_hex (encode_utf8 s) = true ->
  String.length s = 64%nat ->
  List.length (load_private_key s) = 48%nat
  /\ exists msg, WorkerKeypair_init node_id = Raise (Exn "ValueError" msg).
Proof.
  intros _ Hed Hs Hh Hl.
  destruct (decoders_on_hex_digits s Hh) as [Hb _]. rewrite Hl in Hb.
  assert (Hlen : List.length (load_private_key s) = 48%nat).
  { unfold load_private_key. destruct (b64decode s) as [b|].
    - destruct Hb as [_ Hb]. lia.
    - now elim Hb. }
  assert (Herr : load_private_key_error s = None).
  { unfold load_private_key_error.
    destruct (b64decode s); [reflexivity | now elim Hb]. }
  split; [exact Hlen|].
  unfold WorkerKeypair_init. rewrite Hs, Hed.
  destruct s as [|c r]; [discriminate Hl|].
  rewrite Herr. cbn [bind]. unfold from_private_bytes. rewrite Hlen.
  cbn [Nat.eqb bind]. eexists. reflexivity.
Qed.

(** When does the chain of decoders let an exception out? *)
Lemma load_private_key_error_cases (s : string) :
  match load_private_key_error s with
  | None =>
      ~ (b64decode s = None /\ fromhex s = None
         /\ valid_utf8 (encode_utf8 s) = false)
  | Some e =>
      b64decode s = None /\ fromhex s = None
      /\ valid_utf8 (encode_utf8 s) = false
      /\ e = Exn "UnicodeEncodeError" "surrogates not allowed"
  end.
Proof.
  unfold load_private_key_error, str_encode.
  destruct (b64decode s) as [b|]; [intros [H _]; discriminate H|].
  destruct (fromhex s) as [b|]; [intros [_ [H _]]; discriminate H|].
  destruct (valid_utf8 (encode_utf8 s)).
  - intros [_ [_ H]]. discriminate H.
  - repeat split.
Qed.

(** X3.  With a configured secret the constructor raises in two cases
    only: [UnicodeEncodeError] when the secret is neither Base64 nor
    hexadecimal and has no UTF-8 encoding, which the raw fallback asks
    for; and [ValueError] when the [cryptography] package is there and
    the key material is not 32 bytes long.  Otherwise the private key
    is the key material, whatever its length. *)
Theorem configured_key_must_be_32_bytes (node_id s : string) :
  is_ascii (encode_utf8 node_id) = true ->
  or_else (getenv (env_key_name node_id))
          (getenv (env_key_name_alt node_id)) = Some s ->
  s <> "" ->
  let not_encodable :=
    b64decode s = None /\ fromhex s = None
    /\ valid_utf8 (encode_utf8 s) = false in
  match WorkerKeypair_init node_id with
  | Ok kp =>
      ~ not_encodable
      /\ _private_key_bytes kp = load_private_key s
      /\ (ED25519_AVAILABLE = true ->
          List.length (load_private_key s) = 32%nat)
  | Raise e =>
      (not_encodable /\ exists msg, e = Exn "UnicodeEncodeError" msg)
      \/ (~ not_encodable
          /\ ED25519_AVAILABLE = true
          /\ List.length (load_private_key s) <> 32%nat
          /\ exists msg, e = Exn "ValueError" msg)
  end.
Proof.
  intros _ Hs Hne. cbn zeta. unfold WorkerKeypair_init. rewrite Hs.
  destruct s as [|c r]; [now elim Hne|].
  pose proof (load_private_key_error_cases (String c r)) as He.
  destruct (load_private_key_error (String c r)) as [e|]; cbn [bind].
  - destruct He as [H1 [H2 [H3 ->]]]. left.
    split; [auto | eexists; reflexivity].
  - destruct ED25519_AVAILABLE eqn:Hed; cbn [bind].
    + unfold from_private_bytes.
      destruct (Nat.eqb _ 32) eqn:Hl; cbn [bind _private_key_bytes].
      * apply Nat.eqb_eq in Hl. auto.
      * apply Nat.eqb_neq in Hl. right. split; [exact He|].
        split; [reflexivity|]. split; [exact Hl|]. eexists. reflexivity.
    + split; [exact He|]. split; [reflexivity | discriminate].
Qed.

(** X4.  An empty value of the private-key variables counts as no
    value: when each of the two variables is unset or empty the key is
    a fresh one, [Ed25519PrivateKey.generate()] with the [cryptography]
    package and [secrets.token_bytes(32)] without, and the constructor
    does not raise. *)
Theorem empty_secret_is_no_secret (node_id : string) :
  is_ascii (encode_utf8 node_id) = true ->
  truthy_opt (getenv (env_key_name node_id)) = false ->
  truthy_opt (getenv (env_key_name_alt node_id)) = false ->
  WorkerKeypair_init node_id =
    Ok (if ED25519_AVAILABLE
        then mkKeypair node_id (Some ed25519_generate)
               (ed25519_public_bytes ed25519_generate) ed25519_generate
        else mkKeypair node_id None
               (take 32 (Sha256.digest token_bytes32)) token_bytes32).
Proof.
  intros _ H1 H2. unfold WorkerKeypair_init, or_else. rewrite H1.
  destruct (getenv (env_key_name_alt node_id)) as [[|c r]|];
    try discriminate H2;
    destruct ED25519_AVAILABLE; reflexivity.
Qed.

Lemma take_digest (b : bytes) : take 32 (Sha256.digest b) = Sha256.digest b.
Proof. unfold take. apply firstn_all2. now rewrite digest_length. Qed.

Lemma str_take_all (s : string) (n : nat) :
  (String.length s <= n)%nat -> str_take n s = s.
Proof.
  revert n. induction s as [|c r IH]; intros [|n] H; try reflexivity.
  - cbn [String.length] in H. lia.
  - cbn [str_take]. f_equal. apply IH. cbn [String.length] in H. lia.
Qed.

(** X6.  Without the [cryptography] package the constructor raises on
    one kind of environment only: a configured secret that is neither
    Base64 nor hexadecimal and has no UTF-8 encoding, on which the raw
    fallback raises [UnicodeEncodeError].  On every other environment
    it returns, and the key pair it builds is a stand-in: the public
    key is the SHA-256 digest of the private key (32 bytes, so the
    address has 66 characters), and the signature of a message is the
    32-byte SHA-256 digest of the private key followed by the
    message. *)
Theorem dev_mode_key_pair (node_id : string) :
  is_ascii (encode_utf8 node_id) = true ->
  ED25519_AVAILABLE = false ->
  let not_encodable s :=
    b64decode s = None /\ fromhex s = None
    /\ valid_utf8 (encode_utf8 s) = false in
  let configured :=
    or_else (getenv (env_key_name node_id))
            (getenv (env_key_name_alt node_id)) in
  match WorkerKeypair_init node_id with
  | Ok kp =>
      (forall s, configured = Some s -> ~ not_encodable s)
      /\ _public_key_bytes kp = Sha256.digest (_private_key_bytes kp)
      /\ List.length (_public_key_bytes kp) = 32%nat
      /\ String.length (get_sui_address kp) = 66%nat
      /\ forall msg,
           sign kp msg = Sha256.digest (_private_key_bytes kp ++ msg)%list
           /\ List.length (sign kp msg) = 32%nat
  | Raise e =>
      exists s, configured = Some s /\ not_encodable s
                /\ exists msg, e = Exn "UnicodeEncodeError" msg
  end.
Proof.
  intros _ Hed. cbn zeta. unfold WorkerKeypair_init. rewrite Hed.
  set (env := or_else _ _).
  assert (G : forall priv,
            let kp := mkKeypair node_id None
                        (take 32 (Sha256.digest priv)) priv in
            _public_key_bytes kp = Sha256.digest (_private_key_bytes kp)
            /\ List.length (_public_key_bytes kp) = 32%nat
            /\ String.length (get_sui_address kp) = 66%nat
            /\ forall msg,
                 sign kp msg
                 = Sha256.digest (_private_key_bytes kp ++ msg)%list
                 /\ List.length (sign kp msg) = 32%nat).
  { intros priv kp. unfold kp, get_sui_address, sign.
    cbn [_public_key_bytes _private_key_bytes _keypair].
    rewrite take_digest, Hed.
    split; [reflexivity|]. split; [apply digest_length|]. split.
    - rewrite str_take_all by (rewrite hex_length, digest_length; lia).
      cbn [String.append String.length].
      now rewrite hex_length, digest_length.
    - intros msg. split; [reflexivity | apply digest_length]. }
  destruct env as [[|c r]|]; cbn [bind].
  - split; [|apply G]. intros s [= <-] [H _]. discriminate H.
  - pose proof (load_private_key_error_cases (String c r)) as He.
    destruct (load_private_key_error (String c r)) as [e|]; cbn [bind].
    + destruct He as [H1 [H2 [H3 ->]]]. exists (String c r).
      split; [reflexivity|]. split; [auto|]. eexists. reflexivity.
    + split; [|apply G]. now intros s [= <-].
  - split; [|apply G]. intros s [=].
Qed.

End KeyPairConstruction.

Section KeyPairRuns.
Import Py Base64 Crypto Verifier.

Lemma hex_key_is_rejected_with_ed25519_witness :
  let s := "000102030405060708090a0b0c0d0e0f101112131415161718191a1b1c1d1e1f" in
  let w := Dev.with_cryptography (Dev.world (Some s) (Response 200 None)) in
  List.length (load_private_key s) = 48%nat
  /\ exists msg,
       @WorkerKeypair_init w "worker-1" = Raise (Exn "ValueError" msg).
Proof.
  intros s w.
  apply (@hex_key_is_rejected_with_ed25519 w "worker-1" s); reflexivity.
Defined.

Lemma configured_key_must_be_32_bytes_witness :
  let s := "c2VjcmV0" in
  let w := Dev.world (Some s) (Response 200 None) in
  match @WorkerKeypair_init w "worker-1" with
  | Ok kp => _private_key_bytes kp = load_private_key s
  | Raise _ => False
  end.
Proof.
  intros s w.
  pose proof (@configured_key_must_be_32_bytes w "worker-1" s eq_refl
                eq_refl) as H.
  assert (Hne : s <> "") by discriminate.
  specialize (H Hne). cbn zeta in H.
  destruct (@WorkerKeypair_init w "worker-1") as [kp|e].
  - exact (proj1 (proj2 H)).
  - destruct H as [[[H _] _] | [_ [H _]]]; discriminate H.
Defined.

(** A secret with a byte that is no UTF-8, and neither Base64 nor
    hexadecimal: the constructor raises [UnicodeEncodeError], with and
    without the [cryptography] package. *)
Example secret_without_encoding :
  let s := String "255" "" in
  let w := Dev.world (Some s) (Response 200 None) in
  b64decode s = None /\ fromhex s = None
  /\ valid_utf8 (encode_utf8 s) = false
  /\ @WorkerKeypair_init w "worker-1"
     = Raise (Exn "UnicodeEncodeError" "surrogates not allowed")
  /\ @WorkerKeypair_init (Dev.with_cryptography w) "worker-1"
     = Raise (Exn "UnicodeEncodeError" "surrogates not allowed").
Proof. repeat split. Qed.

Lemma empty_secret_is_no_secret_witness :
  let w := Dev.world (Some "") (Response 200 None) in
  @WorkerKeypair_init w "worker-1" = Ok Dev.keypair.
Proof.
  intros w.
  apply (@empty_secret_is_no_secret w "worker-1"); reflexivity.
Defined.

Lemma dev_mode_key_pair_witness :
  match @WorkerKeypair_init Dev.offline "worker-1" with
  | Ok kp => String.length (get_sui_address kp) = 66%nat
  | Raise _ => False
  end.
Proof.
  pose proof (@dev_mode_key_pair Dev.offline "worker-1" eq_refl eq_refl)
    as H. cbn zeta in H.
  destruct (@WorkerKeypair_init Dev.offline "worker-1") as [kp|e].
  - exact (proj1 (proj2 (proj2 (proj2 H)))).
  - destruct H as [s [H _]]. discriminate H.
Defined.

(** X5.  Only the two variables named after the node are read: setting
    any other variable, such as [WORKER1_PRIVATE_KEY], leaves the key
    pair as it was. *)
Theorem other_variables_are_not_read (w : World)
    (node_id name value : string) :
  is_ascii (encode_utf8 node_id) = true ->
  name <> env_key_name node_id ->
  name <> env_key_name_alt node_id ->
  @WorkerKeypair_init (Dev.setenv w name value) node_id
  = @WorkerKeypair_init w node_id.
Proof.
  intros _ H1 H2. unfold WorkerKeypair_init.
  cbn [getenv Dev.setenv ED25519_AVAILABLE ed25519_generate token_bytes32
       ed25519_public_bytes].
  apply not_eq_sym in H1. apply not_eq_sym in H2.
  apply String.eqb_neq in H1. apply String.eqb_neq in H2.
  now rewrite H1, H2.
Qed.

Lemma other_variables_are_not_read_witness :
  let w := Dev.world None (Response 200 None) in
  @WorkerKeypair_init
     (Dev.setenv w "WORKER1_PRIVATE_KEY" "c2VjcmV0") "worker-1"
  = @WorkerKeypair_init w "worker-1".
Proof.
  intros w.
  apply (other_variables_are_not_read w "worker-1");
    [reflexivity | vm_compute; discriminate ..].
Defined.

End KeyPairRuns.

(** ** The address and the fields of an attestation *)
Section AddressAndFields.
Import Py Base64 Crypto.

(** The first [2n] digits are the digits of the first [n] bytes. *)
Lemma str_take_hex (n : nat) (b : bytes) :
  str_take (2 * n) (hex b) = hex (take n b).
Proof.
  revert b. induction n as [|n IH]; intros b.
  - now destruct b.
  - destruct b as [|x r]; [reflexivity|].
    replace (2 * S n)%nat with (S (S (2 * n))) by lia.
    cbn [hex str_take take firstn]. f_equal. f_equal. apply IH.
Qed.

(** X7.  The address is ["0x"] followed by the hexadecimal digits of
    the first 32 bytes of the public key: two key pairs have the same
    address exactly when their public keys agree on those bytes. *)
Theorem sui_address_is_the_key_prefix (k1 k2 : WorkerKeypair) :
  get_sui_address k1 = "0x" ++ hex (take 32 (_public_key_bytes k1))
  /\ (get_sui_address k1 = get_sui_address k2
      <-> take 32 (_public_key_bytes k1) = take 32 (_public_key_bytes k2)).
Proof.
  assert (E : forall k,
             get_sui_address k = "0x" ++ hex (take 32 (_public_key_bytes k))).
  { intros k. unfold get_sui_address.
    now rewrite <- (str_take_hex 32). }
  split; [apply E|]. rewrite !E. split.
  - intros H. injection H as H. now apply hex_inj.
  - now intros ->.
Qed.

Section Build.
Context `{W : World}.
Variables (node_id weights_hash : string) (loss_history : list float)
          (started_at finished_at global_model_hash : string)
          (num_samples epoch_count random_seed : Z)
          (keypair : WorkerKeypair)
          (hardware_info commit_verified : option pydict).

(** X8.  In every attestation the [message] field is the text that was
    signed: the [signature] field is the Base64 text of the signature
    of the UTF-8 bytes of [message], [publicKey] is the Base64 text of
    the public key, [signerPubKey] is the same text, and the address is
    the one of the key pair. *)
Theorem attestation_fields_decode :
  let a := create_attestation node_id weights_hash loss_history started_at
             finished_at global_model_hash num_samples epoch_count
             random_seed keypair hardware_info commit_verified in
  b64decode (signature a) = Some (sign keypair (encode_utf8 (message a)))
  /\ b64decode (publicKey a) = Some (_public_key_bytes keypair)
  /\ signerPubKey a = publicKey a
  /\ suiAddress a = get_sui_address keypair
  /\ weightsHash a = weights_hash
  /\ lossHistoryHash a
     = Sha256.hexdigest
         (encode_utf8 (join "," (map PyFloat.repr loss_history))).
Proof.
  intros a. unfold a, create_attestation.
  cbn [signature publicKey signerPubKey suiAddress weightsHash
       lossHistoryHash message].
  unfold get_public_key_base64.
  rewrite !b64decode_b64encode. repeat split.
Qed.

End Build.
End AddressAndFields.

(** ** The lines of the signed message *)
Section MessageLines.
Import Py Base64 Crypto Verifier.

(** A text is cut at its first line feed in one way only. *)
Lemma first_line (a b ta tb : string) :
  no_nl a = true -> no_nl b = true -> line_end ta -> line_end tb ->
  a ++ ta = b ++ tb -> a = b /\ ta = tb.
Proof.
  revert b. induction a as [|c a IH]; intros b Ha Hb Hta Htb E.
  - destruct b as [|d b]; [auto|]. exfalso.
    cbn [String.append] in E. cbn [no_nl] in Hb.
    apply andb_true_iff in Hb. destruct Hb as [Hd _].
    destruct Hta as [-> | [r ->]]; [discriminate E|].
    injection E as <- _. discriminate Hd.
  - destruct b as [|d b].
    + exfalso. cbn [String.append] in E. cbn [no_nl] in Ha.
      apply andb_true_iff in Ha. destruct Ha as [Hc _].
      destruct Htb as [-> | [r ->]]; [discriminate E|].
      injection E as -> _. discriminate Hc.
    + cbn [String.append] in E. injection E as <- E.
      cbn [no_nl] in Ha, Hb.
      apply andb_true_iff in Ha. apply andb_true_iff in Hb.
      destruct (IH b (proj2 Ha) (proj2 Hb) Hta Htb E) as [-> ->]. auto.
Qed.

Lemma optional_text_end (opt : list string) : line_end (optional_text opt).
Proof. destruct opt; [now left | right; eexists; reflexivity]. Qed.

Lemma join_with_optional (l : list string) (p : string) (opt : list string) :
  join nl ((l ++ [p]) ++ opt) = join nl (l ++ [p]) ++ optional_text opt.
Proof.
  destruct opt as [|o opt].
  - cbn [optional_text]. now rewrite app_nil_r, str_app_nil_r.
  - rewrite join_app; [reflexivity | now destruct l | discriminate].
Qed.

Section Build.
Context `{W : World}.
Variable keypair : WorkerKeypair.

(** The message, line by line. *)
Lemma message_text (n w : string) (l : list float) (s f g : string)
    (ns ec rs : Z) (hw cv : option pydict) :
  message (create_attestation n w l s f g ns ec rs keypair hw cv) =
    ("nodeId:" ++ n) ++ nl ++ ("weightsHash:" ++ w) ++ nl
    ++ ("lossHistoryHash:" ++ sha256_hash (loss_history_text l)) ++ nl
    ++ ("startedAt:" ++ s) ++ nl ++ ("finishedAt:" ++ f) ++ nl
    ++ ("globalModelHash:" ++ g) ++ nl
    ++ ("numSamples:" ++ str_int ns) ++ nl
    ++ ("epochCount:" ++ str_int ec) ++ nl
    ++ ("randomSeed:" ++ str_int rs)
    ++ optional_text (hardware_parts hw ++ commit_parts cv)%list.
Proof.
  unfold create_attestation. cbn [message].
  unfold message_parts, required_parts.
  set (opt := (hardware_parts hw ++ commit_parts cv)%list).
  change (List.app ?a opt) with (a ++ opt)%list.
  match goal with
  | |- join nl ([?l1; ?l2; ?l3; ?l4; ?l5; ?l6; ?l7; ?l8; ?l9] ++ opt)%list = _ =>
      change ([l1; l2; l3; l4; l5; l6; l7; l8; l9] ++ opt)%list
        with (([l1; l2; l3; l4; l5; l6; l7; l8] ++ [l9]) ++ opt)%list
  end.
  rewrite join_with_optional.
  cbn [List.app join]. now rewrite !str_app_assoc.
Qed.

(** X9.  The fields are joined by line feeds without escaping, so a
    line feed inside a field moves text between fields: the node id
    [x + "\nweightsHash:" + y] with the weights hash [z] gives the same
    message and the same signature as the node id [x] with the weights
    hash [y + "\nweightsHash:" + z]. *)
Theorem line_feed_moves_text_between_fields (x y z : string)
    (l : list float) (s f g : string) (ns ec rs : Z)
    (hw cv : option pydict) :
  let a1 := create_attestation (x ++ nl ++ "weightsHash:" ++ y) z
              l s f g ns ec rs keypair hw cv in
  let a2 := create_attestation x (y ++ nl ++ "weightsHash:" ++ z)
              l s f g ns ec rs keypair hw cv in
  message a1 = message a2
  /\ signature a1 = signature a2
  /\ weightsHash a1 <> weightsHash a2.
Proof.
  intros a1 a2.
  assert (E : message a1 = message a2).
  { unfold a1, a2. rewrite !message_text. now rewrite !str_app_assoc. }
  split; [exact E|]. split.
  - unfold a1, a2 in *. unfold create_attestation in *.
    cbn [message signature] in *. now rewrite E.
  - unfold a1, a2, create_attestation. cbn [weightsHash]. intros H.
    apply (f_equal String.length) in H.
    rewrite !str_length_app in H. cbn [String.length nl] in H. lia.
Qed.

Ltac cut_line E Hl1 Hl2 :=
  apply first_line in E;
  [ | rewrite no_nl_app; rewrite Hl1; reflexivity
    | rewrite no_nl_app; rewrite Hl2; reflexivity
    | try (right; eexists; reflexivity); try apply optional_text_end
    | try (right; eexists; reflexivity); try apply optional_text_end ].

(** X10.  When no text field holds a line feed, the message binds the
    nine required fields: two attestations with the same message have
    the same node id, weights hash, loss-history hash, time stamps,
    global model hash, sample count, epoch count and seed. *)
Theorem message_binds_the_required_fields
    (n1 w1 : string) (l1 : list float) (s1 f1 g1 : string)
    (ns1 ec1 rs1 : Z) (hw1 cv1 : option pydict)
    (n2 w2 : string) (l2 : list float) (s2 f2 g2 : string)
    (ns2 ec2 rs2 : Z) (hw2 cv2 : option pydict) :
  forallb no_nl [n1; w1; s1; f1; g1; n2; w2; s2; f2; g2] = true ->
  let a1 := create_attestation n1 w1 l1 s1 f1 g1 ns1 ec1 rs1 keypair
              hw1 cv1 in
  let a2 := create_attestation n2 w2 l2 s2 f2 g2 ns2 ec2 rs2 keypair
              hw2 cv2 in
  message a1 = message a2 ->
  n1 = n2 /\ w1 = w2 /\ lossHistoryHash a1 = lossHistoryHash a2
  /\ s1 = s2 /\ f1 = f2 /\ g1 = g2
  /\ ns1 = ns2 /\ ec1 = ec2 /\ rs1 = rs2.
Proof.
  intros Hc a1 a2 E. cbn [forallb] in Hc.
  repeat (apply andb_true_iff in Hc;
          let H := fresh "Hf" in destruct Hc as [H Hc]).
  unfold a1, a2 in *. rewrite !message_text in E.
  unfold create_attestation. cbn [lossHistoryHash].
  pose proof no_nl_sha256 as Hh. pose proof no_nl_str_int as Hi.
  cut_line E Hf Hf4. destruct E as [En E].
  apply str_app_cancel_l in En, E.
  cut_line E Hf0 Hf5. destruct E as [Ew E].
  apply str_app_cancel_l in Ew, E.
  cut_line E (Hh (loss_history_text l1)) (Hh (loss_history_text l2)).
  destruct E as [Eh E]. apply str_app_cancel_l in Eh, E.
  cut_line E Hf1 Hf6. destruct E as [Es E].
  apply str_app_cancel_l in Es, E.
  cut_line E Hf2 Hf7. destruct E as [Ef E].
  apply str_app_cancel_l in Ef, E.
  cut_line E Hf3 Hf8. destruct E as [Eg E].
  apply str_app_cancel_l in Eg, E.
  cut_line E (Hi ns1) (Hi ns2). destruct E as [Ens E].
  apply str_app_cancel_l in Ens, E.
  cut_line E (Hi ec1) (Hi ec2). destruct E as [Eec E].
  apply str_app_cancel_l in Eec, E.
  cut_line E (Hi rs1) (Hi rs2). destruct E as [Ers _].
  apply str_app_cancel_l in Ers.
  apply str_int_inj in Ens, Eec, Ers.
  repeat split; assumption.
Qed.

End Build.

Lemma message_binds_the_required_fields_witness :
  let a :=
    create_attestation (W := Dev.offline) "worker-1" "weights"
      [0.82; 0.71]%float "2024-01-01T00:00:00" "2024-01-01T00:00:09"
      "global" 10 2 1337 Dev.keypair None None in
  forallb no_nl
    [ "worker-1"; "weights"; "2024-01-01T00:00:00"; "2024-01-01T00:00:09";
      "global"; "worker-1"; "weights"; "2024-01-01T00:00:00";
      "2024-01-01T00:00:09"; "global" ] = true
  /\ message a = message a
  /\ lossHistoryHash a = lossHistoryHash a.
Proof.
  cbn zeta. split; [reflexivity|]. split; [reflexivity|].
  apply (message_binds_the_required_fields (W := Dev.offline) Dev.keypair
           "worker-1" "weights" [0.82; 0.71]%float "2024-01-01T00:00:00"
           "2024-01-01T00:00:09" "global" 10 2 1337 None None
           "worker-1" "weights" [0.82; 0.71]%float "2024-01-01T00:00:00"
           "2024-01-01T00:00:09" "global" 10 2 1337 None None
           eq_refl eq_refl).
Defined.

End MessageLines.

(** ** The commitment and the hardware information *)
Section CommitFormat.
Import Py Crypto Verifier.

(** X11.  A commitment matches only when it is the digest itself: a
    match implies that the commit hash is 64 lower-case hexadecimal
    digits, so a hash written in upper case, or with a prefix such as
    [sha256:] or [0x], never matches, whatever the plaintext. *)
Theorem matching_commit_is_a_bare_digest (p c : string) :
  cv_match (verify_commit p c) = true ->
  c = create_commit_hash p /\ is_hex_digest c = true
  /\ cv_verified (verify_commit p c) = true.
Proof.
  unfold verify_commit, create_commit_hash. cbn [cv_match cv_verified].
  intros H. pose proof H as E. apply String.eqb_eq in E.
  split; [now symmetry|]. split; [|exact H].
  rewrite <- E. apply hexdigest_shape.
Qed.

Lemma matching_commit_is_a_bare_digest_witness :
  let c := "31e26370225c0855b0966f4eb7b0820feaa07d086f131723c6362801ec880413" in
  cv_match (verify_commit Dev.sample_csv c) = true
  /\ is_hex_digest c = true.
Proof.
  intros c.
  assert (H : cv_match (verify_commit Dev.sample_csv c) = true)
    by (vm_compute; reflexivity).
  split; [exact H|].
  exact (proj1 (proj2 (matching_commit_is_a_bare_digest
                         Dev.sample_csv c H))).
Defined.

End CommitFormat.

Section Hardware.
Import Py Crypto.
Context `{W : World}.

(** X12.  Whether [psutil] is there, and whether its probe fails or
    not, the hardware information has the same five keys in the same
    order, so it is never empty, and its processor entry is never the
    empty text. *)
Theorem hardware_info_keys :
  map fst get_hardware_info =
    ["cpu_cores"; "cpu_physical_cores"; "memory_gb"; "platform"; "processor"]
  /\ truthy_dict (Some get_hardware_info) = true
  /\ dict_lookup "platform" get_hardware_info = Some (PStr platform_platform)
  /\ exists p, dict_lookup "processor" get_hardware_info = Some (PStr p)
               /\ p <> "".
Proof.
  unfold get_hardware_info.
  destruct PSUTIL_AVAILABLE; [destruct psutil_probe as [[[lg ph] tot]|]|];
    cbn [map fst truthy_dict]; (split; [reflexivity|]);
    (split; [reflexivity|]); (split; [reflexivity|]);
    try (exists "unknown"; split; [reflexivity | discriminate]).
  destruct platform_processor as [|c r] eqn:E; cbn [truthy_str].
  - exists "unknown". split; [reflexivity | discriminate].
  - exists (String c r). split; [reflexivity | discriminate].
Qed.

End Hardware.

(** ** Runs of the training *)
Section TrainingRuns.
Import Py TrainingEngine Verifier.
Context `{W : World}.

(** X13.  The shard is read only to count its lines: the loss history,
    the two hash sequences and the challenge seed of a run are the same
    for any two shards, two shards with the same sample count give the
    same result altogether, and the sample count is never below ten. *)
Theorem training_reads_only_the_line_count (a b : string) (epochs seed : Z) :
  let ra := train_on_csv a epochs seed in
  let rb := train_on_csv b epochs seed in
  loss_history ra = loss_history rb
  /\ epoch_loss_hashes ra = epoch_loss_hashes rb
  /\ epoch_gradient_norm_hashes ra = epoch_gradient_norm_hashes rb
  /\ random_challenge_seed ra = random_challenge_seed rb
  /\ (num_samples ra = num_samples rb -> ra = rb)
  /\ 10 <= num_samples ra.
Proof.
  unfold train_on_csv. destruct (loop_entry seed) as [st0 ch].
  cbn [loss_history epoch_loss_hashes epoch_gradient_norm_hashes
       random_challenge_seed num_samples].
  repeat split.
  - now intros ->.
  - unfold count_samples. lia.
Qed.

Lemma range_app (n m : Z) :
  0 <= n <= m ->
  range m = (range n ++ map Z.of_nat (seq (Z.to_nat n) (Z.to_nat (m - n))))%list.
Proof.
  intros H. unfold range. rewrite <- map_app. f_equal.
  replace (Z.to_nat m) with (Z.to_nat n + Z.to_nat (m - n))%nat by lia.
  now rewrite seq_app.
Qed.

(** X14.  For one seed, a run over more epochs extends a run over
    fewer: it has the same challenge seed, and its loss history and its
    two hash sequences start with those of the shorter run. *)
Theorem more_epochs_extend_the_run (csv_text : string)
    (epochs1 epochs2 seed : Z) :
  epochs1 <= epochs2 ->
  let r1 := train_on_csv csv_text epochs1 seed in
  let r2 := train_on_csv csv_text epochs2 seed in
  let k := List.length (loss_history r1) in
  random_challenge_seed r2 = random_challenge_seed r1
  /\ firstn k (loss_history r2) = loss_history r1
  /\ firstn k (epoch_loss_hashes r2) = epoch_loss_hashes r1
  /\ firstn k (epoch_gradient_norm_hashes r2)
     = epoch_gradient_norm_hashes r1.
Proof.
  intros Hle r1 r2 k.
  destruct (train_on_csv_lengths csv_text epochs1 seed) as [L1 [L2 [L3 _]]].
  fold r1 in L1, L2, L3. fold k in L1.
  assert (Hk2 : List.length (epoch_loss_hashes r1) = k) by congruence.
  assert (Hk3 : List.length (epoch_gradient_norm_hashes r1) = k)
    by congruence.
  clear L1 L2 L3. revert Hk2 Hk3. unfold k. clear k.
  unfold r1, r2, train_on_csv. clear r1 r2.
  destruct (loop_entry seed) as [st0 ch].
  cbn [loss_history epoch_loss_hashes epoch_gradient_norm_hashes
       random_challenge_seed].
  pose proof (epochs_run_bounds epochs1) as B1.
  assert (B : 0 <= epochs_run epochs1 <= epochs_run epochs2)
    by (unfold epochs_run in *; lia).
  rewrite (range_app _ _ B), fold_left_app.
  set (st1 := fold_left (epoch_body seed ch) (range (epochs_run epochs1)) st0).
  destruct (loop_appends seed ch
              (map Z.of_nat (seq (Z.to_nat (epochs_run epochs1))
                 (Z.to_nat (epochs_run epochs2 - epochs_run epochs1))))
              st1) as [Eh [El Eg]].
  cbn zeta in Eh, El, Eg. rewrite Eh, El, Eg. intros Hk2 Hk3.
  split; [reflexivity|].
  split; [|split].
  - now rewrite firstn_app, Nat.sub_diag, firstn_all, app_nil_r.
  - rewrite <- Hk2 at 1.
    now rewrite firstn_app, Nat.sub_diag, firstn_all, app_nil_r.
  - rewrite <- Hk3 at 1.
    now rewrite firstn_app, Nat.sub_diag, firstn_all, app_nil_r.
Qed.

End TrainingRuns.

Section TrainingRunsWitness.
Import Py TrainingEngine.

Lemma more_epochs_extend_the_run_witness :
  let r1 := train_on_csv (W := Dev.offline) "a,b" 1 1337 in
  let r2 := train_on_csv (W := Dev.offline) "a,b" 3 1337 in
  1 <= 3
  /\ firstn (List.length (loss_history r1)) (loss_history r2)
     = loss_history r1.
Proof.
  split; [lia|].
  apply (more_epochs_extend_the_run (W := Dev.offline) "a,b" 1 3 1337).
  lia.
Defined.

End TrainingRunsWitness.

(** ** [hash_lite] *)

(** The offset basis, two standard test vectors of FNV-1a, and the
    padding of [format]. *)
Example hash_lite_vectors :
  TrainingEngine.hash_lite "" = "h811c9dc5"
  /\ TrainingEngine.hash_lite "a" = "he40c292c"
  /\ TrainingEngine.hash_lite "foobar" = "hbf9cf968"
  /\ Py.format_08x 255 = "000000ff"
  /\ Py.format_08x 4294967296 = "100000000"
  /\ Py.format_08x (-255) = "-00000ff".
Proof. vm_compute. repeat split. Qed.

Section HashLite.
Import Py TrainingEngine Verifier.
Local Open Scope Z_scope.

Lemma hex_digits_length (k : nat) (n : Z) :
  String.length (hex_digits k n) = k.
Proof.
  revert n. induction k as [|k IH]; intros n; [reflexivity|].
  cbn [hex_digits]. rewrite str_length_app, IH. cbn [String.length]. lia.
Qed.

Lemma all_lower_hex_app (a b : string) :
  all_lower_hex (a ++ b) = all_lower_hex a && all_lower_hex b.
Proof.
  induction a as [|c a IH]; [reflexivity|].
  cbn [String.append all_lower_hex]. now rewrite IH, andb_assoc.
Qed.

Lemma hex_digits_lower (k : nat) (n : Z) :
  all_lower_hex (hex_digits k n) = true.
Proof.
  revert n. induction k as [|k IH]; intros n; [reflexivity|].
  cbn [hex_digits]. rewrite all_lower_hex_app, IH.
  cbn [all_lower_hex]. now rewrite hex_digit_lower.
Qed.

Lemma hex_width_32 (n : Z) : 0 <= n < 4294967296 -> (hex_width n <= 8)%nat.
Proof.
  intros Hn. unfold hex_width.
  assert (Z.log2 n < 32).
  { destruct (Z.eq_dec n 0) as [->|Hz]; [reflexivity|].
    apply Z.log2_lt_pow2; lia. }
  pose proof (Z.log2_nonneg n).
  assert (Z.log2 n / 4 + 1 <= 8)
    by (Z.to_euclidean_division_equations; lia).
  lia.
Qed.

(** The shifts add up to a multiplication by the FNV prime. *)
Lemma hash_lite_step_fnv (h c : Z) :
  hash_lite_step h c = (Z.lxor h c * 16777619) mod 4294967296.
Proof.
  unfold hash_lite_step. cbn zeta.
  rewrite !Z.shiftl_mul_pow2 by lia.
  change 4294967295 with (Z.ones 32). rewrite Z.land_ones by lia.
  change (2 ^ 32) with 4294967296. f_equal.
  change (2 ^ 1) with 2. change (2 ^ 4) with 16. change (2 ^ 7) with 128.
  change (2 ^ 8) with 256. change (2 ^ 24) with 16777216. lia.
Qed.

(** The loop keeps [h] within 32 bits. *)
Lemma hash_lite_state (l : list Z) (h : Z) :
  0 <= h < 4294967296 ->
  0 <= fold_left hash_lite_step l h < 4294967296.
Proof.
  revert h. induction l as [|c l IH]; intros h Hh; [exact Hh|].
  cbn [fold_left]. apply IH. rewrite hash_lite_step_fnv.
  apply Z.mod_pos_bound. lia.
Qed.

(** X15.  [hash_lite] returns the letter [h] followed by exactly eight
    lower-case hexadecimal digits, for every text. *)
Theorem hash_lite_shape (s : string) :
  exists digits,
    hash_lite s = String "h" digits
    /\ String.length digits = 8%nat
    /\ all_lower_hex digits = true.
Proof.
  unfold hash_lite, format_08x.
  pose proof (hash_lite_state (ords s) 2166136261) as Hr.
  set (h := fold_left hash_lite_step (ords s) 2166136261) in *.
  assert (Hh : 0 <= h < 4294967296) by (apply Hr; lia).
  destruct (h <? 0) eqn:Hneg; [apply Z.ltb_lt in Hneg; lia|].
  pose proof (hex_width_32 h Hh) as Hw.
  replace (Nat.max 8 (hex_width h)) with 8%nat by lia.
  eexists. split; [reflexivity|].
  split; [apply hex_digits_length | apply hex_digits_lower].
Qed.

Lemma fold_left_pointwise {A B} (f g : A -> B -> A) (l : list B) (a : A) :
  (forall x y, f x y = g x y) -> fold_left f l a = fold_left g l a.
Proof.
  intros H. revert a. induction l as [|b l IH]; intros a; [reflexivity|].
  cbn [fold_left]. now rewrite H, IH.
Qed.

Lemma code_points_ascii (l : list Z) :
  forallb (fun c => c <? 128) l = true -> code_points l = l.
Proof.
  induction l as [|c l IH]; [reflexivity|].
  cbn [forallb]. intros H. apply andb_true_iff in H. destruct H as [Hc Hl].
  cbn [code_points]. apply Z.ltb_lt in Hc.
  destruct (c <? 192) eqn:E; [|apply Z.ltb_ge in E; lia].
  now rewrite IH.
Qed.

(** X16.  [hash_lite] is the 32-bit FNV-1a hash of the code points of
    the text (the shifts add up to a multiplication by the prime
    16777619); on an ASCII text these are its bytes. *)
Theorem hash_lite_is_fnv1a (s : string) :
  hash_lite s = "h" ++ format_08x (fnv1a (ords s))
  /\ (Base64.is_ascii (encode_utf8 s) = true ->
      hash_lite s
      = "h" ++ format_08x (fnv1a (map byte_to_Z (encode_utf8 s)))).
Proof.
  assert (E : hash_lite s = "h" ++ format_08x (fnv1a (ords s))).
  { unfold hash_lite, fnv1a. do 2 f_equal.
    apply fold_left_pointwise, hash_lite_step_fnv. }
  split; [exact E|]. intros Ha. rewrite E. do 3 f_equal.
  unfold ords. apply code_points_ascii.
  unfold Base64.is_ascii in Ha. revert Ha.
  induction (encode_utf8 s) as [|b r IH]; [reflexivity|].
  cbn [forallb map]. intros H. apply andb_true_iff in H.
  destruct H as [-> Hr]. now apply IH.
Qed.

End HashLite.

(** ** The runs of the handler *)
Section RoundFacts.
Import Py Crypto TrainingEngine Api Verifier Rounds.
Context `{W : World}.
Variable KP : WorkerKeypair.

Ltac run :=
  lazy beta iota zeta delta
    [handle train train_and_attest decrypt_and_verify decrypt_failed
     post_decrypt mbind try_except ret raise lift log now audit_append
     get_audit clock audit_events calls].

Ltac run_head :=
  lazy beta iota zeta delta
    [handle train decrypt_and_verify decrypt_failed
     post_decrypt mbind try_except ret raise lift log now audit_append
     get_audit clock audit_events calls].

(** The tail of the round on a string the analyser accepts: the answer,
    the audit events added and the calls made. *)
Lemma train_and_attest_run (req : TrainShardRequest) (started s : string)
    (cv : option pydict) (st : hstate) (insights : pyval) :
  analyze_csv_text s = Ok insights ->
  let stats := train_on_csv s (epochCount req) (randomSeed req) in
  let finished := utcnow_isoformat (S (clock st)) in
  let a := round_attestation KP req stats started finished cv in
  exists payload added,
    train_and_attest KP req started (PStr s) cv st =
      (Ok (if truthy_opt (sessionKey req)
           then EncryptedUpdate
                  (encrypt_for_coordinator (PDict payload) (sessionKey req))
           else PlainUpdate (PDict payload)),
       mkH (5 + clock st) (audit_events st ++ added)
         (calls st ++ CallAnalyze (PStr s)
            :: CallTrain (PStr s) (epochCount req) (randomSeed req)
            :: CallAttest a
            :: (if truthy_opt (sessionKey req)
                then [CallEncrypt (PDict payload) (sessionKey req)]
                else [])))
    /\ map event_name added = completion_events
    /\ dict_lookup "auditTrace" payload
       = Some (PList (audit_events st ++ added))
    /\ dict_lookup "attestation" payload = Some (attestation_dict a)
    /\ dict_lookup "nodeId" payload = Some (PStr (nodeId req))
    /\ dict_lookup "numSamples" payload = Some (PInt (num_samples stats))
    /\ dict_lookup "weightsHash" payload = Some (PStr (weightsHash a))
    /\ dict_lookup "deltaWeightsHash" payload
       = Some (PStr ("sha256:" ++ str_take 32 (weightsHash a)))
    /\ dict_lookup "lossHistory" payload
       = Some (PList (map PFloat (loss_history stats)))
    /\ dict_lookup "startedAt" payload = Some (PStr started)
    /\ dict_lookup "finishedAt" payload = Some (PStr finished)
    /\ dict_lookup "dataInsights" payload = Some insights
    /\ dict_lookup "randomChallengeSeed" payload
       = Some (PInt (random_challenge_seed stats)).
Proof.
  intros H. destruct st as [ck au cs]. run.
  cbn [analyze_csv_shard train_on_csv_value]. rewrite H.
  destruct (truthy_opt (sessionKey req)); cbn [clock audit_events calls];
    eexists; eexists;
    (split;
     [ rewrite <- !app_assoc; cbn [List.app]; reflexivity
     | repeat split ]).
Qed.


Lemma round_without_decrypt (req : TrainShardRequest) :
  decrypt_requested req = false ->
  handle KP req =
    train_and_attest KP req (utcnow_isoformat 0) (PStr (dataShard req))
      None (mkH 1 [start_event req] []).
Proof. intros H. run_head. now rewrite H. Qed.

Lemma round_decrypt_raises (req : TrainShardRequest) (e : exn) :
  decrypt_requested req = true ->
  decrypted_data req = Raise e ->
  handle KP req = failure req e [decrypt_call req].
Proof.
  unfold decrypted_data. intros Hg Hd. run_head. rewrite Hg.
  destruct (response_json _) as [v|e'] eqn:Hr; cbn [bind] in Hd.
  - now rewrite Hd.
  - now injection Hd as ->.
Qed.

Lemma round_decrypt_unchecked (req : TrainShardRequest) (v : pyval) :
  decrypt_requested req = true ->
  decrypted_data req = Ok v ->
  truthy_opt (commitHash req) = false ->
  handle KP req =
    train_and_attest KP req (utcnow_isoformat 0) v None
      (mkH 3 [ start_event req; request_event req;
               event "decrypt_permission_granted" (utcnow_isoformat 2) [] ]
         [decrypt_call req]).
Proof.
  unfold decrypted_data. intros Hg Hd Hc.
  destruct (response_json _) as [dr|e'] eqn:Hr; cbn [bind] in Hd;
    [|discriminate].
  destruct (commitHash req) as [[|c r]|] eqn:Hh; try discriminate Hc;
    run_head; now rewrite Hg, Hr, Hd, Hh.
Qed.

Lemma round_decrypt_checked (req : TrainShardRequest) (v : pyval)
    (h : string) :
  decrypt_requested req = true ->
  decrypted_data req = Ok v ->
  commitHash req = Some h -> h <> "" ->
  handle KP req =
    match verify_commit_value v h with
    | Ok cvr =>
        train_and_attest KP req (utcnow_isoformat 0) v
          (Some (commit_dict cvr))
          (mkH 4 [ start_event req; request_event req;
                   event "commit_verification" (utcnow_isoformat 2)
                     [("match", PBool (cv_match cvr));
                      ("commitHash", PStr h)];
                   event "decrypt_permission_granted"
                     (utcnow_isoformat 3) [] ]
             [decrypt_call req; CallVerifyCommit v h])
    | Raise e => failure req e [decrypt_call req; CallVerifyCommit v h]
    end.
Proof.
  unfold decrypted_data. intros Hg Hd Hh Hne.
  destruct (response_json _) as [dr|e'] eqn:Hr; cbn [bind] in Hd;
    [|discriminate].
  destruct h as [|c r]; [now elim Hne|].
  destruct (verify_commit_value v (String c r)) as [cvr|e] eqn:Hv;
    run_head; now rewrite Hg, Hr, Hd, Hh, Hv.
Qed.



Lemma no_session_no_decrypt (req : TrainShardRequest) :
  truthy_opt (sessionKey req) = false -> decrypt_requested req = false.
Proof. unfold decrypt_requested. intros ->. apply andb_false_r. Qed.

Lemma train_and_attest_outcome (req : TrainShardRequest) (started : string)
    (v : pyval) (cv : option pydict) (st : hstate) :
  tail_outcome req st (train_and_attest KP req started v cv st)
  /\ map event_name
       (audit_events (snd (train_and_attest KP req started v cv st)))
     = (map event_name (audit_events st)
          ++ (if is_update (fst (train_and_attest KP req started v cv st))
              then completion_events else []))%list.
Proof.
  destruct (is_str v) eqn:Hv.
  - destruct v as [| | | |s| |]; try discriminate Hv.
    destruct (analyze_csv_text s) as [insights|e] eqn:Ha.
    + destruct (train_and_attest_run req started s cv st insights Ha)
        as [payload [added [E [Hn [Hau [_ [Hid _]]]]]]].
      rewrite E. cbn [tail_outcome fst snd audit_events].
      destruct (truthy_opt (sessionKey req)) eqn:Hk;
        cbn [is_update]; rewrite map_app, Hn;
        (split; [|reflexivity]); (split; [reflexivity|]);
        exists payload; auto.
    + destruct st as [ck au cs].
      assert (E : train_and_attest KP req started (PStr s) cv (mkH ck au cs)
                  = (Raise e, mkH ck au (cs ++ [CallAnalyze (PStr s)]))).
      { run. cbn [analyze_csv_shard]. now rewrite Ha. }
      rewrite E. cbn [tail_outcome fst snd audit_events calls is_update].
      rewrite app_nil_r. split; [|reflexivity]. eexists. split; reflexivity.
  - destruct st as [ck au cs].
    assert (E : train_and_attest KP req started v cv (mkH ck au cs)
                = (Raise (Exn "AttributeError"
                            "object has no attribute 'splitlines'"),
                   mkH ck au (cs ++ [CallAnalyze v]))).
    { run. destruct v; try discriminate Hv; reflexivity. }
    rewrite E. cbn [tail_outcome fst snd audit_events calls is_update].
    rewrite app_nil_r. split; [|reflexivity]. eexists. split; reflexivity.
Qed.



(** X18.  The audit trail of every run starts with [training_start];
    then come the events of the decryption block, if it was entered:
    [decrypt_permission_request] and then either [decrypt_failed], with
    the labelled error as the answer, or [decrypt_permission_granted],
    preceded by [commit_verification] exactly when the request has a
    non-empty commit hash; the four events of a completed training come
    last, exactly when the answer is an update. *)
Theorem audit_trail_of_a_round (req : TrainShardRequest) :
  let r := handle KP req in
  exists phase,
    map event_name (audit_events (snd r))
      = ("training_start"
           :: phase ++ (if is_update (fst r) then completion_events
                        else []))%list
    /\ (if decrypt_requested req
        then (phase = ["decrypt_permission_request"; "decrypt_failed"]
              /\ exists body, fst r = Ok (ErrorResponse body 400))
             \/ (phase =
                   ("decrypt_permission_request"
                      :: (if truthy_opt (commitHash req)
                          then ["commit_verification"] else [])
                      ++ ["decrypt_permission_granted"])%list
                 /\ forall body status,
                      fst r <> Ok (ErrorResponse body status))
        else phase = []).
Proof.
  cbn zeta.
  assert (T : forall started v cv st0,
            handle KP req = train_and_attest KP req started v cv st0 ->
            (map event_name
               (audit_events (snd (handle KP req)))
             = (map event_name (audit_events st0)
                  ++ (if is_update (fst (handle KP req))
                      then completion_events else []))%list)
            /\ forall body status,
                 fst (handle KP req) <> Ok (ErrorResponse body status)).
  { intros started v cv st0 ->.
    destruct (train_and_attest_outcome req started v cv st0) as [H E].
    split; [exact E|]. intros body status.
    destruct (train_and_attest KP req started v cv st0)
      as [[[b c|u|p]|e] st]; cbn [tail_outcome fst] in *;
      [destruct H | discriminate ..]. }
  destruct (decrypt_requested req) eqn:Hg.
  - destruct (decrypted_data req) as [v|e] eqn:Hd.
    + destruct (commitHash req) as [h|] eqn:Hh.
      * destruct (string_dec h "") as [->|Hne].
        -- assert (Hc : truthy_opt (commitHash req) = false)
             by (now rewrite Hh).
           destruct (T _ _ _ _ (round_decrypt_unchecked req v Hg Hd Hc))
             as [E Hn].
           eexists. split; [rewrite E; reflexivity|]. right.
           split; [reflexivity | exact Hn].
        -- pose proof (round_decrypt_checked req v h Hg Hd Hh Hne) as R.
           destruct (verify_commit_value v h) as [cvr|e].
           ++ destruct (T _ _ _ _ R) as [E Hn].
              eexists. split; [rewrite E; reflexivity|]. right.
              destruct h as [|c r]; [now elim Hne|].
              split; [reflexivity | exact Hn].
           ++ rewrite R.
              exists ["decrypt_permission_request"; "decrypt_failed"].
              split; [reflexivity|]. left.
              split; [reflexivity|]. eexists. reflexivity.
      * assert (Hc : truthy_opt (commitHash req) = false)
          by (now rewrite Hh).
        destruct (T _ _ _ _ (round_decrypt_unchecked req v Hg Hd Hc))
          as [E Hn].
        eexists. split; [rewrite E; reflexivity|]. right.
        split; [reflexivity | exact Hn].
    + rewrite (round_decrypt_raises req e Hg Hd).
      exists ["decrypt_permission_request"; "decrypt_failed"].
      split; [reflexivity|]. left.
      split; [reflexivity|]. eexists. reflexivity.
  - destruct (T _ _ _ _ (round_without_decrypt req Hg)) as [E _].
    exists []. split; [rewrite E; reflexivity | reflexivity].
Qed.



(** X20.  Every exception raised inside the decryption block is
    labelled - one raised on the way to the decrypted value, or the
    [TypeError] of the commitment check on a value that is no string:
    the answer is the error with status 400, the text
    ["Decryption failed: "] followed by the exception's text, the
    request's node id and the three audit events; nothing is analysed,
    trained or attested. *)
Theorem decrypt_exceptions_are_labelled (req : TrainShardRequest)
    (e : exn) :
  decrypt_requested req = true ->
  decrypted_data req = Raise e
  \/ (exists v h, decrypted_data req = Ok v /\ commitHash req = Some h
                  /\ h <> "" /\ verify_commit_value v h = Raise e) ->
  exists evs st,
    handle KP req =
      (Ok (ErrorResponse
             (PDict [ ("error", PStr ("Decryption failed: " ++ exn_str e));
                      ("nodeId", PStr (nodeId req));
                      ("auditEvents", PList evs) ]) 400), st)
    /\ audit_events st = evs
    /\ map event_name evs
       = ["training_start"; "decrypt_permission_request"; "decrypt_failed"]
    /\ dict_lookup "error"
         match nth 2 evs PNone with PDict d => d | _ => [] end
       = Some (PStr (exn_str e))
    /\ Forall is_decrypt_phase_call (calls st).
Proof.
  intros Hg [Hd | [v [h [Hd [Hh [Hne Hv]]]]]].
  - rewrite (round_decrypt_raises req e Hg Hd). unfold failure.
    eexists. eexists. split; [reflexivity|]. cbn [audit_events calls].
    repeat split. repeat constructor.
  - rewrite (round_decrypt_checked req v h Hg Hd Hh Hne), Hv.
    unfold failure.
    eexists. eexists. split; [reflexivity|]. cbn [audit_events calls].
    repeat split. repeat constructor.
Qed.

(** X21.  Every attestation built by the handler can be rebuilt: the
    handler always supplies the hardware information, which is never
    empty, so the message a verifier rebuilds from the attestation and
    the round's values is the signed one.  The first line of the
    message is the node id of the request, whatever the node id of the
    key pair; the public key is the one of the key pair, and the
    address and the hardware information are those [GET /health]
    reports. *)
Theorem round_attestation_can_be_rebuilt (req : TrainShardRequest)
    (a : Attestation) :
  In (CallAttest a) (calls (snd (handle KP req))) ->
  exists s finished,
    let stats := train_on_csv s (epochCount req) (randomSeed req) in
    verifier_message (nodeId req) (utcnow_isoformat 0) finished
      (globalModelHash req) (num_samples stats) (epochCount req)
      (randomSeed req) (loss_history stats) a
    = message a
    /\ hardwareInfo a = get_hardware_info
    /\ String.prefix ("nodeId:" ++ nodeId req ++ nl) (message a) = true
    /\ publicKey a = get_public_key_base64 KP
    /\ exists h,
         health KP = PDict h
         /\ dict_lookup "suiAddress" h = Some (PStr (suiAddress a))
         /\ dict_lookup "hardwareInfo" h = Some (PDict (hardwareInfo a)).
Proof.
  intros Hin.
  destruct (attest_calls_of_run KP req a Hin)
    as [s [finished [cv [_ [-> _]]]]].
  exists s, finished. cbn zeta.
  unfold health, round_attestation, WORKER_HARDWARE_INFO.
  destruct get_hardware_info_nonempty as [e [d E]]. rewrite E.
  split; [reflexivity|]. split; [reflexivity|].
  split; [|split; [reflexivity|]; eexists; split; [reflexivity|];
           split; reflexivity].
  unfold create_attestation. cbn [message].
  unfold message_parts, required_parts.
  cbn [List.app join].
  match goal with
  | |- String.prefix ?p (?x ++ nl ++ ?rest) = true =>
      replace (x ++ nl ++ rest) with (p ++ rest)
        by (now rewrite !str_app_assoc)
  end.
  apply prefix_of_app.
Qed.

End RoundFacts.

Section RoundRuns.
Import Py Crypto TrainingEngine Api Verifier Rounds.


Lemma decrypt_exceptions_are_labelled_witness :
  exists evs st,
    handle (W := Dev.answering PNone) Dev.keypair
      (Dev.committed_request "c0ffee")
    = (Ok (ErrorResponse
             (PDict [ ("error",
                        PStr ("Decryption failed: "
                                ++ "object supporting the buffer API required"));
                      ("nodeId", PStr "worker-1");
                      ("auditEvents", PList evs) ]) 400), st)
    /\ map event_name evs
       = ["training_start"; "decrypt_permission_request"; "decrypt_failed"].
Proof.
  assert (Hne : "c0ffee" <> "") by discriminate.
  destruct (decrypt_exceptions_are_labelled (W := Dev.answering PNone)
              Dev.keypair (Dev.committed_request "c0ffee")
              (Exn "TypeError" "object supporting the buffer API required")
              eq_refl
              (or_intror
                 (ex_intro _ PNone
                    (ex_intro _ "c0ffee"
                       (conj eq_refl
                          (conj eq_refl (conj Hne eq_refl)))))))
    as [evs [st [E [_ [Hn _]]]]].
  exists evs, st. split; [exact E | exact Hn].
Defined.

Lemma round_attestation_can_be_rebuilt_witness :
  let trace := calls (snd (handle (W := Dev.offline) Dev.keypair
                             Dev.plain_request)) in
  (exists a, In (CallAttest a) trace)
  /\ forall a, In (CallAttest a) trace ->
       publicKey a = get_public_key_base64 Dev.keypair.
Proof.
  cbn zeta. split.
  - destruct (handle_without_decrypt (W := Dev.offline) Dev.keypair
                Dev.plain_request eq_refl) as [st [E [_ Hc]]].
    destruct (train_and_attest_ok (W := Dev.offline) Dev.keypair
                Dev.plain_request (@utcnow_isoformat Dev.offline 0)
                (dataShard Dev.plain_request) None st
                (PDict [("num_samples", PInt 0)]) eq_refl)
      as [resp [st' [rest [E' [Hc' _]]]]].
    rewrite E, E'. cbn [snd]. rewrite Hc', Hc. eexists.
    right. right. left. reflexivity.
  - intros a Hin.
    destruct (round_attestation_can_be_rebuilt (W := Dev.offline)
                Dev.keypair Dev.plain_request a Hin)
      as [s [finished [_ [_ [_ [Hp _]]]]]].
    exact Hp.
Defined.

End RoundRuns.

(** ** The analyser *)
Section AnalyzerFacts.
Import Py TrainingEngine DataAnalyzer.

(** X22.  On a shard with fewer than two non-blank lines - an empty
    shard, or a header alone - the analyser answers without parsing:
    zero samples, and none of the keys [numeric_columns] and
    [categorical_columns] that every other answer has; the training on
    the same shard reports ten samples. *)
Theorem shard_without_data (analyze_rows : string -> result pyval)
    `{W : World} (csv_text : string) (epochs seed : Z) :
  (count_lines csv_text < 2)%nat ->
  exists d,
    analyze_csv_shard analyze_rows csv_text = Ok (PDict d)
    /\ dict_lookup "num_samples" d = Some (PInt 0)
    /\ dict_lookup "columns" d = Some (PList [])
    /\ dict_lookup "numeric_columns" d = None
    /\ dict_lookup "categorical_columns" d = None
    /\ num_samples (train_on_csv csv_text epochs seed) = 10.
Proof.
  intros H. unfold analyze_csv_shard.
  apply Nat.ltb_lt in H. rewrite H. eexists. split; [reflexivity|].
  repeat split.
  unfold train_on_csv. destruct (loop_entry seed) as [st0 ch].
  cbn [num_samples]. unfold count_samples.
  apply Nat.ltb_lt in H. unfold count_lines in H. lia.
Qed.

Lemma shard_without_data_witness :
  exists d,
    analyze_csv_shard (fun _ => Raise (Exn "Error" "")) "id,amount"
      = Ok (PDict d)
    /\ dict_lookup "num_samples" d = Some (PInt 0)
    /\ num_samples (train_on_csv (W := Dev.offline) "id,amount" 3 1337) = 10.
Proof.
  assert (H : (count_lines "id,amount" < 2)%nat) by (vm_compute; lia).
  destruct (shard_without_data (fun _ => Raise (Exn "Error" ""))
              (W := Dev.offline) "id,amount" 3 1337 H)
    as [d [E [Hn [_ [_ [_ Ht]]]]]].
  exists d. auto.
Defined.

Section ClusterFacts.
Variable float_pow : float -> float -> result float.
Hypothesis pow_in_range : forall x y, exists z, float_pow x y = Ok z.





End ClusterFacts.

(** Three points on a line, in three clusters. *)
Example simple_cluster_run :
  simple_cluster Dev.pow_stand_in
    [mkPoint 0 0; mkPoint 5 5; mkPoint 10 10] 3
  = Ok [ mkClustered 0 0 "A" "Cluster A";
         mkClustered 5 5 "B" "Cluster B";
         mkClustered 10 10 "C" "Cluster C" ].
Proof. vm_compute. reflexivity. Qed.


End AnalyzerFacts.

(** ** Inputs that are not read *)
Section IgnoredInputs.
Import Py Crypto TrainingEngine Api Verifier Rounds.

(** X24.  When the first private-key variable has a non-empty value,
    the second one is not read. *)
Theorem first_variable_wins (w : World) (node_id value : string) :
  Base64.is_ascii (encode_utf8 node_id) = true ->
  truthy_opt (@getenv w (env_key_name node_id)) = true ->
  env_key_name_alt node_id <> env_key_name node_id ->
  @WorkerKeypair_init (Dev.setenv w (env_key_name_alt node_id) value) node_id
  = @WorkerKeypair_init w node_id.
Proof.
  intros _ H Hd. unfold WorkerKeypair_init, or_else.
  cbn [getenv Dev.setenv ED25519_AVAILABLE ed25519_generate token_bytes32
       ed25519_public_bytes].
  apply not_eq_sym in Hd. apply String.eqb_neq in Hd.
  rewrite Hd, H. reflexivity.
Qed.

Lemma first_variable_wins_witness :
  let w := Dev.world (Some "c2VjcmV0") (Response 200 None) in
  @WorkerKeypair_init (Dev.setenv w "WORKER_1_PRIVATE_KEY" "b3RoZXI=")
     "worker-1"
  = @WorkerKeypair_init w "worker-1".
Proof.
  intros w.
  apply (first_variable_wins w "worker-1" "b3RoZXI=");
    [reflexivity | reflexivity | vm_compute; discriminate].
Defined.

Section Build.
Context `{W : World}.
Variables (node_id weights_hash : string) (loss_history : list float)
          (started_at finished_at global_model_hash : string)
          (num_samples epoch_count random_seed : Z)
          (keypair : WorkerKeypair) (hardware_info : option pydict).

(** X25.  The commitment summary is signed with defaults: a non-empty
    commit dictionary that lacks the keys [match] and [commitHash] gives
    the same message, with the lines [commitVerified:False] and an
    empty [commitHash:], as the dictionary with [match] false and an
    empty commit hash. *)
Theorem missing_commit_keys_are_signed_as_defaults
    (e : string * pyval) (d : pydict) :
  dict_lookup "match" (e :: d) = None ->
  dict_lookup "commitHash" (e :: d) = None ->
  let build := create_attestation node_id weights_hash loss_history
                 started_at finished_at global_model_hash num_samples
                 epoch_count random_seed keypair hardware_info in
  commit_parts (Some (e :: d)) = ["commitVerified:False"; "commitHash:"]
  /\ message (build (Some (e :: d)))
     = message (build (Some [ ("match", PBool false);
                              ("commitHash", PStr "") ]))
  /\ signature (build (Some (e :: d)))
     = signature (build (Some [ ("match", PBool false);
                                ("commitHash", PStr "") ])).
Proof.
  intros Hm Hh build.
  assert (E : commit_parts (Some (e :: d))
              = ["commitVerified:False"; "commitHash:"]).
  { unfold commit_parts, dict_get. now rewrite Hm, Hh. }
  split; [exact E|].
  assert (Em : message (build (Some (e :: d)))
               = message (build (Some [ ("match", PBool false);
                                        ("commitHash", PStr "") ]))).
  { unfold build, create_attestation. cbn [message].
    unfold message_parts. now rewrite E. }
  split; [exact Em|].
  unfold build, create_attestation in *. cbn [message signature] in *.
  now rewrite Em.
Qed.

End Build.

Lemma missing_commit_keys_are_signed_as_defaults_witness :
  commit_parts (W := Dev.offline) (Some [("verified", PBool true)])
  = ["commitVerified:False"; "commitHash:"].
Proof.
  apply (missing_commit_keys_are_signed_as_defaults (W := Dev.offline)
           "worker-1" "weights" [] "" "" "global" 10 1 1337 Dev.keypair None
           ("verified", PBool true) [] eq_refl eq_refl).
Defined.

Section Handler.
Context `{W : World}.
Variable KP : WorkerKeypair.

Ltac run :=
  lazy beta iota zeta delta
    [handle train train_and_attest decrypt_and_verify decrypt_failed
     post_decrypt mbind try_except ret raise lift log now audit_append
     get_audit clock audit_events calls].

(** X26.  Without a requested decryption the fields [encryptedData],
    [txBytes], [userAddress] and [commitHash] of the request are not
    read: two requests that agree on the other fields, neither of which
    asks for a decryption, have the same run - the same answer, audit
    trail and calls. *)
Theorem unread_fields_without_decryption (req1 req2 : TrainShardRequest) :
  decrypt_requested req1 = false ->
  decrypt_requested req2 = false ->
  dataShard req1 = dataShard req2 ->
  globalModelHash req1 = globalModelHash req2 ->
  epochCount req1 = epochCount req2 ->
  nodeId req1 = nodeId req2 ->
  randomSeed req1 = randomSeed req2 ->
  sessionKey req1 = sessionKey req2 ->
  handle KP req1 = handle KP req2.
Proof.
  intros H1 H2 Ed Eg Ee En Er Es.
  destruct req1 as [d1 g1 e1 n1 r1 x1 k1 t1 u1 c1].
  destruct req2 as [d2 g2 e2 n2 r2 x2 k2 t2 u2 c2].
  cbn [dataShard globalModelHash epochCount nodeId randomSeed sessionKey]
    in *. subst d2 g2 e2 n2 r2 k2.
  run. rewrite H1, H2. reflexivity.
Qed.

End Handler.

Lemma unread_fields_without_decryption_witness :
  handle (W := Dev.offline) Dev.keypair Dev.plain_request
  = handle (W := Dev.offline) Dev.keypair
      (mkRequest Dev.sample_csv "global" 0 "worker-1" 1337
         (Some "ciphertext") None (Some "tx") (Some "0xabc") None).
Proof.
  apply (unread_fields_without_decryption (W := Dev.offline) Dev.keypair);
    reflexivity.
Defined.

End IgnoredInputs.
